(** * gdax_logger: the segment-tree order book and its feed handler

    A shallow embedding of [gdax_logger/OrderBook.py] and of the parts of
    [gdax_logger/LoggerHandler.py] that feed and sample it, followed by the
    properties of the specification that were checked against them.

    Python numbers are kept as the program has them: prices and volumes are
    binary64 floats (the Standard Library's [SpecFloat] model at precision 53),
    list positions are unbounded integers.  A raised exception is [None]. *)

From Stdlib Require Import ZArith Lia SpecFloat String Ascii List.
From stdpp Require Import base option gmap strings list.

Local Open Scope Z_scope.

(** ** Python values *)

Module Py.

(** *** binary64 *)

Definition float : Type := spec_float.

Definition prec : Z := 53.
Definition emax : Z := 1024.

Definition fadd : float -> float -> float := SFadd prec emax.
Definition fsub : float -> float -> float := SFsub prec emax.
Definition fmul : float -> float -> float := SFmul prec emax.
Definition fdiv : float -> float -> float := SFdiv prec emax.

(** [x < y], [x <= y], [x == y]: all three are false on a NaN. *)
Definition flt : float -> float -> bool := SFltb.
Definition fle : float -> float -> bool := SFleb.
Definition feq : float -> float -> bool := SFeqb.

(** [float(z)] for a Python int [z]: the nearest binary64. *)
Definition of_int (z : Z) : float := binary_normalize prec emax z 0 false.

(** [int(x)]: truncation toward zero; [None] is the ValueError on a NaN
    and the OverflowError on an infinity. *)
Definition int_of_float (x : float) : option Z :=
  match x with
  | S754_zero _ => Some 0
  | S754_finite s m e =>
      let a := Z.shiftl (Z.pos m) e in Some (if s then - a else a)
  | S754_infinity _ | S754_nan => None
  end.

(** The binary64 nearest to [(-1)^neg * n / 10^k] (ties to even): what
    Python reads from a decimal literal with digits [n] and [k] digits
    after the point.  The division is the correctly rounded IEEE one,
    taken on the two exact integers. *)
Definition decimal (neg : bool) (n k : Z) : float :=
  match n with
  | Z.pos p =>
      fdiv (S754_finite neg p 0) (S754_finite false (Z.to_pos (10 ^ k)) 0)
  | _ => S754_zero neg
  end.

(** *** [float(s)] on a string *)

Definition digit (c : ascii) : option Z :=
  let n := Z.of_N (N_of_ascii c) in
  if (48 <=? n) && (n <=? 57) then Some (n - 48) else None.

(** Reads the leading digits of [s] onto [n]; returns the number read, how
    many digits it took and the rest of the string. *)
Fixpoint digits (s : string) (n cnt : Z) : Z * Z * string :=
  match s with
  | String c r =>
      match digit c with
      | Some d => digits r (10 * n + d) (cnt + 1)
      | None => (n, cnt, s)
      end
  | EmptyString => (n, cnt, s)
  end.

(** The plain decimal spellings the feed uses: an optional sign, digits, an
    optional point and digits.  Returns the sign, the digits as one number
    and how many of them follow the point. *)
Definition parse_decimal (s : string) : option (bool * Z * Z) :=
  let '(neg, s1) :=
    match s with
    | String "-" r => (true, r)
    | String "+" r => (false, r)
    | _ => (false, s)
    end in
  let '(ip, ic, s2) := digits s1 0 0 in
  match s2 with
  | EmptyString => if 0 <? ic then Some (neg, ip, 0) else None
  | String "." s3 =>
      let '(n, c, s4) := digits s3 ip 0 in
      match s4 with
      | EmptyString => if 0 <? ic + c then Some (neg, n, c) else None
      | _ => None
      end
  | _ => None
  end.

(** [float(s)]; [None] is the ValueError.  Python also reads exponents,
    [inf], [nan] and surrounding blanks; the feed never sends them and they
    are not modelled. *)
Definition float_of_string (s : string) : option float :=
  match parse_decimal s with
  | Some (neg, n, k) => Some (decimal neg n k)
  | None => None
  end.

(** *** the values a price or a volume arrives as

    A string or a number.  What else a frame can hold ([None], a list, a
    dict), on which [float] raises a TypeError, is left out: the functions
    below are read on strings and numbers only. *)

Inductive value : Type :=
| Str (s : string)
| Num (x : float).      (* an int or a float; ints as of_int *)

(** [isinstance(v, numbers.Number)] *)
Definition is_number (v : value) : bool :=
  match v with Num _ => true | Str _ => false end.

(** [float(v)] *)
Definition to_float (v : value) : option float :=
  match v with
  | Num x => Some x
  | Str s => float_of_string s
  end.

(** *** lists of numbers of a fixed length

    [[0] * n] has millions of cells for the production books, so the cells
    are a finite map from position to value and a missing cell holds the
    initial [0].  A subscript outside [-len .. len-1] raises IndexError;
    a negative one counts from the end. *)

Record pylist : Type := PyList { pl_len : Z; pl_cells : gmap Z float }.

Definition fzero : float := S754_zero false.

(** [[0] * n] *)
Definition zeros (n : Z) : pylist := PyList (Z.max 0 n) ∅.

Definition index (l : pylist) (i : Z) : option Z :=
  if (0 <=? i) && (i <? pl_len l) then Some i
  else if (- pl_len l <=? i) && (i <? 0) then Some (pl_len l + i)
  else None.

Definition cell (l : pylist) (k : Z) : float :=
  default fzero (pl_cells l !! k).

(** [l[i]] *)
Definition get (l : pylist) (i : Z) : option float :=
  k ← index l i; Some (cell l k).

(** [l[i] = v] *)
Definition set (l : pylist) (i : Z) (v : float) : option pylist :=
  k ← index l i; Some (PyList (pl_len l) (<[k := v]> (pl_cells l))).

(** *** loops *)

(** [while cond: body], run for at most [fuel] turns; [None] when the body
    raises or the turns run out. *)
Fixpoint while {S : Type} (fuel : nat) (cond : S -> bool)
    (body : S -> option S) (s : S) : option S :=
  if cond s then
    match fuel with
    | O => None
    | Datatypes.S fuel' => s' ← body s; while fuel' cond body s'
    end
  else Some s.

(** [range(start, stop)] and [range(start, stop, -1)] *)
Fixpoint count_up (n : nat) (i : Z) : list Z :=
  match n with
  | O => []
  | Datatypes.S n' => i :: count_up n' (i + 1)
  end.

Fixpoint count_down (n : nat) (i : Z) : list Z :=
  match n with
  | O => []
  | Datatypes.S n' => i :: count_down n' (i - 1)
  end.

Definition range (start stop : Z) : list Z :=
  count_up (Z.to_nat (stop - start)) start.

Definition range_down (start stop : Z) : list Z :=
  count_down (Z.to_nat (start - stop)) start.

(** [for x in xs: body] over a state that [body] may fail to update. *)
Fixpoint for_each {A S : Type} (xs : list A) (body : A -> S -> option S)
    (s : S) : option S :=
  match xs with
  | [] => Some s
  | x :: xs' => s' ← body x s; for_each xs' body s'
  end.

End Py.

(** ** OrderBook.py *)

Module OrderBook.
Import Py.

(** The fields of an [OrderBook]; the lock and the log are left out. *)
Record t : Type := Book {
  market_price : float;
  price_cap : float;
  price_points : Z;
  volume_seg_tree : pylist;
  currency : string
}.

Definition with_tree (b : t) (tree : pylist) : t :=
  Book (market_price b) (price_cap b) (price_points b) tree (currency b).

Definition with_market_price (b : t) (price : float) : t :=
  Book price (price_cap b) (price_points b) (volume_seg_tree b) (currency b).

Definition currencies : list string :=
  ["BTC-USD"; "BCH-USD"; "ETH-USD"; "LTC-USD"]%string.

(** [OrderBook(price_cap, currency)]; [None] is the ValueError of a cap that
    is not positive or of an unknown currency (the two TypeErrors are
    excluded by the argument types). *)
Definition new (price_cap : float) (currency : string) : option t :=
  if fle price_cap (of_int 0) then None
  else if bool_decide (currency ∈ currencies) then
    price_points ← int_of_float (fmul price_cap (of_int 100));
    Some (Book (of_int 0) price_cap price_points
               (zeros (2 * price_points)) currency)
  else None.

(** [__valid_number]: a number, or a string that [float] reads. *)
Definition valid_number (number : value) : bool :=
  if is_number number then true
  else match to_float number with Some _ => true | None => false end.

(** [__price_under_cap] *)
Definition price_under_cap (b : t) (price : float) : bool :=
  if flt (price_cap b) price then false else true.

(** [__valid_price] *)
Definition valid_price (b : t) (price : value) : bool :=
  if negb (valid_number price) then false
  else match to_float price with
       | Some price =>
           if fle price (of_int 0) then false else price_under_cap b price
       | None => false
       end.

(** [__valid_volume] *)
Definition valid_volume (volume : value) : bool :=
  if negb (valid_number volume) then false
  else match to_float volume with
       | Some volume => if flt volume (of_int 0) then false else true
       | None => false
       end.

(** [__valid_order] *)
Definition valid_order (b : t) (price volume : value) : bool :=
  valid_price b price && valid_volume volume.

(** [int(float(price) * 100)], the expression from which [update_volume] and
    [__gen_vol_array] both take the position of a price. *)
Definition cents (price : value) : option Z :=
  x ← to_float price; int_of_float (fmul x (of_int 100)).

(** The number of halvings that bring [i] to [0]: a bound on the turns of
    the two loops that shift an index right. *)
Definition halvings (i : Z) : nat := Z.to_nat (Z.log2 (Z.abs i) + 1).

(** One turn of the loop of [update_volume]. *)
Definition update_parent (st : pylist * Z) : option (pylist * Z) :=
  let '(tree, price_index) := st in
  a ← get tree price_index;
  c ← get tree (Z.lxor price_index 1);
  tree' ← set tree (Z.shiftr price_index 1) (fadd a c);
  Some (tree', Z.shiftr price_index 1).

(** [update_volume] *)
Definition update_volume (b : t) (price volume : value) : option t :=
  if valid_order b price volume then
    c ← cents price;
    let price_index := price_points b + c - 1 in
    v ← to_float volume;
    tree ← set (volume_seg_tree b) price_index v;
    st ← while (halvings price_index) (λ st, 1 <? st.2) update_parent
               (tree, price_index);
    Some (with_tree b st.1)
  else Some b.

(** [update_market_price] *)
Definition update_market_price (b : t) (price : value) : option t :=
  if valid_price b price then
    p ← to_float price; Some (with_market_price b p)
  else Some b.

(** [get_market_price] *)
Definition get_market_price (b : t) : float := market_price b.

(** The two [if]s of the loop of [get_volume_in_range]. *)
Definition take_left (tree : pylist) (st : float * Z) : option (float * Z) :=
  let '(volume_sum, left_index) := st in
  if negb (Z.land left_index 1 =? 0) then
    x ← get tree left_index; Some (fadd volume_sum x, left_index + 1)
  else Some (volume_sum, left_index).

Definition take_right (tree : pylist) (st : float * Z) : option (float * Z) :=
  let '(volume_sum, right_index) := st in
  if negb (Z.land right_index 1 =? 0) then
    x ← get tree (right_index - 1); Some (fadd volume_sum x, right_index - 1)
  else Some (volume_sum, right_index).

(** One turn of that loop. *)
Definition range_step (tree : pylist) (st : float * Z * Z)
    : option (float * Z * Z) :=
  let '(volume_sum, left_index, right_index) := st in
  sl ← take_left tree (volume_sum, left_index);
  sr ← take_right tree (sl.1, right_index);
  Some (sr.1, Z.shiftr sl.2 1, Z.shiftr sr.2 1).

(** The two positions [get_volume_in_range] starts from. *)
Definition left_index (b : t) (lower_price_bound : float) : option Z :=
  int_of_float
    (fadd (fsub (fmul lower_price_bound (of_int 100)) (of_int 1))
          (of_int (price_points b))).

Definition right_index (b : t) (upper_price_bound : float) : option Z :=
  int_of_float
    (fadd (fsub (fmul (fadd upper_price_bound (decimal false 1 2))
                      (of_int 100)) (of_int 1))
          (of_int (price_points b))).

(** [get_volume_in_range]; the bounds are numbers (a string would raise in
    [upper_price_bound + 0.01]). *)
Definition get_volume_in_range (b : t)
    (lower_price_bound upper_price_bound : float) : option float :=
  let volume_sum := of_int 0 in
  if valid_price b (Num lower_price_bound) &&
     valid_price b (Num upper_price_bound) then
    l ← left_index b lower_price_bound;
    r ← right_index b upper_price_bound;
    st ← while (halvings l + halvings r) (λ st, st.1.2 <? st.2)
               (range_step (volume_seg_tree b)) (volume_sum, l, r);
    Some st.1.1
  else Some volume_sum.

(** [get_total_volume] *)
Definition get_total_volume (b : t) : option float :=
  get_volume_in_range b (decimal false 1 2)
                        (fsub (price_cap b) (decimal false 1 2)).

(** [built] *)
Definition built (b : t) : option bool :=
  total ← get_total_volume b; Some (negb (feq total (of_int 0))).

(** [query]; the two clock readings are arguments.  The market price of a
    new book is the int [0]; it is kept as the float of the same value, and
    so are the percentages that are ints. *)
Definition query (b : t) (second_time : float) (server_time : string)
    (percent_ranges : list float) : option (list value) :=
  let price := get_market_price b in
  let row := [Num second_time; Str (currency b); Str server_time; Num price] in
  vols ← for_each percent_ranges
    (λ percent (vols : list float * list float),
       let high := fadd price (fdiv (fmul price percent) (of_int 100)) in
       let low := fsub price (fdiv (fmul price percent) (of_int 100)) in
       buy ← get_volume_in_range b low price;
       sell ← get_volume_in_range b price high;
       Some (vols.1 ++ [buy], vols.2 ++ [sell]))
    ([], []);
  total ← get_total_volume b;
  Some (row ++ (Num <$> vols.1) ++ (Num <$> vols.2) ++ [Num total]).

(** The argument of [init_book]: the [bids] and [asks] of a snapshot, each
    order a list [[price, volume]]. *)
Record orders : Type := Orders {
  bids : list (list value);
  asks : list (list value)
}.

(** The body of the two loops of [__gen_vol_array]. *)
Definition place_order (b : t) (order : list value) (volumes : pylist)
    : option pylist :=
  p ← order !! 0%nat;
  v ← order !! 1%nat;
  if valid_order b p v then
    c ← cents p;
    let price_index := c - 1 in
    x ← to_float v;
    set volumes price_index x
  else Some volumes.

(** [__gen_vol_array] *)
Definition gen_vol_array (b : t) (bid_orders ask_orders : list (list value))
    : option pylist :=
  let volumes := zeros (price_points b) in
  volumes ← for_each bid_orders (place_order b) volumes;
  for_each ask_orders (place_order b) volumes.

(** [__build_order_book] *)
Definition build_order_book (b : t) (volumes : pylist) : option t :=
  let n := price_points b in
  tree ← for_each (range 0 n)
    (λ i tree, x ← get volumes i; set tree (n + i) x)
    (volume_seg_tree b);
  tree ← for_each (range_down (n - 1) (-1))
    (λ i tree,
       a ← get tree (Z.shiftl i 1);
       c ← get tree (Z.lor (Z.shiftl i 1) 1);
       set tree i (fadd a c))
    tree;
  Some (with_tree b tree).

(** [init_book] *)
Definition init_book (b : t) (o : orders) : option t :=
  volumes ← gen_vol_array b (bids o) (asks o);
  build_order_book b volumes.

End OrderBook.

(** ** GDAXConstants.py *)

Module GDAXConst.

(** Modelled from the spec: [gdax_logger/GDAXConstants.py] is not among the
    sources.  The constants below are the message types and products of
    sections 4.4 and 6 and the column names of the [tickers] table; the
    products must be the currency names [OrderBook] accepts. *)
Definition l2update : string := "l2update".
Definition match_ : string := "match".
Definition snapshot : string := "snapshot".

(** Modelled from the spec: the four tracked products of section 6. *)
Definition btc_usd : string := "BTC-USD".
Definition eth_usd : string := "ETH-USD".
Definition ltc_usd : string := "LTC-USD".
Definition bch_usd : string := "BCH-USD".

(** Modelled from the spec: the columns of the [tickers] table of section 6,
    which are the keys of a ticker frame. *)
Definition system_time : string := "system_time".
Definition server_time : string := "server_time".
Definition product_id : string := "product_id".
Definition price : string := "price".
Definition open_24h : string := "open_24h".
Definition volume_24h : string := "volume_24h".
Definition best_bid : string := "best_bid".
Definition best_ask : string := "best_ask".
Definition side : string := "side".
Definition last_size : string := "last_size".

End GDAXConst.

(** ** LoggerHandler.py *)

Module LoggerHandler.
Import Py.

(** A decoded JSON text, as [json.loads] returns it.  The members of an
    object are in the order of the text, which is the order a Python dict
    iterates in. *)
#[warnings="-register-all"]
Inductive json : Type :=
| JNull
| JBool (b : bool)
| JNum (x : float)
| JStr (s : string)
| JArr (items : list json)
| JObj (members : list (string * json)).

(** [d[key]] on a dict; [None] is the KeyError (and the TypeError on a value
    that is no dict). *)
Definition member (key : string) (d : json) : option json :=
  match d with
  | JObj members => snd <$> find (λ kv, String.eqb kv.1 key) members
  | _ => None
  end.

(** [a[i]] on a list. *)
Definition item (i : nat) (a : json) : option json :=
  match a with
  | JArr items => items !! i
  | _ => None
  end.

(** A price or a volume taken from a frame: a string or a number ([True] and
    [False] are the numbers 1 and 0); on anything else [float] raises. *)
Definition to_value (j : json) : option value :=
  match j with
  | JStr s => Some (Str s)
  | JNum x => Some (Num x)
  | JBool b => Some (Num (of_int (if b then 1 else 0)))
  | JNull | JArr _ | JObj _ => None
  end.

(** [needle in hay] on two strings. *)
Fixpoint contains (needle hay : string) : bool :=
  String.prefix needle hay ||
  match hay with
  | EmptyString => false
  | String _ rest => contains needle rest
  end.

(** [fdata[key] = v] on a dict: a key already present keeps its place. *)
Fixpoint dict_set (d : list (string * json)) (key : string) (v : json)
    : list (string * json) :=
  match d with
  | [] => [(key, v)]
  | (k, w) :: rest =>
      if String.eqb k key then (k, v) :: rest
      else (k, w) :: dict_set rest key v
  end.

(** What the handler hands to sqlite: the database file, the statement and
    the row. *)
Record db_request : Type := DbRequest {
  path : string;
  sql : string;
  row : list json
}.

(** What sqlite answers: done, or an [sqlite3.Error] with its message. *)
Inductive db_result : Type :=
| DbDone
| DbError (message : string).

(** A [requests.post] to the Slack hook. *)
Record slack_post : Type := SlackPost {
  url : string;
  text : string
}.

(** The fields of a [LoggerHandler] that the methods below read or write. *)
Record t : Type := Handler {
  post_to_slack : bool;
  slack_url : string;
  last_error : float;
  order_books : gmap string OrderBook.t
}.

Definition with_last_error (h : t) (now : float) : t :=
  Handler (post_to_slack h) (slack_url h) now (order_books h).

Definition with_book (h : t) (product : string) (b : OrderBook.t) : t :=
  Handler (post_to_slack h) (slack_url h) (last_error h)
          (<[product := b]> (order_books h)).

Definition TICKER_PATH : string := "tickers.db".
Definition OB_PATH : string := "order_books.db".

Definition percent_ranges : list float :=
  [decimal false 1 2; decimal false 5 2; decimal false 1 1; decimal false 5 1;
   of_int 1; decimal false 25 1; of_int 5; of_int 10; of_int 25].

Definition product_ids : list string :=
  [GDAXConst.btc_usd; GDAXConst.eth_usd; GDAXConst.ltc_usd; GDAXConst.bch_usd].

Definition ticker_columns : list string :=
  [GDAXConst.system_time; GDAXConst.server_time; GDAXConst.product_id;
   GDAXConst.price; GDAXConst.open_24h; GDAXConst.volume_24h;
   GDAXConst.best_bid; GDAXConst.best_ask; GDAXConst.side;
   GDAXConst.last_size].

(** The column order of [CREATE TABLE tickers] in [__init_database]. *)
Definition tickers_schema : list string :=
  ["system_time"; "server_time"; "product_id"; "price"; "open_24h";
   "volume_24h"; "best_bid"; "best_ask"; "side"; "last_size"]%string.

(** [LoggerHandler()]; [now] is the clock at construction. *)
Definition new (now : float) : option t :=
  btc ← OrderBook.new (of_int 50000) GDAXConst.btc_usd;
  eth ← OrderBook.new (of_int 10000) GDAXConst.eth_usd;
  ltc ← OrderBook.new (of_int 5000) GDAXConst.ltc_usd;
  bch ← OrderBook.new (of_int 20000) GDAXConst.bch_usd;
  Some (Handler false "" (fsub now (of_int 300))
          (<[GDAXConst.btc_usd := btc]>
             (<[GDAXConst.eth_usd := eth]>
                (<[GDAXConst.ltc_usd := ltc]>
                   (<[GDAXConst.bch_usd := bch]> ∅))))).

(** [__write_to_slack] *)
Definition write_to_slack (h : t) (msg : string) : list slack_post :=
  if post_to_slack h then [SlackPost (slack_url h) msg] else [].

(** [__write_to_db], given what sqlite answered and the two readings of the
    clock the error branch takes.  Returns the handler, the posts made to
    Slack and the method's result ([true] for [True], [false] for [None]).
    The connection is taken to open: a failed [__create_connection] returns
    [None], on which [conn.execute] raises outside the [except], and is not
    among the answers. *)
Definition write_to_db (h : t) (answer : db_result) (now now' : float)
    : t * list slack_post * bool :=
  match answer with
  | DbDone => (h, [], true)
  | DbError err =>
      if negb (contains "database is locked" err) &&
         negb (contains "UNIQUE" err) then
        if fle (last_error h) (fsub now (of_int 300)) then
          let h' := with_last_error h now' in
          (h', write_to_slack h' ("Something went wrong: " +:+ err), false)
        else (h, [], false)
      else (h, [], false)
  end.

(** The dict [insert_ticker] builds and the row it makes of it. *)
Definition ticker_fdata (system_time : float) (server_time : string)
    (data : list (string * json)) : list (string * json) :=
  let fdata := [("system_time"%string, JNum system_time);
                ("server_time"%string, JStr server_time)] in
  fold_left
    (λ fdata kv,
       if bool_decide (kv.1 ∈ ticker_columns) then dict_set fdata kv.1 kv.2
       else fdata)
    data fdata.

(** [insert_ticker], up to the call of [__write_to_db]: the request it
    submits.  [system_time] and [server_time] are the two clock readings.
    The frame is an object, as the feed sends it; on a text that decodes to
    something else the model has no request. *)
Definition insert_ticker (system_time : float) (server_time : string)
    (data : json) : option db_request :=
  match data with
  | JObj members =>
      let fdata := ticker_fdata system_time server_time members in
      let row := snd <$> fdata in
      Some (DbRequest TICKER_PATH
              "INSERT INTO tickers VALUES (?, ?, ?, ?, ?, ?, ?, ?, ?, ?)" row)
  | _ => None
  end.

(** The [[price, volume]] lists of one side of a snapshot. *)
Definition to_orders (side : json) : option (list (list value)) :=
  match side with
  | JArr orders =>
      mapM (λ order,
              match order with
              | JArr fields => mapM to_value (take 2 fields)
              | _ => None
              end) orders
  | _ => None
  end.

Definition tracked (product : json) : option string :=
  match product with
  | JStr s => if bool_decide (s ∈ product_ids) then Some s else None
  | _ => None
  end.

(** [update_order_book] on a decoded frame of the feed: [type] is a string,
    prices and volumes are strings or numbers.  A frame with a field of
    another kind has no outcome here ([None]), also where the program would
    pass over the field without reading it. *)
Definition update_order_book (h : t) (data : json) : option t :=
  type ← member "type" data;
  type ← (match type with JStr s => Some s | _ => None end);
  h ← (if contains GDAXConst.l2update type then
         product ← member "product_id" data;
         changes ← member "changes" data;
         change ← item 0 changes;
         price ← item 1 change;
         changes ← member "changes" data;
         change ← item 0 changes;
         volume ← item 2 change;
         match tracked product return option t with
         | Some product =>
             book ← order_books h !! product;
             price ← to_value price;
             volume ← to_value volume;
             book ← OrderBook.update_volume book price volume;
             Some (with_book h product book)
         | None => Some h
         end
       else Some h);
  h ← (if contains GDAXConst.match_ type then
         product ← member "product_id" data;
         match tracked product return option t with
         | Some product =>
             book ← order_books h !! product;
             price ← member "price" data;
             price ← to_value price;
             book ← OrderBook.update_market_price book price;
             Some (with_book h product book)
         | None => Some h
         end
       else Some h);
  if contains GDAXConst.snapshot type then
    product ← member "product_id" data;
    match tracked product return option t with
    | Some product =>
        book ← order_books h !! product;
        bids ← member "bids" data;
        bids ← to_orders bids;
        asks ← member "asks" data;
        asks ← to_orders asks;
        book ← OrderBook.init_book book (OrderBook.Orders bids asks);
        Some (with_book h product book)
    | None => Some h
    end
  else Some h.

(** A value of a row as sqlite receives it. *)
Definition of_value (v : value) : json :=
  match v with
  | Str s => JStr s
  | Num x => JNum x
  end.

(** The line feed of a string literal that runs over several lines. *)
Definition line_feed : string := String "010"%char EmptyString.

(** The statement of [__query_order_books]. *)
Definition OB_INSERT : string :=
  line_feed +:+ "                INSERT INTO order_books VALUES (" +:+
  line_feed +:+ "                ?, ?, ?, ?, ?, ?, ?, ?, ?, ?, ?, ?," +:+
  line_feed +:+ "                ?, ?, ?, ?, ?, ?, ?, ?, ?, ?, ?" +:+
  line_feed +:+ "                )".

(** The column order of [CREATE TABLE order_books] in [__init_database]. *)
Definition order_books_schema : list string :=
  ["system_time"; "product_id"; "server_time"; "price";
   "buy_vol_0001"; "buy_vol_0005"; "buy_vol_0010"; "buy_vol_0050";
   "buy_vol_0100"; "buy_vol_0250"; "buy_vol_0500"; "buy_vol_1000";
   "buy_vol_2500"; "sell_vol_0001"; "sell_vol_0005"; "sell_vol_0010";
   "sell_vol_0050"; "sell_vol_0100"; "sell_vol_0250"; "sell_vol_0500";
   "sell_vol_1000"; "sell_vol_2500"; "total"]%string.

(** What one turn of the loop of [__query_order_books] meets outside the
    program: the two readings of the clock that [query] takes, the answer
    of sqlite to the insert, and the two readings of the clock in the error
    branch of [__write_to_db]. *)
Record sample : Type := Sample {
  sampled_at : float;
  sampled_utc : string;
  db_answer : db_result;
  failed_at : float;
  logged_at : float
}.

(** One turn of the loop of [__query_order_books], on the handler, the
    inserts submitted and the posts made to Slack so far. *)
Definition sample_product (world : string -> sample) (product_id : string)
    (st : t * list db_request * list slack_post)
    : option (t * list db_request * list slack_post) :=
  order_book ← order_books st.1.1 !! product_id;
  built ← OrderBook.built order_book;
  if negb built then Some st
  else
    let w := world product_id in
    row ← OrderBook.query order_book (sampled_at w) (sampled_utc w)
                          percent_ranges;
    let out := write_to_db st.1.1 (db_answer w) (failed_at w) (logged_at w) in
    Some (out.1.1,
          st.1.2 ++ [DbRequest OB_PATH OB_INSERT (of_value <$> row)],
          st.2 ++ out.1.2).

(** [__query_order_books]: the handler it leaves, the inserts it submits
    and the posts it makes to Slack; [world] is what the turn of each
    product meets. *)
Definition query_order_books (h : t) (world : string -> sample)
    : option (t * list db_request * list slack_post) :=
  for_each product_ids (sample_product world) (h, [], []).

End LoggerHandler.

(** ** Vocabulary of the properties *)

Module Props.
Import Py OrderBook.

(** The operations that change a book. *)
Inductive op : Type :=
| InitBook (o : orders)
| UpdateVolume (price volume : value)
| UpdateMarketPrice (price : value).

Definition apply (o : op) (b : t) : option t :=
  match o with
  | InitBook o => init_book b o
  | UpdateVolume price volume => update_volume b price volume
  | UpdateMarketPrice price => update_market_price b price
  end.

(** The result of a computation that did not raise. *)
Definition returned {A : Type} (d : A) (o : option A) : A := default d o.

Definition returns {A : Type} (o : option A) : bool :=
  match o with Some _ => true | None => false end.

(** The book after the operations [ops], in order; [None] when one raised. *)
Definition run (b : t) (ops : list op) : option t := for_each ops apply b.

(** A volume as section 3 of the specification has it: finite (the book
    itself turns the negative ones away). *)
Definition is_finite (x : float) : bool :=
  match x with
  | S754_zero _ | S754_finite _ _ _ => true
  | S754_infinity _ | S754_nan => false
  end.

Definition finite_volume (volume : value) : bool :=
  match to_float volume with
  | Some x => is_finite x
  | None => false
  end.

(** A price of at least one cent, as the book counts cents. *)
Definition at_least_a_cent (price : value) : bool :=
  match cents price with
  | Some c => 1 <=? c
  | None => false
  end.

(** An order of a snapshot is fine when the book turns it away or its volume
    is finite. *)
Definition valid_snapshot_order (b : t) (order : list value) : bool :=
  match order !! 0%nat, order !! 1%nat with
  | Some p, Some v => implb (valid_order b p v) (finite_volume v)
  | _, _ => true
  end.

(** A valid operation: a snapshot of such orders; an update that the book
    turns away, or that sets a finite volume at a price of at least one
    cent; any setting of the market price. *)
Definition valid_op (b : t) (o : op) : bool :=
  match o with
  | InitBook o => forallb (valid_snapshot_order b) (bids o ++ asks o)
  | UpdateVolume price volume =>
      implb (valid_order b price volume)
            (at_least_a_cent price && finite_volume volume)
  | UpdateMarketPrice _ => true
  end.

(** [tree[i]] for a position [i] of the tree. *)
Definition node (b : t) (i : Z) : float := cell (volume_seg_tree b) i.

(** What a cell of a book of valid volumes holds: a zero, a positive finite
    number or [+inf] (a sum that overflowed); never a NaN. *)
Definition volume_like (x : float) : Prop :=
  match x with
  | S754_zero _ | S754_finite false _ _ | S754_infinity false => True
  | _ => False
  end.

(** The shape every book has: [2 * price_points] cells. *)
Definition well_formed (b : t) : Prop :=
  0 <= price_points b /\ pl_len (volume_seg_tree b) = 2 * price_points b.

(** I1 of the specification: every internal node holds the sum of its two
    children. *)
Definition tree_sums (b : t) : Prop :=
  forall i, 1 <= i < price_points b ->
    node b i = fadd (node b (2 * i)) (node b (2 * i + 1)).

Definition all_volume_like (b : t) : Prop :=
  forall i, volume_like (node b i).

(** What the operations keep: the shape, I1 and cells that are volumes. *)
Definition sound (b : t) : Prop :=
  well_formed b /\ tree_sums b /\ all_volume_like b.

(** The loop of [update_volume]: every sum holds but the one above the
    position the loop stands on. *)
Definition climbing (n : Z) (st : pylist * Z) : Prop :=
  pl_len st.1 = 2 * n /\ (forall j, volume_like (cell st.1 j)) /\
  1 <= st.2 < 2 * n /\
  forall j, 1 <= j < n -> j <> st.2 / 2 ->
    cell st.1 j = fadd (cell st.1 (2 * j)) (cell st.1 (2 * j + 1)).

(** The array of a snapshot: as long as the tree has leaves, and holding
    volumes. *)
Definition volume_array (n : Z) (volumes : pylist) : Prop :=
  pl_len volumes = n /\ forall j, volume_like (cell volumes j).

(** A sum of cells of the tree, with its grouping. *)
Inductive sum_expr : Type :=
| Zero
| Cell (i : Z)
| Add (a c : sum_expr).

Fixpoint eval (tree : pylist) (e : sum_expr) : float :=
  match e with
  | Zero => of_int 0
  | Cell i => cell tree i
  | Add a c => fadd (eval tree a) (eval tree c)
  end.

Fixpoint cells_of (e : sum_expr) : list Z :=
  match e with
  | Zero => []
  | Cell i => [i]
  | Add a c => cells_of a ++ cells_of c
  end.

(** The sum a node at height [k] stands for: its [2^k] descendants [k]
    levels down, grouped as the tree groups them. *)
Fixpoint node_expr (k : nat) (i : Z) : sum_expr :=
  match k with
  | O => Cell i
  | S k' => Add (node_expr k' (2 * i)) (node_expr k' (2 * i + 1))
  end.

(** The loop of [get_volume_in_range] on a tree of [2 * n] cells, started
    on the positions [l0 .. r0-1]: at height [k] the sum so far is a sum
    [e] of the cells left of [l * 2^k] and right of [r * 2^k], and every
    node still between the two holds the sum of its descendants. *)
Definition summing (tree : pylist) (n l0 r0 : Z) (st : float * Z * Z) : Prop :=
  exists (k : nat) (e : sum_expr),
    st.1.1 = eval tree e /\
    1 <= st.1.2 <= st.2 /\ st.2 <= 2 * n /\
    l0 <= st.1.2 * 2 ^ Z.of_nat k /\ st.2 * 2 ^ Z.of_nat k <= r0 /\
    cells_of e ≡ₚ range l0 (st.1.2 * 2 ^ Z.of_nat k) ++
                  range (st.2 * 2 ^ Z.of_nat k) r0 /\
    forall i, st.1.2 <= i < st.2 -> cell tree i = eval tree (node_expr k i).






(** A two-dollar book and four operations on it. *)
Definition small_book : t :=
  Book (of_int 0) (of_int 2) 200 (zeros 400) "BTC-USD".

Definition small_ops : list op :=
  [InitBook (Orders [[Str "1.00"; Str "1.5"]; [Str "0.99"; Str "2.0"]]
                    [[Str "1.01"; Str "0.5"]]);
   UpdateVolume (Str "1.00") (Num (of_int 3));
   UpdateMarketPrice (Str "1.00");
   UpdateVolume (Str "0.99") (Num (of_int 0))].

(** The book of the scenarios of section 8: a cap of 200 dollars. *)
Definition cap200 : t :=
  Book (of_int 0) (of_int 200) 20000 (zeros 40000) "BTC-USD".

(** Four levels next to each other, from 100.02 to 100.05 dollars. *)
Definition four_levels : list op :=
  [UpdateVolume (Str "100.02") (Str "0.1");
   UpdateVolume (Str "100.03") (Str "0.1");
   UpdateVolume (Str "100.04") (Str "0.2");
   UpdateVolume (Str "100.05") (Str "0.3")].

Definition four_levels_book : t := returned cap200 (run cap200 four_levels).

(** Section 8, S1, S2 and S4 on that book. *)
Definition snapshot_s1 : orders :=
  Orders [[Str "100.00"; Str "1.5"]; [Str "99.50"; Str "2.0"]]
         [[Str "100.50"; Str "0.5"]].

Definition scenario_s4 : list op :=
  [InitBook snapshot_s1;
   UpdateVolume (Str "100.00") (Num (decimal false 30 1));
   UpdateMarketPrice (Str "100.00")].

Definition scenario_s4_book : t := returned cap200 (run cap200 scenario_s4).

(** The two starting positions of the range query, taken at the price of
    [c] cents, are the leaf of [c] and one past it, and the book accepts
    that price. *)
Definition on_cent (b : t) (c : Z) : bool :=
  let p := decimal false c 2 in
  valid_price b (Num p) &&
  match left_index b p, right_index b p with
  | Some l, Some r =>
      (l =? price_points b + c - 1) && (r =? price_points b + c)
  | _, _ => false
  end.

(** An update under one cent on the two-dollar book. *)
Definition sub_cent_book : t :=
  returned small_book (update_volume small_book (Str "0.005") (Str "1.0")).

(** One level at the price cap itself. *)
Definition level_at_cap : list op := [UpdateVolume (Str "200.00") (Str "1.0")].

Definition level_at_cap_book : t := returned cap200 (run cap200 level_at_cap).

(** A snapshot with a bid at 100.00 and an ask at the price cap. *)
Definition snapshot_to_cap : list op :=
  [InitBook (Orders [[Str "100.00"; Str "2.0"]] [[Str "200.00"; Str "1.0"]])].

Definition snapshot_to_cap_book : t :=
  returned cap200 (run cap200 snapshot_to_cap).

(** The production book of BTC-USD: a cap of 50000 dollars. *)
Definition btc_book : t :=
  Book (of_int 0) (of_int 50000) 5000000 (zeros 10000000) "BTC-USD".

(** [n / d] rounded to the nearest integer, ties to even ([0 < d]). *)
Definition round_half_even (n d : Z) : Z :=
  let q := n / d in
  let r := n mod d in
  if 2 * r <? d then q
  else if d <? 2 * r then q + 1
  else if Z.even q then q else q + 1.

(** Modelled from the spec: [to_index] of section 4.1, in the words of the
    specification (multiply by 100 with round-to-nearest-even, subtract 1),
    on the exact decimal the string denotes.  The program has no such
    function; it is set against [cents] below. *)
Definition to_index (price : string) : option Z :=
  match parse_decimal price with
  | Some (neg, n, k) =>
      Some (round_half_even ((if neg then - n else n) * 100) (10 ^ k) - 1)
  | None => None
  end.

(** A handler as [LoggerHandler()] makes it, the clock at 1600000000. *)
Definition no_handler : LoggerHandler.t :=
  LoggerHandler.Handler false "" (of_int 0) ∅.

Definition handler0 : LoggerHandler.t :=
  returned no_handler (LoggerHandler.new (of_int 1600000000)).

(** An [l2update] frame of section 6. *)
Definition l2update_frame (product : LoggerHandler.json)
    (changes : list LoggerHandler.json) : LoggerHandler.json :=
  LoggerHandler.JObj
    [("type"%string, LoggerHandler.JStr "l2update");
     ("product_id"%string, product);
     ("changes"%string, LoggerHandler.JArr changes)].

Definition change (side price size : string) : LoggerHandler.json :=
  LoggerHandler.JArr
    [LoggerHandler.JStr side; LoggerHandler.JStr price; LoggerHandler.JStr size].

Definition two_changes : LoggerHandler.json :=
  l2update_frame (LoggerHandler.JStr "BTC-USD")
    [change "buy" "100.00" "1.5"; change "sell" "101.00" "2.5"].

Definition the_book (product : string) (h : LoggerHandler.t) : t :=
  returned btc_book (LoggerHandler.order_books h !! product).

(** A [ticker] frame with its members in the order of section 6. *)
Definition ticker_s5 : LoggerHandler.json :=
  LoggerHandler.JObj
    [("type"%string, LoggerHandler.JStr "ticker");
     ("product_id"%string, LoggerHandler.JStr "BTC-USD");
     ("time"%string, LoggerHandler.JStr "2020-01-01T00:00:00.000Z");
     ("price"%string, LoggerHandler.JStr "123.45");
     ("best_bid"%string, LoggerHandler.JStr "123.44");
     ("best_ask"%string, LoggerHandler.JStr "123.46");
     ("open_24h"%string, LoggerHandler.JStr "120.00");
     ("volume_24h"%string, LoggerHandler.JStr "1000.5");
     ("side"%string, LoggerHandler.JStr "buy");
     ("last_size"%string, LoggerHandler.JStr "0.1");
     ("sequence"%string, LoggerHandler.JNum (of_int 42))].

(** A [ticker] frame with its members in the order the exchange sends. *)
Definition ticker_feed : LoggerHandler.json :=
  LoggerHandler.JObj
    [("type"%string, LoggerHandler.JStr "ticker");
     ("sequence"%string, LoggerHandler.JNum (of_int 42));
     ("product_id"%string, LoggerHandler.JStr "BTC-USD");
     ("price"%string, LoggerHandler.JStr "123.45");
     ("open_24h"%string, LoggerHandler.JStr "120.00");
     ("volume_24h"%string, LoggerHandler.JStr "1000.5");
     ("low_24h"%string, LoggerHandler.JStr "119.00");
     ("high_24h"%string, LoggerHandler.JStr "125.00");
     ("volume_30d"%string, LoggerHandler.JStr "30000.5");
     ("best_bid"%string, LoggerHandler.JStr "123.44");
     ("best_ask"%string, LoggerHandler.JStr "123.46");
     ("side"%string, LoggerHandler.JStr "buy");
     ("time"%string, LoggerHandler.JStr "2020-01-01T00:00:00.000Z");
     ("trade_id"%string, LoggerHandler.JNum (of_int 7));
     ("last_size"%string, LoggerHandler.JStr "0.1")].

(** The place of a column in the [tickers] table. *)
Fixpoint position (name : string) (columns : list string) : option nat :=
  match columns with
  | [] => None
  | c :: rest =>
      if String.eqb c name then Some O else S <$> position name rest
  end.

(** What a row holds in the place of a column. *)
Definition column (name : string) (row : list LoggerHandler.json)
    : option LoggerHandler.json :=
  i ← position name LoggerHandler.tickers_schema; row !! i.

(** A failed write: the message of the error and the two clock readings. *)
Definition failure : Type := string * float * float.

Definition fail (h : LoggerHandler.t) (f : failure)
    : LoggerHandler.t * list LoggerHandler.slack_post * bool :=
  LoggerHandler.write_to_db h (LoggerHandler.DbError f.1.1) f.1.2 f.2.

(** The test [__write_to_db] makes before it calls [__write_to_slack]. *)
Definition passes (h : LoggerHandler.t) (f : failure) : bool :=
  negb (LoggerHandler.contains "database is locked" f.1.1) &&
  negb (LoggerHandler.contains "UNIQUE" f.1.1) &&
  fle (LoggerHandler.last_error h) (fsub f.1.2 (of_int 300)).

(** The clock readings of the failures that posted to Slack, in a run of
    failed writes. *)
Fixpoint posting_readings (h : LoggerHandler.t) (fs : list failure)
    : list (float * float) :=
  match fs with
  | [] => []
  | f :: rest =>
      let out := fail h f in
      match out.1.2 with
      | [] => posting_readings out.1.1 rest
      | _ :: _ => (f.1.2, f.2) :: posting_readings out.1.1 rest
      end
  end.

(** Each post comes 300 seconds after the reading stored before it, as the
    program compares them. *)
Fixpoint spaced (last : float) (readings : list (float * float)) : Prop :=
  match readings with
  | [] => True
  | (now, now') :: rest =>
      fle last (fsub now (of_int 300)) = true /\ spaced now' rest
  end.






End Props.

(** ** Vocabulary of the further properties *)

Module More.
Import Py OrderBook Props.

(** The loop of [update_volume] writes internal nodes only: the leaves, and
    whatever lies outside the tree, stay as [tree0] has them. *)
Definition off_the_leaves (n : Z) (tree0 : pylist) (st : pylist * Z) : Prop :=
  pl_len st.1 = 2 * n /\ 1 <= st.2 < 2 * n /\
  forall j, n <= j \/ j <= 0 -> cell st.1 j = cell tree0 j.

(** Two books that read alike: the same fields, a tree of the same length
    and the same value in every cell of it. *)
Definition same_book (b1 b2 : t) : Prop :=
  market_price b1 = market_price b2 /\ price_cap b1 = price_cap b2 /\
  price_points b1 = price_points b2 /\ currency b1 = currency b2 /\
  pl_len (volume_seg_tree b1) = pl_len (volume_seg_tree b2) /\
  forall j, node b1 j = node b2 j.

(** A zero of either sign. *)
Definition is_zero (x : float) : bool :=
  match x with S754_zero _ => true | _ => false end.

(** The same number: the same value, or two zeros. *)
Definition same_number (x y : float) : Prop :=
  x = y \/ (is_zero x = true /\ is_zero y = true).

(** The cell of the array of a snapshot that [__gen_vol_array] writes an
    order to, and the volume it writes there, when the book accepts the
    order; a position below zero counts from the end of the array. *)
Definition placed (b : t) (order : list value) : option (Z * float) :=
  match order !! 0%nat, order !! 1%nat with
  | Some p, Some v =>
      if valid_order b p v then
        c ← cents p;
        x ← to_float v;
        k ← index (zeros (price_points b)) (c - 1);
        Some (k, x)
      else None
  | _, _ => None
  end.

Definition slot (b : t) (order : list value) : option Z :=
  fst <$> placed b order.

(** An order that [__gen_vol_array] places, or passes over, without
    raising. *)
Definition placeable (b : t) (order : list value) : bool :=
  returns (place_order b order (zeros (price_points b))).

(** The number of [?] in a statement. *)
Fixpoint placeholders (s : string) : nat :=
  match s with
  | EmptyString => O
  | String c rest =>
      if Ascii.eqb c "?" then S (placeholders rest) else placeholders rest
  end.

(** What an insert of [__query_order_books] looks like: to
    [order_books.db], with the statement of the method and a row of as many
    values as the statement has [?] and the table has columns. *)
Definition sampled (r : LoggerHandler.db_request) : Prop :=
  LoggerHandler.path r = LoggerHandler.OB_PATH /\
  LoggerHandler.sql r = LoggerHandler.OB_INSERT /\
  length (LoggerHandler.row r) = placeholders (LoggerHandler.sql r) /\
  length (LoggerHandler.row r) = length LoggerHandler.order_books_schema.

(** The other three production books. *)
Definition eth_book : t :=
  Book (of_int 0) (of_int 10000) 1000000 (zeros 2000000) "ETH-USD".

Definition ltc_book : t :=
  Book (of_int 0) (of_int 5000) 500000 (zeros 1000000) "LTC-USD".

Definition bch_book : t :=
  Book (of_int 0) (of_int 20000) 2000000 (zeros 4000000) "BCH-USD".

(** A handler whose BTC-USD book holds one level, and a world in which
    every insert succeeds. *)
Definition one_level_handler : LoggerHandler.t :=
  returned handler0 (LoggerHandler.update_order_book handler0 two_changes).

Definition quiet_world (product : string) : LoggerHandler.sample :=
  LoggerHandler.Sample (of_int 1600000000) "2020-09-13 12:26:40"
                       LoggerHandler.DbDone (of_int 0) (of_int 0).

Definition no_sample
    : LoggerHandler.t * list LoggerHandler.db_request
      * list LoggerHandler.slack_post :=
  (no_handler, [], []).

Definition one_sample
    : LoggerHandler.t * list LoggerHandler.db_request
      * list LoggerHandler.slack_post :=
  returned no_sample
    (LoggerHandler.query_order_books one_level_handler quiet_world).

(** A [match] frame of section 6, and an [l2update] frame without a
    change for a product the handler does not track. *)
Definition match_frame : LoggerHandler.json :=
  LoggerHandler.JObj
    [("type"%string, LoggerHandler.JStr "match");
     ("product_id"%string, LoggerHandler.JStr "BTC-USD");
     ("price"%string, LoggerHandler.JStr "100.00")].

Definition no_changes : LoggerHandler.json :=
  l2update_frame (LoggerHandler.JStr "XRP-USD") [].

(** A short ticker frame. *)
Definition short_ticker : list (string * LoggerHandler.json) :=
  [("type"%string, LoggerHandler.JStr "ticker");
   ("price"%string, LoggerHandler.JStr "123.45");
   ("product_id"%string, LoggerHandler.JStr "BTC-USD");
   ("sequence"%string, LoggerHandler.JNum (of_int 42));
   ("side"%string, LoggerHandler.JStr "buy")].

(** A run of frames through [update_order_book]. *)
Definition feed (h : LoggerHandler.t) (frames : list LoggerHandler.json)
    : option LoggerHandler.t :=
  for_each frames (λ data h, LoggerHandler.update_order_book h data) h.

(** What a frame leaves of a book: its cap, its price points and its
    currency. *)
Definition same_frame (b b' : t) : Prop :=
  price_cap b' = price_cap b /\ price_points b' = price_points b /\
  currency b' = currency b.

(** What [update_order_book] leaves of a handler: the Slack settings, the
    time of the last error, the products, and the frame of every book. *)
Definition same_handler (h h' : LoggerHandler.t) : Prop :=
  LoggerHandler.post_to_slack h' = LoggerHandler.post_to_slack h /\
  LoggerHandler.slack_url h' = LoggerHandler.slack_url h /\
  LoggerHandler.last_error h' = LoggerHandler.last_error h /\
  forall q,
    match LoggerHandler.order_books h !! q, LoggerHandler.order_books h' !! q
    with
    | Some b, Some b' => same_frame b b'
    | None, None => True
    | _, _ => False
    end.

(** What one frame leaves of a handler: all that [same_handler] names,
    and every book but the one of the product of the frame. *)
Definition kept (data : LoggerHandler.json) (h h' : LoggerHandler.t) : Prop :=
  same_handler h h' /\
  forall q,
    LoggerHandler.member "product_id" data <> Some (LoggerHandler.JStr q) ->
    LoggerHandler.order_books h' !! q = LoggerHandler.order_books h !! q.

(** The wanted members of a ticker frame. *)
Definition wanted (kv : string * LoggerHandler.json) : bool :=
  bool_decide (kv.1 ∈ LoggerHandler.ticker_columns).

(** Levels on the 200-dollar book. *)
Definition level_100 : op := UpdateVolume (Str "100.00") (Str "1.5").
Definition level_100_again : op := UpdateVolume (Str "100.00") (Str "3.0").
Definition level_100_off : op := UpdateVolume (Str "100.00") (Str "0").
Definition level_101 : op := UpdateVolume (Str "101.00") (Str "2.5").

Definition after (ops : list op) : t := returned cap200 (run cap200 ops).

(** The two-dollar book after its four operations, a snapshot that names
    the price 1.00 twice, and one with an order under a cent. *)
Definition small_after : t := returned small_book (run small_book small_ops).

Definition twice_one : orders :=
  Orders [[Str "1.00"; Str "1.5"]; [Str "0.99"; Str "2.0"]]
         [[Str "1.00"; Str "0.5"]; [Str "1.01"; Str "0.25"]].

Definition under_a_cent : orders :=
  Orders [[Str "0.005"; Str "1.0"]] [[Str "1.01"; Str "0.25"]].

(** What an update that the book [b] accepts at the cent [c] leaves in
    [b']: the volume [x] at the leaf of [c], and every other leaf and
    everything outside the tree as in [b]. *)
Definition leaf_set (b b' : t) (c : Z) (x : float) : Prop :=
  node b' (price_points b + c - 1) = x /\
  forall j, price_points b <= j \/ j <= 0 ->
            j <> price_points b + c - 1 -> node b' j = node b j.

End More.

(** * Properties *)

Import Py OrderBook Props.

(** ** Positions *)

Section Positions.

Lemma shiftl_1 i : Z.shiftl i 1 = 2 * i.
Proof. rewrite Z.shiftl_mul_pow2 by lia. change (2 ^ 1) with 2. lia. Qed.

Lemma lor_shiftl_1 i : 0 <= i -> Z.lor (Z.shiftl i 1) 1 = 2 * i + 1.
Proof. destruct i as [|p|p]; [reflexivity | reflexivity | lia]. Qed.

Lemma shiftr_1 i : Z.shiftr i 1 = i / 2.
Proof. rewrite Z.shiftr_div_pow2 by lia. reflexivity. Qed.

Lemma land_1 i : Z.land i 1 = i mod 2.
Proof. change 1 with (Z.ones 1) at 1. rewrite Z.land_ones by lia. reflexivity. Qed.

Lemma lxor_1_even i : 0 <= i -> i mod 2 = 0 -> Z.lxor i 1 = i + 1.
Proof.
  intros Hi Hm. destruct i as [|p|p]; [reflexivity | | lia].
  destruct p as [p|p|]; [| reflexivity |].
  - rewrite Pos2Z.inj_xI in Hm. replace (2 * Z.pos p + 1) with (1 + Z.pos p * 2) in Hm by lia.
    rewrite Z_mod_plus_full in Hm. discriminate.
  - discriminate.
Qed.

Lemma lxor_1_odd i : 0 <= i -> i mod 2 = 1 -> Z.lxor i 1 = i - 1.
Proof.
  intros Hi Hm. destruct i as [|p|p]; [discriminate | | lia].
  destruct p as [p|p|]; [reflexivity | | reflexivity].
  rewrite Pos2Z.inj_xO in Hm. replace (2 * Z.pos p) with (0 + Z.pos p * 2) in Hm by lia.
  rewrite Z_mod_plus_full in Hm. discriminate.
Qed.

Lemma halvings_shiftr r r1 :
  2 <= r -> 1 <= r1 <= r -> (halvings (Z.shiftr r1 1) < halvings r)%nat.
Proof.
  intros Hr Hr1. unfold halvings.
  assert (H0 : 0 <= Z.shiftr r1 1) by (apply Z.shiftr_nonneg; lia).
  rewrite !Z.abs_eq by lia.
  rewrite Z.log2_shiftr by lia.
  assert (Z.log2 r1 <= Z.log2 r) by (apply Z.log2_le_mono; lia).
  assert (1 <= Z.log2 r) by (change 1 with (Z.log2 2); apply Z.log2_le_mono; lia).
  lia.
Qed.

End Positions.

(** ** Lists and loops *)

Section Lists.

Lemma index_nonneg l i k : 0 <= i -> index l i = Some k -> k = i /\ i < pl_len l.
Proof.
  unfold index. intros Hi.
  destruct (Z.leb_spec 0 i); [| lia].
  destruct (Z.ltb_spec i (pl_len l)); simpl.
  - intros [= <-]. lia.
  - destruct (Z.leb_spec (- pl_len l) i), (Z.ltb_spec i 0); simpl;
      try discriminate; lia.
Qed.

Lemma index_in_range l i : 0 <= i < pl_len l -> index l i = Some i.
Proof.
  intros [H0 H1]. unfold index.
  destruct (Z.leb_spec 0 i); [| lia].
  destruct (Z.ltb_spec i (pl_len l)); [reflexivity | lia].
Qed.

Lemma get_nonneg l i x : 0 <= i -> get l i = Some x -> x = cell l i /\ i < pl_len l.
Proof.
  unfold get. intros Hi H.
  destruct (index l i) as [k|] eqn:Hk; [| discriminate].
  apply index_nonneg in Hk as [-> ?]; [| assumption].
  simpl in H. injection H as <-. auto.
Qed.

Lemma get_in_range l i : 0 <= i < pl_len l -> get l i = Some (cell l i).
Proof. intros H. unfold get. rewrite index_in_range by assumption. reflexivity. Qed.

Lemma set_nonneg l i v l' :
  0 <= i -> set l i v = Some l' ->
  l' = PyList (pl_len l) (<[i := v]> (pl_cells l)) /\ i < pl_len l.
Proof.
  unfold set. intros Hi H.
  destruct (index l i) as [k|] eqn:Hk; [| discriminate].
  apply index_nonneg in Hk as [-> ?]; [| assumption].
  simpl in H. injection H as <-. auto.
Qed.

Lemma set_in_range l i v :
  0 <= i < pl_len l -> set l i v = Some (PyList (pl_len l) (<[i := v]> (pl_cells l))).
Proof. intros H. unfold set. rewrite index_in_range by assumption. reflexivity. Qed.

Lemma set_any l i v l' :
  set l i v = Some l' ->
  exists k, l' = PyList (pl_len l) (<[k := v]> (pl_cells l)).
Proof.
  unfold set. destruct (index l i) as [k|]; [| discriminate].
  simpl. intros [= <-]. eauto.
Qed.

Lemma cell_insert_eq n m k v : cell (PyList n (<[k := v]> m)) k = v.
Proof. unfold cell. simpl. rewrite lookup_insert_eq. reflexivity. Qed.

Lemma cell_insert_ne n m k j v :
  k <> j -> cell (PyList n (<[k := v]> m)) j = cell (PyList n m) j.
Proof. intros H. unfold cell. simpl. rewrite lookup_insert_ne by assumption. reflexivity. Qed.

Lemma cell_zeros n k : cell (zeros n) k = fzero.
Proof. unfold cell, zeros. simpl. rewrite lookup_empty. reflexivity. Qed.

Lemma returns_returned {A : Type} (d : A) (o : option A) :
  returns o = true -> o = Some (returned d o).
Proof. destruct o; [reflexivity | discriminate]. Qed.

(** A loop that ended kept its invariant and left its condition false. *)
Lemma while_ended {S : Type} (Inv : S -> Prop) cond body :
  (forall s s1, Inv s -> cond s = true -> body s = Some s1 -> Inv s1) ->
  forall fuel s s', Inv s -> while fuel cond body s = Some s' ->
                    Inv s' /\ cond s' = false.
Proof.
  intros Hstep fuel. induction fuel as [|fuel IH]; intros s s' Hs Hw; simpl in Hw.
  - destruct (cond s) eqn:Hc; [discriminate |]. injection Hw as <-. auto.
  - destruct (cond s) eqn:Hc.
    + destruct (body s) as [s1|] eqn:Hb; [| discriminate]. simpl in Hw.
      eapply IH; [| exact Hw]. eauto.
    + injection Hw as <-. auto.
Qed.

(** A loop whose body never raises under the invariant and lowers a measure
    ends within as many turns as the measure allows. *)
Lemma while_ends {S : Type} (Inv : S -> Prop) (measure : S -> nat) cond body :
  (forall s, Inv s -> cond s = true ->
     exists s1, body s = Some s1 /\ Inv s1 /\ (measure s1 < measure s)%nat) ->
  forall fuel s, Inv s -> (measure s <= fuel)%nat ->
    exists s', while fuel cond body s = Some s' /\ Inv s' /\ cond s' = false.
Proof.
  intros Hstep fuel. induction fuel as [|fuel IH]; intros s Hs Hm; simpl.
  - destruct (cond s) eqn:Hc; [| eauto].
    destruct (Hstep s Hs Hc) as (s1 & _ & _ & Hlt). lia.
  - destruct (cond s) eqn:Hc; [| eauto].
    destruct (Hstep s Hs Hc) as (s1 & -> & Hs1 & Hlt). simpl.
    apply IH; [assumption | lia].
Qed.

End Lists.

(** ** Sums of volumes *)

Section Floats.

Lemma fadd_comm x y : fadd x y = fadd y x.
Proof.
  destruct x as [sx|sx| |sx mx ex], y as [sy|sy| |sy my ey];
    try destruct sx; try destruct sy; try reflexivity.
  all: unfold fadd, SFadd; rewrite (Z.min_comm ex ey);
    rewrite Z.add_comm; reflexivity.
Qed.

Lemma iter_pos_kept {A : Type} (P : A -> Prop) (f : A -> A) :
  (forall x, P x -> P (f x)) -> forall p x, P x -> P (SpecFloat.iter_pos f p x).
Proof.
  intros Hf p. induction p as [p IH|p IH|]; intros x Hx; simpl; auto.
Qed.

Lemma shr_1_nonneg mrs : 0 <= shr_m mrs -> 0 <= shr_m (shr_1 mrs).
Proof.
  destruct mrs as [m r s]. simpl. intros H.
  destruct m as [|p|p]; [simpl; lia | | lia].
  destruct p; simpl; lia.
Qed.

Lemma shr_fexp_nonneg m e l :
  0 <= m -> 0 <= shr_m (shr_fexp prec emax m e l).1.
Proof.
  intros Hm. unfold shr_fexp, shr.
  assert (H0 : 0 <= shr_m (shr_record_of_loc m l)).
  { destruct l as [|[]]; simpl; assumption. }
  destruct (fexp prec emax (Zdigits2 m + e) - e); simpl; try assumption.
  apply (iter_pos_kept (λ r, 0 <= shr_m r)); [apply shr_1_nonneg | assumption].
Qed.

Lemma round_nearest_even_nonneg m l : 0 <= m -> 0 <= round_nearest_even m l.
Proof.
  intros Hm. destruct l as [|[]]; simpl; try lia.
  destruct (Z.even m); lia.
Qed.

(** Rounding a sum of positive numbers gives no NaN and no negative. *)
Lemma binary_round_aux_volume_like m e l :
  0 <= m -> volume_like (binary_round_aux prec emax false m e l).
Proof.
  intros Hm. unfold binary_round_aux.
  pose proof (shr_fexp_nonneg m e l Hm) as H1.
  destruct (shr_fexp prec emax m e l) as [mrs' e']. simpl in H1.
  pose proof (shr_fexp_nonneg _ e' loc_Exact
                (round_nearest_even_nonneg _ (loc_of_shr_record mrs') H1)) as H2.
  destruct (shr_fexp prec emax _ e' loc_Exact) as [mrs'' e'']. simpl in H2.
  destruct (shr_m mrs'') as [|p|p]; [exact I | | lia].
  destruct (e'' <=? emax - prec); exact I.
Qed.

Lemma fadd_volume_like x y :
  volume_like x -> volume_like y -> volume_like (fadd x y).
Proof.
  destruct x as [sx|sx| |sx mx ex], y as [sy|sy| |sy my ey];
    try destruct sx; try destruct sy; simpl; try tauto.
  intros _ _. unfold binary_normalize. simpl.
  unfold binary_round.
  destruct (shl_align _ _ _) as [mz ez].
  apply binary_round_aux_volume_like. lia.
Qed.

Lemma feq_refl x : volume_like x -> feq x x = true.
Proof.
  destruct x as [s|s| |s m e]; try destruct s; simpl; try tauto; intros _;
    try reflexivity.
  unfold feq, SFeqb, SFcompare. rewrite Z.compare_refl.
  rewrite Pos.compare_cont_refl. reflexivity.
Qed.

(** The volume an accepted order carries. *)
Lemma accepted_volume_like volume x :
  valid_volume volume = true -> finite_volume volume = true ->
  to_float volume = Some x -> volume_like x.
Proof.
  unfold valid_volume, finite_volume. intros Hv Hf Hx. rewrite Hx in Hv, Hf.
  destruct (negb (valid_number volume)); [discriminate |].
  destruct x as [s|s| |s m e]; try discriminate; try exact I.
  destruct s; [discriminate | exact I].
Qed.

End Floats.

(** ** The sums of the tree (I1) *)

Section TreeSums.

Lemma fmul_positive_volume_like m e y :
  volume_like y -> volume_like (fmul (S754_finite false m e) y).
Proof.
  destruct y as [s|s| |s my ey]; try destruct s; simpl; try tauto; intros _.
  apply binary_round_aux_volume_like. lia.
Qed.

Lemma int_of_volume_like x n : volume_like x -> int_of_float x = Some n -> 0 <= n.
Proof.
  destruct x as [s|s| |s m e]; try destruct s; simpl; try tauto; intros _;
    try discriminate; intros [= <-]; [lia | lia |].
  apply Z.shiftl_nonneg. lia.
Qed.

Lemma new_sound cap cur b : new cap cur = Some b -> sound b.
Proof.
  unfold new. destruct (fle cap (of_int 0)) eqn:Hle; [discriminate |].
  destruct (bool_decide _); [| discriminate].
  destruct (int_of_float _) as [n|] eqn:Hn; [| discriminate].
  simpl. intros [= <-].
  assert (Hn0 : 0 <= n).
  { destruct cap as [s|s| |s m e].
    - destruct s; compute in Hle; discriminate.
    - destruct s; compute in Hn; discriminate.
    - compute in Hn. discriminate.
    - destruct s; [compute in Hle; discriminate |].
      eapply int_of_volume_like; [| exact Hn].
      apply fmul_positive_volume_like. exact I. }
  split; [| split].
  - split; simpl; lia.
  - intros i _. unfold node. simpl. rewrite !cell_zeros. reflexivity.
  - intros i. unfold node. simpl. rewrite cell_zeros. exact I.
Qed.

Lemma update_parent_climbing n st st1 :
  climbing n st -> (1 <? st.2) = true -> update_parent st = Some st1 ->
  climbing n st1.
Proof.
  destruct st as [tree p]. unfold climbing. simpl.
  intros (Hlen & Hvl & Hp & Hsums) Hc%Z.ltb_lt Hstep.
  unfold update_parent in Hstep.
  destruct (get tree p) as [a|] eqn:Ha; [| discriminate].
  apply get_nonneg in Ha as [-> _]; [| lia].
  simpl in Hstep.
  destruct (get tree (Z.lxor p 1)) as [c|] eqn:Hcq; [| discriminate].
  simpl in Hstep.
  destruct (set tree (Z.shiftr p 1) _) as [tree'|] eqn:Hset; [| discriminate].
  simpl in Hstep. injection Hstep as <-. simpl.
  rewrite shiftr_1 in *.
  assert (Hq : 1 <= p / 2 < n).
  { split; [apply Z.div_le_lower_bound; lia | apply Z.div_lt_upper_bound; lia]. }
  apply set_nonneg in Hset as [-> _]; [| lia].
  destruct tree as [len cells]. simpl in *.
  assert (Hsib : c = if Z.even p then cell (PyList len cells) (p + 1)
                     else cell (PyList len cells) (p - 1)).
  { destruct (Z.even p) eqn:He.
    - rewrite lxor_1_even in Hcq; [| lia |].
      + apply get_nonneg in Hcq as [-> _]; [reflexivity | lia].
      + apply Z.even_spec in He. destruct He as [k ->].
        rewrite Z.mul_comm. apply Z_mod_mult.
    - rewrite lxor_1_odd in Hcq; [| lia |].
      + apply get_nonneg in Hcq as [-> _]; [reflexivity | lia].
      + rewrite <- Z.negb_odd in He. apply negb_false_iff, Z.odd_spec in He.
        destruct He as [k ->]. rewrite Z.add_comm, Z.mul_comm.
        rewrite Z_mod_plus_full. reflexivity. }
  split; [assumption |]. split; [| split; [lia |]].
  - intros j. destruct (decide (p / 2 = j)) as [<-|Hne].
    + rewrite cell_insert_eq. apply fadd_volume_like; [apply Hvl |].
      rewrite Hsib. destruct (Z.even p); apply Hvl.
    + rewrite cell_insert_ne by assumption. apply Hvl.
  - intros j Hj Hne.
    destruct (decide (j = p / 2)) as [->|Hjq].
    + rewrite cell_insert_eq.
      rewrite !cell_insert_ne by lia.
      rewrite Hsib. destruct (Z.even p) eqn:He.
      * apply Z.even_spec in He. destruct He as [k ->].
        replace (2 * k / 2) with k by (rewrite Z.mul_comm, Z_div_mult; lia).
        reflexivity.
      * rewrite <- Z.negb_odd in He. apply negb_false_iff, Z.odd_spec in He.
        destruct He as [k ->].
        replace ((2 * k + 1) / 2) with k
          by (rewrite Z.add_comm, Z.mul_comm, Z_div_plus_full by lia; reflexivity).
        replace (2 * k + 1 - 1) with (2 * k) by lia.
        apply fadd_comm.
    + assert (p / 2 <> 2 * j /\ p / 2 <> 2 * j + 1).
      { split; intros Heq; apply Hne; rewrite Heq.
        - rewrite Z.mul_comm, Z_div_mult; lia.
        - rewrite Z.add_comm, Z.mul_comm, Z_div_plus_full by lia. reflexivity. }
      rewrite !cell_insert_ne by lia.
      apply Hsums; [assumption |].
      intros ->. contradiction.
Qed.

Lemma valid_order_volume b price volume :
  valid_order b price volume = true -> valid_volume volume = true.
Proof. unfold valid_order. intros [_ H]%andb_true_iff. exact H. Qed.

Lemma update_volume_sound b price volume b' :
  sound b -> valid_op b (UpdateVolume price volume) = true ->
  update_volume b price volume = Some b' -> sound b'.
Proof.
  intros ((Hn & Hlen) & Hsums & Hvl) Hvalid Hup.
  unfold update_volume in Hup. simpl in Hvalid.
  destruct (valid_order b price volume) eqn:Hvo;
    [| injection Hup as <-; repeat split; assumption].
  simpl in Hvalid. apply andb_true_iff in Hvalid as [Hcent Hfin].
  unfold at_least_a_cent in Hcent.
  destruct (cents price) as [c|]; [| discriminate].
  apply Z.leb_le in Hcent. simpl in Hup.
  destruct (to_float volume) as [v|] eqn:Hv; [| discriminate]. simpl in Hup.
  destruct (set _ _ v) as [tree1|] eqn:Hset; [| discriminate]. simpl in Hup.
  destruct (while _ _ _ _) as [st|] eqn:Hw; [| discriminate]. simpl in Hup.
  injection Hup as <-.
  apply set_nonneg in Hset as [-> Hlt]; [| lia].
  set (n := price_points b) in *.
  assert (Hv' : volume_like v).
  { eapply accepted_volume_like; eauto using valid_order_volume. }
  apply (while_ended (climbing n)) in Hw.
  - destruct Hw as ((Hlen' & Hvl' & Hp & Hs) & Hc). apply Z.ltb_ge in Hc.
    split; [split; assumption |]. split.
    + intros j Hj. apply Hs; [exact Hj |].
      replace st.2 with 1 by lia. change (1 / 2) with 0. lia.
    + exact Hvl'.
  - intros s s1. apply update_parent_climbing.
  - unfold climbing. simpl. split; [assumption |]. split; [| split; [lia |]].
    + intros j. destruct (decide (n + c - 1 = j)) as [<-|Hne].
      * rewrite cell_insert_eq. exact Hv'.
      * rewrite cell_insert_ne by assumption. apply (Hvl j).
    + intros j Hj Hne.
      assert (n + c - 1 <> 2 * j /\ n + c - 1 <> 2 * j + 1).
      { split; intros Heq; apply Hne; rewrite Heq.
        - rewrite Z.mul_comm, Z_div_mult; lia.
        - rewrite Z.add_comm, Z.mul_comm, Z_div_plus_full by lia. reflexivity. }
      rewrite !cell_insert_ne by lia. apply (Hsums j Hj).
Qed.

End TreeSums.

Section InitBook.

Lemma for_each_kept_in {A S : Type} (Inv : S -> Prop) (body : A -> S -> option S) xs :
  (forall x s s1, x ∈ xs -> Inv s -> body x s = Some s1 -> Inv s1) ->
  forall s s', Inv s -> for_each xs body s = Some s' -> Inv s'.
Proof.
  induction xs as [|x xs IH]; intros Hstep s s' Hs H; simpl in H.
  - injection H as <-. assumption.
  - destruct (body x s) as [s1|] eqn:Hb; [| discriminate]. simpl in H.
    eapply IH; [| | exact H].
    + intros y t t1 Hy. apply Hstep. right. exact Hy.
    + eapply Hstep; [left | exact Hs | exact Hb].
Qed.

Lemma place_order_volume_array b order volumes volumes' :
  valid_snapshot_order b order = true ->
  volume_array (price_points b) volumes ->
  place_order b order volumes = Some volumes' ->
  volume_array (price_points b) volumes'.
Proof.
  unfold valid_snapshot_order, place_order. intros Hvalid [Hlen Hvl] H.
  destruct (order !! 0%nat) as [p|]; [| discriminate].
  destruct (order !! 1%nat) as [v|]; [| discriminate].
  simpl in H. destruct (valid_order b p v) eqn:Hvo;
    [| injection H as <-; split; assumption].
  simpl in Hvalid.
  destruct (cents p) as [c|]; [| discriminate]. simpl in H.
  destruct (to_float v) as [x|] eqn:Hx; [| discriminate]. simpl in H.
  apply set_any in H as [k ->]. destruct volumes as [len cells]. simpl in *.
  split; [assumption |]. intros j.
  destruct (decide (k = j)) as [<-|Hne].
  - rewrite cell_insert_eq.
    eapply accepted_volume_like; eauto using valid_order_volume.
  - rewrite cell_insert_ne by assumption. apply Hvl.
Qed.

Lemma gen_vol_array_volume_array b bid_orders ask_orders volumes :
  0 <= price_points b ->
  forallb (valid_snapshot_order b) (bid_orders ++ ask_orders) = true ->
  gen_vol_array b bid_orders ask_orders = Some volumes ->
  volume_array (price_points b) volumes.
Proof.
  intros Hn Hvalid H. unfold gen_vol_array in H.
  rewrite forallb_app in Hvalid. apply andb_true_iff in Hvalid as [Hb Ha].
  rewrite forallb_forall in Hb, Ha.
  destruct (for_each bid_orders _ _) as [v1|] eqn:H1; [| discriminate].
  simpl in H.
  assert (volume_array (price_points b) v1) as Hv1.
  { eapply (for_each_kept_in (volume_array (price_points b))); [| | exact H1].
    - intros x s s1 Hx. apply place_order_volume_array, Hb.
      apply list_elem_of_In. exact Hx.
    - split; [simpl; lia |]. intros j. rewrite cell_zeros. exact I. }
  eapply (for_each_kept_in (volume_array (price_points b))); [| exact Hv1 | exact H].
  intros x s s1 Hx. apply place_order_volume_array, Ha.
  apply list_elem_of_In. exact Hx.
Qed.

(** The first loop of [__build_order_book] writes volumes into the tree. *)
Lemma copy_leaves_kept n volumes idxs tree tree' :
  (forall j, volume_like (cell volumes j)) ->
  (forall i, i ∈ idxs -> 0 <= i) ->
  pl_len tree = 2 * n -> (forall j, volume_like (cell tree j)) ->
  for_each idxs (λ i tree, x ← get volumes i; set tree (n + i) x) tree
    = Some tree' ->
  pl_len tree' = 2 * n /\ forall j, volume_like (cell tree' j).
Proof.
  intros Hvol His Hlen Hvl H.
  eapply (for_each_kept_in (λ t, pl_len t = 2 * n /\ forall j, volume_like (cell t j)));
    [| split; eassumption | exact H].
  intros i s s1 Hi [Hl Hv] Hb.
  destruct (get volumes i) as [x|] eqn:Hx; [| discriminate]. simpl in Hb.
  apply get_nonneg in Hx as [-> _]; [| auto].
  apply set_any in Hb as [k ->]. destruct s as [len cells]. simpl in *.
  split; [assumption |]. intros j.
  destruct (decide (k = j)) as [<-|Hne].
  - rewrite cell_insert_eq. apply Hvol.
  - rewrite cell_insert_ne by assumption. apply Hv.
Qed.

Lemma count_up_nonneg k i j : 0 <= i -> j ∈ count_up k i -> 0 <= j.
Proof.
  revert i. induction k as [|k IH]; intros i Hi Hj; simpl in Hj.
  - apply elem_of_nil in Hj. contradiction.
  - apply elem_of_cons in Hj as [->|Hj]; [assumption |].
    apply (IH (i + 1)); [lia | assumption].
Qed.

(** The second loop computes the sums from the last parent down. *)
Lemma sum_parents_sums n k :
  forall i tree tree',
    i = Z.of_nat k - 1 -> i < n ->
    pl_len tree = 2 * n -> (forall j, volume_like (cell tree j)) ->
    (forall j, i < j < n -> 1 <= j ->
       cell tree j = fadd (cell tree (2 * j)) (cell tree (2 * j + 1))) ->
    for_each (count_down k i)
      (λ i tree,
         a ← get tree (Z.shiftl i 1);
         c ← get tree (Z.lor (Z.shiftl i 1) 1);
         set tree i (fadd a c)) tree = Some tree' ->
    pl_len tree' = 2 * n /\ (forall j, volume_like (cell tree' j)) /\
    forall j, 1 <= j < n ->
      cell tree' j = fadd (cell tree' (2 * j)) (cell tree' (2 * j + 1)).
Proof.
  induction k as [|k IH]; intros i tree tree' Hi Hin Hlen Hvl Hs H; simpl in H.
  - injection H as <-. split; [assumption |]. split; [assumption |].
    intros j Hj. apply Hs; lia.
  - assert (Hi0 : 0 <= i) by lia.
    rewrite lor_shiftl_1, shiftl_1 in H by assumption.
    destruct (get tree (2 * i)) as [a|] eqn:Ha; [| discriminate].
    apply get_nonneg in Ha as [-> _]; [| lia]. simpl in H.
    destruct (get tree (2 * i + 1)) as [c|] eqn:Hc; [| discriminate].
    apply get_nonneg in Hc as [-> _]; [| lia]. simpl in H.
    destruct (set tree i _) as [tree1|] eqn:Hset; [| discriminate].
    simpl in H. apply set_nonneg in Hset as [-> _]; [| assumption].
    destruct tree as [len cells]. simpl in *.
    eapply (IH (i - 1)); [lia | lia | | | | exact H]; simpl.
    + assumption.
    + intros j. destruct (decide (i = j)) as [<-|Hne].
      * rewrite cell_insert_eq. apply fadd_volume_like; apply Hvl.
      * rewrite cell_insert_ne by assumption. apply Hvl.
    + intros j Hj Hj1. destruct (decide (i = j)) as [<-|Hne].
      * rewrite cell_insert_eq, !cell_insert_ne by lia. reflexivity.
      * rewrite !cell_insert_ne by lia. apply Hs; lia.
Qed.

Lemma init_book_sound b o b' :
  sound b -> valid_op b (InitBook o) = true ->
  init_book b o = Some b' -> sound b'.
Proof.
  intros ((Hn & Hlen) & Hsums & Hvl) Hvalid H. simpl in Hvalid.
  unfold init_book in H.
  destruct (gen_vol_array b (bids o) (asks o)) as [volumes|] eqn:Hg;
    [| discriminate].
  simpl in H.
  apply gen_vol_array_volume_array in Hg as [Hvlen Hvvl]; [| assumption ..].
  unfold build_order_book in H.
  destruct (for_each (range 0 _) _ _) as [tree1|] eqn:H1; [| discriminate].
  simpl in H.
  destruct (for_each (range_down _ _) _ _) as [tree2|] eqn:H2; [| discriminate].
  simpl in H. injection H as <-.
  apply (copy_leaves_kept (price_points b)) in H1 as [Hlen1 Hvl1];
    [| assumption | | assumption | assumption].
  2:{ intros i Hi. eapply count_up_nonneg; [| exact Hi]. lia. }
  unfold range_down in H2.
  apply (sum_parents_sums (price_points b)) in H2 as (Hlen2 & Hvl2 & Hs2);
    [| lia | lia | assumption | assumption |].
  - split; [split; assumption |]. split; assumption.
  - intros j Hj. lia.
Qed.

Lemma update_market_price_tree b price b' :
  update_market_price b price = Some b' ->
  price_cap b' = price_cap b /\ price_points b' = price_points b /\
  volume_seg_tree b' = volume_seg_tree b.
Proof.
  unfold update_market_price. destruct (valid_price b price).
  - destruct (to_float price); [| discriminate]. simpl. intros [= <-]. auto.
  - intros [= <-]. auto.
Qed.

Lemma apply_price_cap o b b' :
  apply o b = Some b' ->
  price_cap b' = price_cap b /\ price_points b' = price_points b.
Proof.
  destruct o as [o|p v|p]; simpl.
  - unfold init_book, build_order_book.
    destruct (gen_vol_array _ _ _); [| discriminate]. simpl.
    destruct (for_each (range 0 _) _ _); [| discriminate]. simpl.
    destruct (for_each (range_down _ _) _ _); [| discriminate]. simpl.
    intros [= <-]. auto.
  - unfold update_volume. destruct (valid_order b p v); [| intros [= <-]; auto].
    destruct (cents p); [| discriminate]. simpl.
    destruct (to_float v); [| discriminate]. simpl.
    destruct (set _ _ _); [| discriminate]. simpl.
    destruct (while _ _ _ _); [| discriminate]. simpl.
    intros [= <-]. auto.
  - intros H. apply update_market_price_tree in H. tauto.
Qed.

Lemma valid_order_cap b b' price volume :
  price_cap b' = price_cap b ->
  valid_order b' price volume = valid_order b price volume.
Proof.
  intros H. unfold valid_order, valid_price, price_under_cap. rewrite H.
  reflexivity.
Qed.

Lemma forallb_same {A : Type} (f g : A -> bool) xs :
  (forall x, f x = g x) -> forallb f xs = forallb g xs.
Proof.
  intros H. induction xs as [|x xs IH]; simpl; [reflexivity |].
  rewrite H, IH. reflexivity.
Qed.

Lemma valid_op_cap b b' o :
  price_cap b' = price_cap b -> valid_op b' o = valid_op b o.
Proof.
  intros H. destruct o as [o|p v|p]; simpl; [| | reflexivity].
  - apply forallb_same. intros order. unfold valid_snapshot_order.
    destruct (order !! 0%nat), (order !! 1%nat); try reflexivity.
    rewrite (valid_order_cap b b') by assumption. reflexivity.
  - rewrite (valid_order_cap b b') by assumption. reflexivity.
Qed.

Lemma apply_sound o b b' :
  sound b -> valid_op b o = true -> apply o b = Some b' -> sound b'.
Proof.
  destruct o as [o|p v|p]; simpl.
  - apply init_book_sound.
  - apply update_volume_sound.
  - intros Hs _ H. apply update_market_price_tree in H as (_ & Hn & Ht).
    destruct Hs as ((H0 & Hlen) & Hsums & Hvl).
    unfold sound, well_formed, tree_sums, all_volume_like, node.
    rewrite Hn, Ht. auto.
Qed.

(** Valid operations keep a sound book sound. *)
Lemma run_sound ops :
  forall b0 b b', price_cap b = price_cap b0 ->
    sound b -> forallb (valid_op b0) ops = true ->
    run b ops = Some b' -> sound b'.
Proof.
  unfold run. induction ops as [|o ops IH]; intros b0 b b' Hcap Hs Hv H;
    simpl in H.
  - injection H as <-. assumption.
  - simpl in Hv. apply andb_true_iff in Hv as [Hvo Hvs].
    destruct (apply o b) as [b1|] eqn:Hb; [| discriminate]. simpl in H.
    rewrite <- (valid_op_cap b0 b) in Hvo by assumption.
    eapply (IH b0 b1); [| | assumption | exact H].
    + apply apply_price_cap in Hb as [-> _]. assumption.
    + eapply apply_sound; eassumption.
Qed.

End InitBook.

Section UpdateReturns.

(** The loop of [update_volume] ends within the turns it is given. *)
Lemma update_volume_returns b price volume c v :
  well_formed b ->
  cents price = Some c -> 1 <= c <= price_points b ->
  to_float volume = Some v ->
  exists b', update_volume b price volume = Some b'.
Proof.
  intros [Hn Hlen] Hc Hr Hv. unfold update_volume.
  destruct (valid_order b price volume); [| eauto].
  rewrite Hc, Hv. cbn [mbind option_bind].
  set (n := price_points b) in *.
  rewrite set_in_range by lia. cbn [mbind option_bind].
  destruct (while_ends (λ st : pylist * Z, pl_len st.1 = 2 * n /\ 1 <= st.2 < 2 * n)
              (λ st, halvings st.2) (λ st, 1 <? st.2) update_parent)
    with (fuel := halvings (n + c - 1))
         (s := (PyList (pl_len (volume_seg_tree b))
                       (<[n + c - 1 := v]> (pl_cells (volume_seg_tree b))),
                n + c - 1))
    as (st & -> & _); cbn [fst snd pl_len]; eauto; [| lia].
  intros [tree p] [Hl Hp] Hcond%Z.ltb_lt. cbn [fst snd] in *.
  unfold update_parent.
  rewrite (get_in_range tree p) by lia. cbn [mbind option_bind].
  assert (Hx : 0 <= Z.lxor p 1 < pl_len tree).
  { destruct (Z.eq_dec (p mod 2) 0) as [He|Ho].
    - rewrite lxor_1_even by lia.
      apply Z.mod_divide in He as [a ->]; lia.
    - pose proof (Z.mod_pos_bound p 2). rewrite lxor_1_odd; lia. }
  rewrite (get_in_range tree (Z.lxor p 1)) by exact Hx.
  cbn [mbind option_bind].
  assert (Hq : 1 <= Z.shiftr p 1 < n).
  { rewrite shiftr_1. split;
      [apply Z.div_le_lower_bound; lia | apply Z.div_lt_upper_bound; lia]. }
  rewrite (set_in_range tree (Z.shiftr p 1)) by lia.
  cbn [mbind option_bind].
  eexists. split; [reflexivity |]. cbn [fst snd pl_len].
  split; [split; [assumption | lia] |].
  apply halvings_shiftr; lia.
Qed.

(** An update the book accepts under one cent lands on the last internal
    node and breaks its sum. *)
Lemma sub_cent_update_breaks_the_sums :
  valid_order small_book (Str "0.005") (Str "1.0") = true /\
  cents (Str "0.005") = Some 0 /\
  update_volume small_book (Str "0.005") (Str "1.0") = Some sub_cent_book /\
  node sub_cent_book 199 = of_int 1 /\
  fadd (node sub_cent_book 398) (node sub_cent_book 399) = of_int 0.
Proof.
  split; [vm_compute; reflexivity |].
  split; [vm_compute; reflexivity |].
  split; [apply returns_returned; vm_compute; reflexivity |].
  apply conj; vm_compute; reflexivity.
Qed.

End UpdateReturns.

(** ** C2: the sums of the tree after valid operations *)

(** C2.  After any sequence of valid [init_book], [update_volume] and
    [update_market_price] operations on a new book (a sequence that ran to
    its end), every internal position [1 <= i < price_points] holds the sum
    of its two children: [tree[i] == tree[2i] + tree[2i+1]], both as the
    same binary64 value and for Python's [==]. *)
Theorem tree_sums_after_valid_operations cap cur b0 ops b i :
  new cap cur = Some b0 ->
  forallb (valid_op b0) ops = true ->
  run b0 ops = Some b ->
  1 <= i < price_points b ->
  node b i = fadd (node b (2 * i)) (node b (2 * i + 1)) /\
  feq (node b i) (fadd (node b (2 * i)) (node b (2 * i + 1))) = true.
Proof.
  intros Hnew Hvalid Hrun Hi.
  assert (Hs : sound b).
  { eapply (run_sound ops b0 b0); eauto using new_sound. }
  destruct Hs as (_ & Hsums & Hvl).
  split; [apply Hsums; assumption |].
  rewrite <- (Hsums i Hi). apply feq_refl, Hvl.
Qed.

Lemma tree_sums_after_valid_operations_witness :
  let b := returned small_book (run small_book small_ops) in
  new (of_int 2) "BTC-USD" = Some small_book /\
  forallb (valid_op small_book) small_ops = true /\
  run small_book small_ops = Some b /\
  1 <= 149 < price_points b /\
  node b 149 = fadd (node b (2 * 149)) (node b (2 * 149 + 1)) /\
  feq (node b 149) (fadd (node b (2 * 149)) (node b (2 * 149 + 1))) = true.
Proof.
  intros b.
  assert (H0 : new (of_int 2) "BTC-USD" = Some small_book)
    by (vm_compute; reflexivity).
  assert (H1 : forallb (valid_op small_book) small_ops = true)
    by (vm_compute; reflexivity).
  assert (H2 : run small_book small_ops = Some b)
    by (apply returns_returned; vm_compute; reflexivity).
  assert (H3 : 1 <= 149 < price_points b)
    by (vm_compute; split; [discriminate | reflexivity]).
  split; [exact H0 |]. split; [exact H1 |]. split; [exact H2 |].
  split; [exact H3 |].
  exact (tree_sums_after_valid_operations _ _ _ _ b 149 H0 H1 H2 H3).
Defined.

(** ** The range query *)

Section RangeQuery.

Lemma count_up_app n m i :
  count_up (n + m) i = count_up n i ++ count_up m (i + Z.of_nat n).
Proof.
  revert i. induction n as [|n IH]; intros i; simpl.
  - f_equal. lia.
  - f_equal. rewrite IH. f_equal. f_equal. lia.
Qed.

Lemma range_app a c d : a <= c <= d -> range a d = range a c ++ range c d.
Proof.
  intros H. unfold range.
  replace (Z.to_nat (d - a)) with (Z.to_nat (c - a) + Z.to_nat (d - c))%nat by lia.
  rewrite count_up_app. f_equal. f_equal. lia.
Qed.

Lemma range_empty a : range a a = [].
Proof. unfold range. rewrite Z.sub_diag. reflexivity. Qed.

Lemma pow2_succ k : 2 ^ Z.of_nat (S k) = 2 * 2 ^ Z.of_nat k.
Proof. rewrite Nat2Z.inj_succ, Z.pow_succ_r by lia. reflexivity. Qed.

Lemma pow2_pos k : 0 < 2 ^ Z.of_nat k.
Proof. apply Z.pow_pos_nonneg; lia. Qed.

Lemma cells_of_node_expr k :
  forall i, cells_of (node_expr k i)
            = range (i * 2 ^ Z.of_nat k) ((i + 1) * 2 ^ Z.of_nat k).
Proof.
  induction k as [|k IH]; intros i.
  - simpl. change (2 ^ Z.of_nat 0) with 1. unfold range.
    replace ((i + 1) * 1 - i * 1) with 1 by lia.
    simpl. f_equal. lia.
  - simpl node_expr. simpl cells_of. rewrite !IH, pow2_succ.
    pose proof (pow2_pos k) as Hp. set (P := 2 ^ Z.of_nat k) in *.
    assert (E1 : 2 * i * P = i * (2 * P)) by ring.
    assert (E2 : (2 * i + 1) * P = i * (2 * P) + P) by ring.
    assert (E3 : (2 * i + 1 + 1) * P = (i + 1) * (2 * P)) by ring.
    rewrite (range_app (i * (2 * P)) ((2 * i + 1) * P)) by lia.
    rewrite E1, E3. reflexivity.
Qed.

Section Loop.

Variables (tree : pylist) (n l0 r0 : Z).
Hypothesis Hlen : pl_len tree = 2 * n.
Hypothesis Hsums :
  forall j, 1 <= j < n ->
    cell tree j = fadd (cell tree (2 * j)) (cell tree (2 * j + 1)).

Lemma range_step_summing st :
  summing tree n l0 r0 st -> (st.1.2 <? st.2) = true ->
  exists st1, range_step tree st = Some st1 /\ summing tree n l0 r0 st1 /\
              (halvings st1.2 < halvings st.2)%nat.
Proof.
  destruct st as [[sum l] r]. unfold summing at 1. cbn [fst snd].
  intros (k & e & Hsum & Hlr & Hr & Hl0 & Hr0 & Hperm & Hnodes) Hc%Z.ltb_lt.
  set (P := 2 ^ Z.of_nat k) in *.
  pose proof (pow2_pos k) as HP. fold P in HP.
  (* the left [if] *)
  assert (HL : exists e1 l1,
             take_left tree (sum, l) = Some (eval tree e1, l1) /\
             l1 mod 2 = 0 /\ l <= l1 <= r /\ l0 <= l1 * P /\
             cells_of e1 ≡ₚ range l0 (l1 * P) ++ range (r * P) r0).
  { unfold take_left. rewrite land_1.
    destruct (Z.eqb_spec (l mod 2) 0) as [He|Ho]; simpl.
    - exists e, l. rewrite Hsum. repeat split; auto; lia.
    - rewrite get_in_range by lia. simpl.
      exists (Add e (node_expr k l)), (l + 1).
      assert (l mod 2 = 1) by (pose proof (Z.mod_pos_bound l 2); lia).
      split; [simpl; rewrite Hsum, <- Hnodes by lia; reflexivity |].
      split; [rewrite <- Zplus_mod_idemp_l; replace (l mod 2) with 1; reflexivity |].
      split; [lia |]. split; [nia |].
      simpl. rewrite Hperm, cells_of_node_expr. fold P.
      rewrite (range_app l0 (l * P) ((l + 1) * P)) by nia.
      rewrite <- !app_assoc. f_equiv. apply Permutation_app_comm. }
  destruct HL as (e1 & l1 & HtL & Hl1 & Hl1r & Hl01 & Hperm1).
  (* the right [if] *)
  assert (HR : exists e2 r1,
             take_right tree (eval tree e1, r) = Some (eval tree e2, r1) /\
             r1 mod 2 = 0 /\ l1 <= r1 <= r /\ r1 * P <= r0 /\
             cells_of e2 ≡ₚ range l0 (l1 * P) ++ range (r1 * P) r0).
  { unfold take_right. rewrite land_1.
    destruct (Z.eqb_spec (r mod 2) 0) as [He|Ho]; simpl.
    - exists e1, r. repeat split; auto; lia.
    - assert (Hr1 : r mod 2 = 1) by (pose proof (Z.mod_pos_bound r 2); lia).
      assert (l1 <> r) by (intros ->; lia).
      rewrite get_in_range by lia. simpl.
      exists (Add e1 (node_expr k (r - 1))), (r - 1).
      split; [simpl; rewrite <- Hnodes by lia; reflexivity |].
      split.
      { replace (r - 1) with (r + (-1) * 2 + 1) by lia.
        rewrite <- Zplus_mod_idemp_l, Z_mod_plus_full, Hr1. reflexivity. }
      split; [lia |]. split; [nia |].
      simpl. rewrite Hperm1, cells_of_node_expr. fold P.
      replace (r - 1 + 1) with r by lia.
      rewrite (range_app ((r - 1) * P) (r * P) r0) by nia.
      rewrite <- !app_assoc. f_equiv. apply Permutation_app_comm. }
  destruct HR as (e2 & r1 & HtR & Hr1 & Hl1r1 & Hr01 & Hperm2).
  unfold range_step. rewrite HtL. cbn [mbind option_bind fst snd].
  rewrite HtR. cbn [mbind option_bind fst snd].
  eexists. split; [reflexivity |]. cbn [fst snd]. split.
  - exists (S k), e2. cbn [fst snd]. rewrite !shiftr_1, pow2_succ. fold P.
    apply Z.mod_divide in Hl1 as [a ->]; [| lia].
    apply Z.mod_divide in Hr1 as [c ->]; [| lia].
    rewrite !Z_div_mult by lia.
    replace (a * (2 * P)) with (a * 2 * P) by ring.
    replace (c * (2 * P)) with (c * 2 * P) by ring.
    split; [reflexivity |]. split; [lia |]. split; [lia |].
    split; [assumption |]. split; [assumption |]. split; [assumption |].
    intros i Hi. rewrite Hsums by lia.
    rewrite !Hnodes by lia. reflexivity.
  - apply halvings_shiftr; lia.
Qed.

Lemma range_loop_sum fuel :
  1 <= l0 <= r0 -> r0 <= 2 * n -> (halvings r0 <= fuel)%nat ->
  exists st e,
    while fuel (λ st, st.1.2 <? st.2) (range_step tree) (of_int 0, l0, r0)
      = Some st /\
    st.1.1 = eval tree e /\ cells_of e ≡ₚ range l0 r0.
Proof.
  intros Hlr Hr Hfuel.
  destruct (while_ends (summing tree n l0 r0) (λ st, halvings st.2)
              (λ st, st.1.2 <? st.2) (range_step tree) range_step_summing
              fuel (of_int 0, l0, r0)) as (st & Hw & Hst & Hc).
  - exists O, Zero. cbn [fst snd]. change (2 ^ Z.of_nat 0) with 1.
    rewrite !Z.mul_1_r, !range_empty. repeat split; auto; lia.
  - exact Hfuel.
  - destruct Hst as (k & e & Hsum & Hlr' & _ & Hl0 & Hr0 & Hperm & _).
    apply Z.ltb_ge in Hc. exists st, e. split; [exact Hw |].
    split; [exact Hsum |].
    replace st.2 with st.1.2 in * by lia.
    rewrite Hperm, <- range_app by lia. reflexivity.
Qed.

End Loop.

End RangeQuery.

(** ** C1: what the range query adds up *)

Section RangeOfCents.

Lemma range_query_sum b lo hi clo chi :
  sound b ->
  valid_price b (Num lo) = true ->
  valid_price b (Num hi) = true ->
  left_index b lo = Some (price_points b + clo - 1) ->
  right_index b hi = Some (price_points b + chi) ->
  1 <= clo <= chi /\ chi <= price_points b ->
  exists e,
    get_volume_in_range b lo hi = Some (eval (volume_seg_tree b) e) /\
    cells_of e ≡ₚ range (price_points b + clo - 1) (price_points b + chi).
Proof.
  intros ((Hn & Hlen) & Hsums & _) Hlo Hhi Hl Hr Hc.
  unfold get_volume_in_range. rewrite Hlo, Hhi, Hl, Hr.
  cbn [andb mbind option_bind].
  destruct (range_loop_sum (volume_seg_tree b) (price_points b)
              (price_points b + clo - 1) (price_points b + chi) Hlen Hsums
              (halvings (price_points b + clo - 1)
               + halvings (price_points b + chi)))
    as (st & e & Hw & Hsum & Hperm); [lia | lia | lia |].
  rewrite Hw. cbn [mbind option_bind]. exists e.
  rewrite Hsum. split; [reflexivity | exact Hperm].
Qed.

Lemma run_price_cap ops :
  forall b b', run b ops = Some b' ->
    price_cap b' = price_cap b /\ price_points b' = price_points b.
Proof.
  unfold run. induction ops as [|o ops IH]; intros b b' H; simpl in H.
  - injection H as <-. auto.
  - destruct (apply o b) as [b1|] eqn:Hb; [| discriminate]. simpl in H.
    apply apply_price_cap in Hb as [Hc Hn]. apply IH in H as [Hc' Hn'].
    split; congruence.
Qed.

Lemma count_up_elem k : forall i c, i <= c < i + Z.of_nat k -> c ∈ count_up k i.
Proof.
  induction k as [|k IH]; intros i c Hc; [lia |].
  simpl. destruct (decide (c = i)) as [->|Hne]; [left |].
  right. apply IH. lia.
Qed.

Lemma on_cent_same b b' c :
  price_cap b' = price_cap b -> price_points b' = price_points b ->
  on_cent b' c = on_cent b c.
Proof.
  intros Hc Hn.
  unfold on_cent, valid_price, price_under_cap, left_index, right_index.
  rewrite Hc, Hn. reflexivity.
Qed.

(** On the 200-dollar book the float arithmetic of the range query lands on
    the leaf of every cent from 0.01 to 200.00. *)
Lemma cap200_on_every_cent : forallb (on_cent cap200) (range 1 20001) = true.
Proof. vm_compute. reflexivity. Qed.

Lemma cap200_on_cent b c :
  price_cap b = price_cap cap200 -> price_points b = price_points cap200 ->
  1 <= c <= 20000 ->
  valid_price b (Num (decimal false c 2)) = true /\
  left_index b (decimal false c 2) = Some (price_points b + c - 1) /\
  right_index b (decimal false c 2) = Some (price_points b + c).
Proof.
  intros Hc Hn Hr.
  pose proof cap200_on_every_cent as H. rewrite forallb_forall in H.
  specialize (H c). rewrite <- (on_cent_same cap200 b c Hc Hn) in H.
  assert (Hin : In c (range 1 20001)).
  { apply list_elem_of_In. unfold range. apply count_up_elem.
    change (Z.of_nat (Z.to_nat (20001 - 1))) with 20000. lia. }
  apply H in Hin. unfold on_cent in Hin. cbv zeta in Hin.
  apply andb_true_iff in Hin as [Hv Hi]. split; [exact Hv |].
  destruct (left_index b _) as [l|]; [| discriminate].
  destruct (right_index b _) as [r|]; [| discriminate].
  apply andb_true_iff in Hi as [Hl%Z.eqb_eq Hr'%Z.eqb_eq]. subst. auto.
Qed.

(** So on that book, whatever valid operations built it, the query between
    two prices in cents returns a sum of exactly the leaves of the cents
    between them. *)
Lemma range_query_on_the_200_dollar_book ops b clo chi :
  forallb (valid_op cap200) ops = true ->
  run cap200 ops = Some b ->
  1 <= clo <= chi /\ chi <= 20000 ->
  exists e,
    get_volume_in_range b (decimal false clo 2) (decimal false chi 2)
      = Some (eval (volume_seg_tree b) e) /\
    cells_of e ≡ₚ range (20000 + clo - 1) (20000 + chi).
Proof.
  intros Hvalid Hrun Hc.
  assert (Hs : sound b).
  { eapply (run_sound ops cap200 cap200); eauto.
    apply (new_sound (of_int 200) "BTC-USD"). vm_compute. reflexivity. }
  destruct (run_price_cap _ _ _ Hrun) as [Hcap Hn].
  destruct (cap200_on_cent b clo Hcap Hn) as (Hv1 & Hl & _); [lia |].
  destruct (cap200_on_cent b chi Hcap Hn) as (Hv2 & _ & Hr); [lia |].
  change 20000 with (price_points cap200). rewrite <- Hn.
  apply range_query_sum; auto.
  rewrite Hn. change (price_points cap200) with 20000. lia.
Qed.

End RangeOfCents.

Section PricesToLeaves.



End PricesToLeaves.






(** ** C4: the sell-side band of scenario S4 *)

(** C4 as the specification states it fails: after S1, S2 and
    [update_market_price("100.00")] on the 200-dollar book, the range sum
    from 100.00 to 100.50, which is the sell-side volume of the 0.5% band in
    the row [query] returns, is not 0.5. *)
Lemma s4_sell_band_is_not_half :
  new (of_int 200) "BTC-USD" = Some cap200 /\
  run cap200 scenario_s4 = Some scenario_s4_book /\
  exists x,
    get_volume_in_range scenario_s4_book (of_int 100) (decimal false 10050 2)
      = Some x /\
    (row ← query scenario_s4_book (of_int 0) "" [decimal false 5 1; of_int 1];
     row !! 6%nat) = Some (Num x) /\
    x <> decimal false 5 1 /\ feq x (decimal false 5 1) = false.
Proof.
  split; [vm_compute; reflexivity |].
  split; [apply returns_returned; vm_compute; reflexivity |].
  exists (decimal false 35 1).
  split; [vm_compute; reflexivity |].
  split; [vm_compute; reflexivity |].
  split; [vm_compute; discriminate | vm_compute; reflexivity].
Qed.

(** C4, as amended.  In that state the range sum from 100.00 to 100.50 is
    3.5: the 3.0 resting at 100.00, which the buy side counts as well, and
    the 0.5 at 100.50.  The row of [query] for the bands 0.5% and 1% is
    market price 100.0, buy volumes 5.0 and 5.0, sell volumes 3.5 and 3.5,
    total 5.5. *)
Theorem sell_band_of_s4 second_time server_time :
  new (of_int 200) "BTC-USD" = Some cap200 /\
  run cap200 scenario_s4 = Some scenario_s4_book /\
  get_volume_in_range scenario_s4_book (of_int 100) (decimal false 10050 2)
    = Some (decimal false 35 1) /\
  query scenario_s4_book second_time server_time [decimal false 5 1; of_int 1]
    = Some [Num second_time; Str "BTC-USD"; Str server_time; Num (of_int 100);
            Num (of_int 5); Num (of_int 5);
            Num (decimal false 35 1); Num (decimal false 35 1);
            Num (decimal false 55 1)].
Proof.
  split; [vm_compute; reflexivity |].
  split; [apply returns_returned; vm_compute; reflexivity |].
  apply conj; vm_compute; reflexivity.
Qed.

(** ** C5 and C6: the total volume and the level at the cap *)

(** C5 at its failing input.  On the 200-dollar book built from the snapshot
    with a bid of 2.0 at 100.00 and an ask of 1.0 at 200.00, a valid
    operation, the book is built, the root [tree[1]] is 3.0 and the range sum
    from 0.01 to the cap is 3.0, but [get_total_volume()] is 2.0: it sums
    0.01 .. 199.99 and leaves the cent of the cap out. *)
Theorem total_volume_misses_the_cap :
  new (of_int 200) "BTC-USD" = Some cap200 /\
  forallb (valid_op cap200) snapshot_to_cap = true /\
  run cap200 snapshot_to_cap = Some snapshot_to_cap_book /\
  built snapshot_to_cap_book = Some true /\
  node snapshot_to_cap_book 1 = of_int 3 /\
  get_volume_in_range snapshot_to_cap_book (decimal false 1 2) (of_int 200)
    = Some (of_int 3) /\
  get_total_volume snapshot_to_cap_book = Some (of_int 2) /\
  right_index snapshot_to_cap_book
    (fsub (price_cap snapshot_to_cap_book) (decimal false 1 2)) = Some 39999.
Proof.
  split; [vm_compute; reflexivity |].
  split; [vm_compute; reflexivity |].
  split; [apply returns_returned; vm_compute; reflexivity |].
  repeat apply conj; vm_compute; reflexivity.
Qed.

(** C6 at its failing input.  On the same book the root volume is 1.0,
    greater than 0, and [built()] is [False]. *)
Theorem built_misses_the_cap :
  new (of_int 200) "BTC-USD" = Some cap200 /\
  forallb (valid_op cap200) level_at_cap = true /\
  run cap200 level_at_cap = Some level_at_cap_book /\
  node level_at_cap_book 1 = of_int 1 /\
  flt (of_int 0) (node level_at_cap_book 1) = true /\
  built level_at_cap_book = Some false.
Proof.
  split; [vm_compute; reflexivity |].
  split; [vm_compute; reflexivity |].
  split; [apply returns_returned; vm_compute; reflexivity |].
  repeat apply conj; vm_compute; reflexivity.
Qed.

(** ** C7: the leaf of a price *)

(** C7 at its failing input.  The price "8203.13" is 820313 cents, so its
    leaf is 820312; [int(float("8203.13") * 100)] is 820312, one cent short
    (the product is 820312.9999999999), so [update_volume] and
    [__gen_vol_array] both write its volume at 820311, the leaf of 8203.12,
    and the leaf of 8203.13 stays empty.  The range query does not truncate
    the same way: it reads the volume set at "8203.13" under 8203.12. *)
Theorem update_volume_misplaces_a_cent :
  to_index "8203.13" = Some 820312 /\
  cents (Str "8203.13") = Some 820312 /\
  new (of_int 50000) "BTC-USD" = Some btc_book /\
  let b := returned btc_book
             (update_volume btc_book (Str "8203.13") (Str "1.0")) in
  update_volume btc_book (Str "8203.13") (Str "1.0") = Some b /\
  node b (price_points b + 820312) = of_int 0 /\
  node b (price_points b + 820311) = of_int 1 /\
  (volumes ← gen_vol_array btc_book [[Str "8203.13"; Str "1.0"]] [];
   Some (cell volumes 820312, cell volumes 820311))
    = Some (of_int 0, of_int 1) /\
  get_volume_in_range b (decimal false 820313 2) (decimal false 820313 2)
    = Some (of_int 0) /\
  get_volume_in_range b (decimal false 820312 2) (decimal false 820312 2)
    = Some (of_int 1).
Proof.
  split; [vm_compute; reflexivity |].
  split; [vm_compute; reflexivity |].
  split; [vm_compute; reflexivity |].
  cbv zeta.
  split; [apply returns_returned; vm_compute; reflexivity |].
  repeat apply conj; vm_compute; reflexivity.
Qed.

(** ** C3: the changes of an [l2update] frame *)

(** Whatever follows the first change of an [l2update] frame is not read. *)
Lemma l2update_ignores_later_changes h product first rest :
  LoggerHandler.update_order_book h (l2update_frame product (first :: rest))
  = LoggerHandler.update_order_book h (l2update_frame product [first]).
Proof. reflexivity. Qed.

(** C3 at its failing input.  On a new handler the frame with the changes
    [["buy", "100.00", "1.5"], ["sell", "101.00", "2.5"]] for BTC-USD sets
    the level at 100.00 and leaves the level at 101.00 empty: the handler
    reads [changes[0]] only, and ends in the state the frame with the first
    change alone leads to. *)
Theorem l2update_applies_the_first_change_only :
  LoggerHandler.new (of_int 1600000000) = Some handler0 /\
  let h := returned handler0
             (LoggerHandler.update_order_book handler0 two_changes) in
  LoggerHandler.update_order_book handler0 two_changes = Some h /\
  node (the_book "BTC-USD" h) (5000000 + 10000 - 1) = decimal false 15 1 /\
  node (the_book "BTC-USD" h) (5000000 + 10100 - 1) = of_int 0 /\
  get_volume_in_range (the_book "BTC-USD" h) (of_int 101) (of_int 101)
    = Some (of_int 0) /\
  LoggerHandler.update_order_book handler0 two_changes
  = LoggerHandler.update_order_book handler0
      (l2update_frame (LoggerHandler.JStr "BTC-USD")
                      [change "buy" "100.00" "1.5"]).
Proof.
  split; [apply returns_returned; vm_compute; reflexivity |].
  cbv zeta.
  split; [apply returns_returned; vm_compute; reflexivity |].
  split; [vm_compute; reflexivity |].
  split; [vm_compute; reflexivity |].
  split; [vm_compute; reflexivity |].
  apply l2update_ignores_later_changes.
Qed.

(** ** C8: the row of a ticker *)

(** C8 at its failing input.  For the ticker frame with its members in the
    order of section 6 [insert_ticker] submits one row of ten values, in the
    order of the frame: the price is in the column [price], but the column
    [open_24h] holds the frame's [best_bid], [volume_24h] its [best_ask],
    [best_bid] its [open_24h] and [best_ask] its [volume_24h]. *)
Theorem ticker_row_follows_the_frame system_time server_time :
  LoggerHandler.insert_ticker system_time server_time ticker_s5
  = Some (LoggerHandler.DbRequest LoggerHandler.TICKER_PATH
            "INSERT INTO tickers VALUES (?, ?, ?, ?, ?, ?, ?, ?, ?, ?)"
            [LoggerHandler.JNum system_time; LoggerHandler.JStr server_time;
             LoggerHandler.JStr "BTC-USD"; LoggerHandler.JStr "123.45";
             LoggerHandler.JStr "123.44"; LoggerHandler.JStr "123.46";
             LoggerHandler.JStr "120.00"; LoggerHandler.JStr "1000.5";
             LoggerHandler.JStr "buy"; LoggerHandler.JStr "0.1"]) /\
  let submitted name :=
    r ← LoggerHandler.insert_ticker system_time server_time ticker_s5;
    column name (LoggerHandler.row r) in
  submitted "price"%string = LoggerHandler.member "price" ticker_s5 /\
  submitted "open_24h"%string = LoggerHandler.member "best_bid" ticker_s5 /\
  submitted "volume_24h"%string = LoggerHandler.member "best_ask" ticker_s5 /\
  submitted "best_bid"%string = LoggerHandler.member "open_24h" ticker_s5 /\
  submitted "best_ask"%string = LoggerHandler.member "volume_24h" ticker_s5 /\
  LoggerHandler.member "open_24h" ticker_s5
  <> LoggerHandler.member "best_bid" ticker_s5.
Proof.
  split; [reflexivity |]. cbv zeta.
  repeat apply conj; try reflexivity.
  vm_compute. discriminate.
Qed.

(** With the members in the order the exchange sends them, the ten values
    do fall in their columns. *)
Lemma ticker_row_of_the_feed system_time server_time :
  let submitted name :=
    r ← LoggerHandler.insert_ticker system_time server_time ticker_feed;
    column name (LoggerHandler.row r) in
  submitted "system_time"%string = Some (LoggerHandler.JNum system_time) /\
  submitted "server_time"%string = Some (LoggerHandler.JStr server_time) /\
  Forall (λ name, submitted name = LoggerHandler.member name ticker_feed)
         (drop 2 LoggerHandler.tickers_schema).
Proof.
  cbv zeta. split; [reflexivity |]. split; [reflexivity |].
  repeat constructor.
Qed.

(** ** C9: failed writes and the operator channel *)

Section SlackPosts.

Import LoggerHandler.

Lemma fail_posts h f :
  (fail h f).1.2
  = if post_to_slack h && passes h f
    then [SlackPost (slack_url h) ("Something went wrong: " +:+ f.1.1)]
    else [].
Proof.
  destruct f as [[err now] now']. unfold fail, passes, write_to_db.
  cbn [fst snd].
  destruct (negb (contains "database is locked" err) &&
            negb (contains "UNIQUE" err)); cbn [andb].
  - destruct (fle _ _); cbn [fst snd].
    + unfold write_to_slack. cbn [post_to_slack slack_url with_last_error].
      destruct (post_to_slack h); reflexivity.
    + rewrite andb_false_r. reflexivity.
  - rewrite andb_false_r. reflexivity.
Qed.

Lemma fail_state h f :
  post_to_slack (fail h f).1.1 = post_to_slack h /\
  last_error (fail h f).1.1 = if passes h f then f.2 else last_error h.
Proof.
  destruct f as [[err now] now']. unfold fail, passes, write_to_db.
  cbn [fst snd].
  destruct (negb (contains "database is locked" err) &&
            negb (contains "UNIQUE" err)); cbn [andb].
  - destruct (fle _ _); cbn [fst snd]; auto.
  - auto.
Qed.

Lemma posting_readings_off fs :
  forall h, post_to_slack h = false -> posting_readings h fs = [].
Proof.
  induction fs as [|f fs IH]; intros h Hoff; [reflexivity |].
  cbn [posting_readings]. rewrite fail_posts, Hoff. cbn [andb].
  apply IH. rewrite (proj1 (fail_state h f)). exact Hoff.
Qed.

Lemma posting_readings_spaced fs :
  forall h, spaced (last_error h) (posting_readings h fs).
Proof.
  induction fs as [|f fs IH]; intros h; [exact I |].
  cbn [posting_readings]. rewrite fail_posts.
  destruct (fail_state h f) as [Hgate Hlast].
  destruct (post_to_slack h) eqn:Hon; cbn [andb].
  - destruct (passes h f) eqn:Hp.
    + cbn [spaced]. destruct f as [[err now] now']. cbn [fst snd] in *.
      split.
      * unfold passes in Hp. cbn [fst snd] in Hp.
        apply andb_true_iff in Hp as [_ Hp]. exact Hp.
      * pose proof (IH (fail h (err, now, now')).1.1) as H.
        rewrite Hlast in H. exact H.
    + pose proof (IH (fail h f).1.1) as H. rewrite Hlast in H. exact H.
  - rewrite posting_readings_off; [exact I | exact Hgate].
Qed.

Lemma new_posting_off now h :
  LoggerHandler.new now = Some h -> post_to_slack h = false.
Proof.
  unfold LoggerHandler.new.
  destruct (OrderBook.new _ GDAXConst.btc_usd); [| discriminate].
  destruct (OrderBook.new _ GDAXConst.eth_usd); [| discriminate].
  destruct (OrderBook.new _ GDAXConst.ltc_usd); [| discriminate].
  destruct (OrderBook.new _ GDAXConst.bch_usd); [| discriminate].
  cbn [mbind option_bind]. intros [= <-]. reflexivity.
Qed.

End SlackPosts.

(** C9 as the specification states it fails: on a new handler a failed
    write with a message that names neither a locked database nor a
    uniqueness violation, a thousand seconds after the handler was made,
    sends no notification. *)
Lemma no_post_while_posting_is_off :
  LoggerHandler.new (of_int 1600000000) = Some handler0 /\
  LoggerHandler.contains "database is locked" "disk I/O error" = false /\
  LoggerHandler.contains "UNIQUE" "disk I/O error" = false /\
  fle (LoggerHandler.last_error handler0)
      (fsub (of_int 1600001000) (of_int 300)) = true /\
  (LoggerHandler.write_to_db handler0 (LoggerHandler.DbError "disk I/O error")
     (of_int 1600001000) (of_int 1600001000)).1.2 = [].
Proof.
  split; [apply returns_returned; vm_compute; reflexivity |].
  repeat apply conj; vm_compute; reflexivity.
Qed.

(** C9, as amended.  A failed write posts to the operator channel exactly
    when posting is switched on ([post_to_slack], which [LoggerHandler()]
    leaves off and nothing switches on), the message names neither
    "database is locked" nor "UNIQUE", and [last_error <= time() - 300]
    holds for the stored reading; the post then carries the error.  In a run
    of failed writes every post comes 300 seconds, as the program compares
    them, after the reading stored at the post before it; a handler with
    posting off posts nothing, and that is how [LoggerHandler()] makes it. *)
Theorem slack_posts_are_gated_and_spaced :
  (forall h err now now',
     (LoggerHandler.write_to_db h (LoggerHandler.DbError err) now now').1.2
     = if LoggerHandler.post_to_slack h &&
          (negb (LoggerHandler.contains "database is locked" err) &&
           negb (LoggerHandler.contains "UNIQUE" err) &&
           fle (LoggerHandler.last_error h) (fsub now (of_int 300)))
       then [LoggerHandler.SlackPost (LoggerHandler.slack_url h)
               ("Something went wrong: " +:+ err)]
       else []) /\
  (forall h fs, spaced (LoggerHandler.last_error h) (posting_readings h fs)) /\
  (forall url last books fs,
     posting_readings (LoggerHandler.Handler false url last books) fs = []) /\
  (forall now,
     LoggerHandler.post_to_slack <$> LoggerHandler.new now
     = (λ _, false) <$> LoggerHandler.new now).
Proof.
  split; [| split; [| split]].
  - intros h err now now'. exact (fail_posts h (err, now, now')).
  - intros h fs. apply posting_readings_spaced.
  - intros url last books fs. apply posting_readings_off. reflexivity.
  - intros now. destruct (LoggerHandler.new now) as [h|] eqn:Hnew;
      [| reflexivity].
    cbn [fmap option_fmap option_map]. f_equal.
    eapply new_posting_off. exact Hnew.
Qed.

(** ** C10: the row of a book that has seen no trade *)

Section NoMarketPrice.

Lemma zero_is_no_price b : valid_price b (Num (of_int 0)) = false.
Proof. reflexivity. Qed.

Lemma range_from_zero b upper :
  get_volume_in_range b (of_int 0) upper = Some (of_int 0).
Proof. unfold get_volume_in_range. rewrite zero_is_no_price. reflexivity. Qed.

Lemma range_to_zero b lower :
  get_volume_in_range b lower (of_int 0) = Some (of_int 0).
Proof.
  unfold get_volume_in_range. rewrite zero_is_no_price, andb_false_r.
  reflexivity.
Qed.

Lemma bands_without_price b percent_ranges :
  forall vols : list float * list float,
    for_each percent_ranges
      (λ percent (vols : list float * list float),
         let high := fadd (of_int 0)
                          (fdiv (fmul (of_int 0) percent) (of_int 100)) in
         let low := fsub (of_int 0)
                         (fdiv (fmul (of_int 0) percent) (of_int 100)) in
         buy ← get_volume_in_range b low (of_int 0);
         sell ← get_volume_in_range b (of_int 0) high;
         Some (vols.1 ++ [buy], vols.2 ++ [sell]))
      vols
    = Some (vols.1 ++ replicate (length percent_ranges) (of_int 0),
            vols.2 ++ replicate (length percent_ranges) (of_int 0)).
Proof.
  induction percent_ranges as [|percent rest IH]; intros vols.
  - cbn [for_each length replicate]. rewrite !app_nil_r.
    destruct vols; reflexivity.
  - cbn [for_each]. cbv zeta. rewrite range_to_zero, range_from_zero.
    cbn [mbind option_bind]. rewrite IH. cbn [fst snd length replicate].
    rewrite <- !app_assoc. reflexivity.
Qed.

End NoMarketPrice.

(** The part of C10 that holds.  On a built book whose market price is
    still the initial 0, [query(bands)] returns the row: the clock, the
    currency, the server time, a market price of 0, a buy volume of 0 and
    then a sell volume of 0 for every band, and last what
    [get_total_volume()] returns. *)
Lemma query_without_market_price b second_time server_time percent_ranges :
  market_price b = of_int 0 ->
  built b = Some true ->
  exists total,
    get_total_volume b = Some total /\
    query b second_time server_time percent_ranges
    = Some ([Num second_time; Str (currency b); Str server_time;
             Num (of_int 0)]
            ++ (Num <$> replicate (length percent_ranges) (of_int 0))
            ++ (Num <$> replicate (length percent_ranges) (of_int 0))
            ++ [Num total]).
Proof.
  intros Hprice Hbuilt. unfold built in Hbuilt.
  destruct (get_total_volume b) as [total|] eqn:Htotal; [| discriminate].
  exists total. split; [reflexivity |].
  unfold query, get_market_price. rewrite Hprice, Htotal.
  rewrite bands_without_price. reflexivity.
Qed.

(** C10 at its failing input.  On the 200-dollar book built from the
    snapshot with a bid of 2.0 at 100.00 and an ask of 1.0 at 200.00, a
    valid operation, the book is built and no market price was ever set.
    [query] over the nine production bands returns a market price of 0 and
    a volume of 0 for every band on either side, but its last field is 2.0,
    while the book holds 3.0: the root [tree[1]] is 3.0 and the range sum
    from 0.01 to the cap is 3.0.  The field is [get_total_volume()], which
    leaves the cent of the cap out. *)
Theorem query_row_total_leaves_the_cap_out second_time server_time :
  new (of_int 200) "BTC-USD" = Some cap200 /\
  forallb (valid_op cap200) snapshot_to_cap = true /\
  run cap200 snapshot_to_cap = Some snapshot_to_cap_book /\
  built snapshot_to_cap_book = Some true /\
  market_price snapshot_to_cap_book = of_int 0 /\
  query snapshot_to_cap_book second_time server_time
        LoggerHandler.percent_ranges
  = Some ([Num second_time; Str "BTC-USD"; Str server_time; Num (of_int 0)]
          ++ (Num <$> replicate 9 (of_int 0))
          ++ (Num <$> replicate 9 (of_int 0))
          ++ [Num (of_int 2)]) /\
  node snapshot_to_cap_book 1 = of_int 3 /\
  get_volume_in_range snapshot_to_cap_book (decimal false 1 2) (of_int 200)
    = Some (of_int 3).
Proof.
  assert (H0 : market_price snapshot_to_cap_book = of_int 0)
    by (vm_compute; reflexivity).
  assert (H1 : built snapshot_to_cap_book = Some true)
    by (vm_compute; reflexivity).
  assert (H2 : get_total_volume snapshot_to_cap_book = Some (of_int 2))
    by (vm_compute; reflexivity).
  split; [vm_compute; reflexivity |].
  split; [vm_compute; reflexivity |].
  split; [apply returns_returned; vm_compute; reflexivity |].
  split; [exact H1 |]. split; [exact H0 |]. split.
  - destruct (query_without_market_price snapshot_to_cap_book second_time
                server_time LoggerHandler.percent_ranges H0 H1)
      as (total & Ht & Hq).
    rewrite H2 in Ht. injection Ht as <-. rewrite Hq. reflexivity.
  - apply conj; vm_compute; reflexivity.
Qed.

(** * Further properties of the order book *)

Import More.

(** ** What an update writes *)

Section UpdateFrame.

Lemma update_parent_off_the_leaves n tree0 st st1 :
  off_the_leaves n tree0 st -> (1 <? st.2) = true ->
  update_parent st = Some st1 -> off_the_leaves n tree0 st1.
Proof.
  destruct st as [tree p]. unfold off_the_leaves. cbn [fst snd].
  intros (Hlen & Hp & Hsame) Hc%Z.ltb_lt Hstep.
  unfold update_parent in Hstep.
  destruct (get tree p) as [a|]; [| discriminate]. cbn in Hstep.
  destruct (get tree (Z.lxor p 1)) as [c|]; [| discriminate]. cbn in Hstep.
  destruct (set tree (Z.shiftr p 1) _) as [tree'|] eqn:Hset; [| discriminate].
  cbn in Hstep. injection Hstep as <-. cbn [fst snd].
  rewrite shiftr_1 in *.
  assert (Hq : 1 <= p / 2 < n).
  { split; [apply Z.div_le_lower_bound; lia | apply Z.div_lt_upper_bound; lia]. }
  apply set_nonneg in Hset as [-> _]; [| lia].
  destruct tree as [len cells]. cbn [pl_len pl_cells] in *.
  split; [assumption |]. split; [lia |].
  intros j Hj. rewrite cell_insert_ne by lia. apply Hsame, Hj.
Qed.

(** What an accepted update at a price of [c >= 1] cents leaves behind. *)
Lemma update_volume_leaves b price volume c v b' :
  well_formed b ->
  valid_order b price volume = true ->
  cents price = Some c -> 1 <= c ->
  to_float volume = Some v ->
  update_volume b price volume = Some b' ->
  c <= price_points b /\
  node b' (price_points b + c - 1) = v /\
  forall j, price_points b <= j \/ j <= 0 -> j <> price_points b + c - 1 ->
            node b' j = node b j.
Proof.
  intros [Hn Hlen] Hvo Hc Hc1 Hv Hup. unfold update_volume in Hup.
  rewrite Hvo, Hc, Hv in Hup. cbn [mbind option_bind] in Hup.
  set (n := price_points b) in *.
  destruct (set _ _ v) as [tree1|] eqn:Hset; [| discriminate].
  cbn [mbind option_bind] in Hup.
  destruct (while _ _ _ _) as [st|] eqn:Hw; [| discriminate].
  cbn [mbind option_bind] in Hup. injection Hup as <-.
  apply set_nonneg in Hset as [-> Hlt]; [| lia].
  apply (while_ended (off_the_leaves n
           (PyList (pl_len (volume_seg_tree b))
                   (<[n + c - 1 := v]> (pl_cells (volume_seg_tree b)))))) in Hw.
  - destruct Hw as ((_ & _ & Hsame) & _). unfold node. cbn [volume_seg_tree with_tree].
    split; [lia |]. split.
    + rewrite Hsame by lia. apply cell_insert_eq.
    + intros j Hj Hne. rewrite Hsame by exact Hj.
      destruct (volume_seg_tree b) as [len cells].
      apply cell_insert_ne. lia.
  - intros s s1. apply update_parent_off_the_leaves.
  - unfold off_the_leaves. cbn [fst snd pl_len]. split; [assumption |].
    split; [lia |]. intros j _. reflexivity.
Qed.

(** Two trees with the same leaves and the sums of I1 are the same tree. *)
Lemma leaves_determine (t1 t2 : pylist) n :
  (forall i, 1 <= i < n ->
     cell t1 i = fadd (cell t1 (2 * i)) (cell t1 (2 * i + 1))) ->
  (forall i, 1 <= i < n ->
     cell t2 i = fadd (cell t2 (2 * i)) (cell t2 (2 * i + 1))) ->
  (forall j, n <= j -> cell t1 j = cell t2 j) ->
  forall i, 1 <= i -> cell t1 i = cell t2 i.
Proof.
  intros H1 H2 Hleaves.
  assert (H : forall m : nat, forall i, 1 <= i -> n - i <= Z.of_nat m ->
                cell t1 i = cell t2 i).
  { induction m as [|m IH]; intros i Hi Hm.
    - apply Hleaves. lia.
    - destruct (Z_lt_le_dec i n) as [Hlt|Hge]; [| apply Hleaves; lia].
      rewrite H1, H2 by lia. f_equal; apply IH; lia. }
  intros i Hi. apply (H (Z.to_nat (n - i))); lia.
Qed.

Lemma valid_update_inv b price volume :
  valid_op b (UpdateVolume price volume) = true ->
  valid_order b price volume = true ->
  exists c v, cents price = Some c /\ 1 <= c /\ to_float volume = Some v.
Proof.
  cbn [valid_op]. intros Hop Hvo. rewrite Hvo in Hop. cbn [implb] in Hop.
  apply andb_true_iff in Hop as [Hc Hf].
  unfold at_least_a_cent in Hc. unfold finite_volume in Hf.
  destruct (cents price) as [c|]; [| discriminate].
  destruct (to_float volume) as [v|]; [| discriminate].
  exists c, v. apply Z.leb_le in Hc. auto.
Qed.

Lemma reached_sound cap cur b0 ops b :
  new cap cur = Some b0 -> forallb (valid_op b0) ops = true ->
  run b0 ops = Some b -> sound b.
Proof.
  intros Hnew Hvalid Hrun.
  eapply (run_sound ops b0 b0); eauto using new_sound.
Qed.

Lemma update_volume_fields b price volume b' :
  update_volume b price volume = Some b' ->
  market_price b' = market_price b /\ price_cap b' = price_cap b /\
  price_points b' = price_points b /\ currency b' = currency b.
Proof.
  unfold update_volume.
  destruct (valid_order b price volume); [| intros [= <-]; auto].
  destruct (cents price); [| discriminate]. cbn [mbind option_bind].
  destruct (to_float volume); [| discriminate]. cbn [mbind option_bind].
  destruct (set _ _ _); [| discriminate]. cbn [mbind option_bind].
  destruct (while _ _ _ _); [| discriminate]. cbn [mbind option_bind].
  intros [= <-]. auto.
Qed.

Lemma run_app b xs ys : run b (xs ++ ys) = (b' ← run b xs; run b' ys).
Proof.
  unfold run. revert b. induction xs as [|x xs IH]; intros b; [reflexivity |].
  cbn [app for_each]. destruct (apply x b); cbn [mbind option_bind]; auto.
Qed.

End UpdateFrame.

(** X1.  On a book reached by valid operations, an update that the book
    accepts, at a price of [1 <= c <= price_points] cents as the book counts
    them, returns; it writes [float(volume)] at the leaf of that cent and
    leaves every other leaf, everything outside the tree and the other
    fields of the book as they were. *)
Theorem update_volume_writes_one_leaf cap cur b0 ops b price volume c v :
  new cap cur = Some b0 ->
  forallb (valid_op b0) ops = true ->
  run b0 ops = Some b ->
  valid_order b price volume = true ->
  cents price = Some c -> 1 <= c <= price_points b ->
  to_float volume = Some v ->
  exists b',
    update_volume b price volume = Some b' /\
    node b' (price_points b + c - 1) = v /\
    (forall j, price_points b <= j \/ j <= 0 ->
               j <> price_points b + c - 1 -> node b' j = node b j) /\
    market_price b' = market_price b /\ price_cap b' = price_cap b /\
    price_points b' = price_points b /\ currency b' = currency b.
Proof.
  intros Hnew Hvalid Hrun Hvo Hc Hc1 Hv.
  destruct (reached_sound _ _ _ _ _ Hnew Hvalid Hrun) as (Hwf & _ & _).
  destruct (update_volume_returns b price volume c v Hwf Hc Hc1 Hv)
    as [b' Hup].
  exists b'. split; [exact Hup |].
  destruct (update_volume_leaves b price volume c v b' Hwf Hvo Hc
              ltac:(lia) Hv Hup) as (_ & Hleaf & Hrest).
  destruct (update_volume_fields _ _ _ _ Hup) as (Hm & Hcap & Hpts & Hcur).
  auto 10.
Qed.

Lemma update_volume_writes_one_leaf_witness :
  new (of_int 200) "BTC-USD" = Some cap200 /\
  forallb (valid_op cap200) [level_101] = true /\
  run cap200 [level_101] = Some (after [level_101]) /\
  valid_order (after [level_101]) (Str "100.00") (Str "1.5") = true /\
  cents (Str "100.00") = Some 10000 /\
  1 <= 10000 <= price_points (after [level_101]) /\
  to_float (Str "1.5") = Some (decimal false 15 1) /\
  exists b',
    update_volume (after [level_101]) (Str "100.00") (Str "1.5") = Some b' /\
    node b' (price_points (after [level_101]) + 10000 - 1)
      = decimal false 15 1 /\
    (forall j, price_points (after [level_101]) <= j \/ j <= 0 ->
               j <> price_points (after [level_101]) + 10000 - 1 ->
               node b' j = node (after [level_101]) j) /\
    market_price b' = market_price (after [level_101]) /\
    price_cap b' = price_cap (after [level_101]) /\
    price_points b' = price_points (after [level_101]) /\
    currency b' = currency (after [level_101]).
Proof.
  assert (H0 : new (of_int 200) "BTC-USD" = Some cap200)
    by (vm_compute; reflexivity).
  assert (H1 : forallb (valid_op cap200) [level_101] = true)
    by (vm_compute; reflexivity).
  assert (H2 : run cap200 [level_101] = Some (after [level_101]))
    by (apply returns_returned; vm_compute; reflexivity).
  assert (H3 : valid_order (after [level_101]) (Str "100.00") (Str "1.5")
               = true) by (vm_compute; reflexivity).
  assert (H4 : cents (Str "100.00") = Some 10000) by (vm_compute; reflexivity).
  assert (H5 : 1 <= 10000 <= price_points (after [level_101]))
    by (vm_compute; apply conj; discriminate).
  assert (H6 : to_float (Str "1.5") = Some (decimal false 15 1))
    by (vm_compute; reflexivity).
  apply (conj H0), (conj H1), (conj H2), (conj H3), (conj H4), (conj H5),
        (conj H6).
  exact (update_volume_writes_one_leaf _ _ _ _ _ _ _ _ _
           H0 H1 H2 H3 H4 H5 H6).
Defined.

(** ** Books that read alike *)

Section SameBook.

Lemma while_same {S : Type} cond (body1 body2 : S -> option S) :
  (forall s, body1 s = body2 s) ->
  forall fuel s, while fuel cond body1 s = while fuel cond body2 s.
Proof.
  intros Hb. induction fuel as [|fuel IH]; intros s; cbn [while];
    destruct (cond s); try reflexivity.
  rewrite Hb. destruct (body2 s); cbn [mbind option_bind]; auto.
Qed.

Lemma get_same t1 t2 i :
  pl_len t1 = pl_len t2 -> (forall j, cell t1 j = cell t2 j) ->
  get t1 i = get t2 i.
Proof.
  intros Hlen Hcells. unfold get, index. rewrite Hlen.
  destruct (_ && _); cbn [mbind option_bind]; [rewrite Hcells; reflexivity |].
  destruct (_ && _); cbn [mbind option_bind]; [rewrite Hcells |]; reflexivity.
Qed.

Lemma range_step_same t1 t2 st :
  pl_len t1 = pl_len t2 -> (forall j, cell t1 j = cell t2 j) ->
  range_step t1 st = range_step t2 st.
Proof.
  intros Hlen Hcells. destruct st as [[s l] r].
  unfold range_step, take_left, take_right.
  rewrite !(get_same t1 t2) by assumption. reflexivity.
Qed.

Lemma valid_price_cap b b' price :
  price_cap b' = price_cap b -> valid_price b' price = valid_price b price.
Proof.
  intros H. unfold valid_price, price_under_cap. rewrite H. reflexivity.
Qed.

Lemma same_book_range b1 b2 lo hi :
  same_book b1 b2 -> get_volume_in_range b1 lo hi = get_volume_in_range b2 lo hi.
Proof.
  intros (_ & Hcap & Hpts & _ & Hlen & Hcells).
  unfold get_volume_in_range, left_index, right_index.
  rewrite !(valid_price_cap b2 b1) by exact Hcap. rewrite Hpts.
  destruct (_ && _); [| reflexivity].
  destruct (int_of_float _) as [l|]; [| reflexivity]. cbn [mbind option_bind].
  destruct (int_of_float _) as [r|]; [| reflexivity]. cbn [mbind option_bind].
  rewrite (while_same _ (range_step (volume_seg_tree b1))
             (range_step (volume_seg_tree b2))); [reflexivity |].
  intros st. apply range_step_same; assumption.
Qed.

(** Two sound books with the same fields and the same leaves read alike. *)
Lemma sound_same_book b1 b2 :
  sound b1 -> sound b2 ->
  market_price b1 = market_price b2 -> price_cap b1 = price_cap b2 ->
  price_points b1 = price_points b2 -> currency b1 = currency b2 ->
  (forall j, price_points b1 <= j \/ j <= 0 -> node b1 j = node b2 j) ->
  same_book b1 b2.
Proof.
  intros ((_ & Hl1) & Hs1 & _) ((_ & Hl2) & Hs2 & _) Hm Hc Hp Hcur Hleaves.
  unfold same_book. repeat (split; [assumption || congruence |]).
  intros j. destruct (Z_le_gt_dec j 0) as [Hj|Hj]; [apply Hleaves; lia |].
  apply (leaves_determine _ _ (price_points b1)); [exact Hs1 | | | lia].
  - rewrite Hp. exact Hs2.
  - intros i Hi. apply Hleaves. lia.
Qed.

(** What one update of a run of valid operations does. *)
Lemma update_volume_step b0 b price volume b' :
  price_cap b = price_cap b0 -> sound b ->
  valid_op b0 (UpdateVolume price volume) = true ->
  update_volume b price volume = Some b' ->
  sound b' /\
  (market_price b' = market_price b /\ price_cap b' = price_cap b /\
   price_points b' = price_points b /\ currency b' = currency b) /\
  (valid_order b0 price volume = false /\ b' = b \/
   valid_order b0 price volume = true /\
   exists c x, cents price = Some c /\ 1 <= c /\ to_float volume = Some x /\
               leaf_set b b' c x).
Proof.
  intros Hcap Hs Hop Hup.
  rewrite <- (valid_op_cap b0 b) in Hop by exact Hcap.
  split; [eapply update_volume_sound; eassumption |].
  split; [eapply update_volume_fields; eassumption |].
  rewrite <- (valid_order_cap b0 b) by exact Hcap.
  destruct (valid_order b price volume) eqn:Hvo.
  - right. split; [reflexivity |].
    destruct (valid_update_inv _ _ _ Hop Hvo) as (c & x & Hc & Hc1 & Hx).
    exists c, x. repeat (split; [assumption |]).
    destruct Hs as (Hwf & _).
    destruct (update_volume_leaves b price volume c x b' Hwf Hvo Hc Hc1 Hx Hup)
      as (_ & Hleaf & Hrest).
    split; assumption.
  - left. split; [reflexivity |].
    unfold update_volume in Hup. rewrite Hvo in Hup. congruence.
Qed.

Lemma update_volume_rejected b0 b price volume b' :
  price_cap b = price_cap b0 -> valid_order b0 price volume = false ->
  update_volume b price volume = Some b' -> b' = b.
Proof.
  intros Hcap Hno. rewrite <- (valid_order_cap b0 b) in Hno by exact Hcap.
  unfold update_volume. rewrite Hno. congruence.
Qed.

Lemma update_volume_accepted b0 b price volume b' :
  price_cap b = price_cap b0 -> sound b ->
  valid_op b0 (UpdateVolume price volume) = true ->
  valid_order b0 price volume = true ->
  update_volume b price volume = Some b' ->
  exists c x, cents price = Some c /\ 1 <= c /\ to_float volume = Some x /\
              leaf_set b b' c x.
Proof.
  intros Hcap Hs Hop Hyes Hup.
  destruct (update_volume_step b0 b price volume b' Hcap Hs Hop Hup)
    as (_ & _ & [[Hno _]|[_ H]]); [congruence | exact H].
Qed.

Lemma two_updates b0 ops o1 o2 b12 :
  run b0 (ops ++ [o1; o2]) = Some b12 ->
  exists b b1, run b0 ops = Some b /\ apply o1 b = Some b1 /\
               apply o2 b1 = Some b12.
Proof.
  rewrite run_app. destruct (run b0 ops) as [b|]; [| discriminate].
  cbn [mbind option_bind]. unfold run. cbn [for_each].
  destruct (apply o1 b) as [b1|] eqn:H1; [| discriminate].
  cbn [mbind option_bind].
  destruct (apply o2 b1) as [b2|] eqn:H2; [| discriminate].
  cbn [mbind option_bind]. intros [= <-]. eauto.
Qed.

Lemma one_update b0 ops o b1 :
  run b0 (ops ++ [o]) = Some b1 ->
  exists b, run b0 ops = Some b /\ apply o b = Some b1.
Proof.
  rewrite run_app. destruct (run b0 ops) as [b|]; [| discriminate].
  cbn [mbind option_bind]. unfold run. cbn [for_each].
  destruct (apply o b) as [b1'|] eqn:H1; [| discriminate].
  cbn [mbind option_bind]. intros [= <-]. eauto.
Qed.

End SameBook.

(** X2.  The later of two updates at one price wins: once the second update
    is one the book accepts, the book reads as if the first had never been
    made, cell by cell and in every range query. *)
Theorem later_update_wins cap cur b0 ops price v1 v2 b12 b2 :
  new cap cur = Some b0 ->
  forallb (valid_op b0)
          (ops ++ [UpdateVolume price v1; UpdateVolume price v2]) = true ->
  valid_order b0 price v2 = true ->
  run b0 (ops ++ [UpdateVolume price v1; UpdateVolume price v2]) = Some b12 ->
  run b0 (ops ++ [UpdateVolume price v2]) = Some b2 ->
  same_book b12 b2 /\
  forall lo hi, get_volume_in_range b12 lo hi = get_volume_in_range b2 lo hi.
Proof.
  intros Hnew Hvalid Hv2 Hrun12 Hrun2.
  rewrite forallb_app in Hvalid. apply andb_true_iff in Hvalid as [Hops Hlast].
  cbn [forallb] in Hlast.
  apply andb_true_iff in Hlast as [Hop1 Hop2].
  apply andb_true_iff in Hop2 as [Hop2 _].
  apply two_updates in Hrun12 as (b & b1 & Hrun & Hu1 & Hu2).
  apply one_update in Hrun2 as (b' & Hrun' & Hu).
  rewrite Hrun in Hrun'. injection Hrun' as <-. cbn [apply] in *.
  pose proof (reached_sound _ _ _ _ _ Hnew Hops Hrun) as Hs.
  destruct (run_price_cap _ _ _ Hrun) as [Hcap Hpts].
  destruct (update_volume_step b0 b price v1 b1 Hcap Hs Hop1 Hu1)
    as (Hs1 & (Hm1 & Hc1 & Hp1 & Hcur1) & H1).
  destruct (update_volume_step b0 b1 price v2 b12 ltac:(congruence) Hs1 Hop2 Hu2)
    as (Hs12 & (Hm12 & Hc12 & Hp12 & Hcur12) & [[Hno _]|[_ H12]]);
    [congruence |].
  destruct (update_volume_step b0 b price v2 b2 Hcap Hs Hop2 Hu)
    as (Hs2 & (Hm2 & Hc2 & Hp2 & Hcur2) & [[Hno _]|[_ H2]]);
    [congruence |].
  destruct H12 as (c & x & Hc & Hge & Hx & Hleaf12 & Hrest12).
  destruct H2 as (c' & x' & Hc' & _ & Hx' & Hleaf2 & Hrest2).
  assert (c' = c) as -> by congruence. assert (x' = x) as -> by congruence.
  assert (Hsame : same_book b12 b2).
  { apply sound_same_book; try assumption; try congruence.
    intros j Hj. rewrite Hp12, Hp1 in Hj. rewrite Hp1 in *.
    destruct (Z.eq_dec j (price_points b + c - 1)) as [->|Hne].
    - congruence.
    - rewrite Hrest12, Hrest2 by assumption.
      destruct H1 as [[_ ->]|[_ (c1 & x1 & Hc1' & _ & _ & _ & Hrest1)]];
        [reflexivity |].
      apply Hrest1; [assumption |]. congruence. }
  split; [exact Hsame |]. intros lo hi. apply same_book_range, Hsame.
Qed.

Lemma later_update_wins_witness :
  new (of_int 200) "BTC-USD" = Some cap200 /\
  forallb (valid_op cap200) ([level_101] ++ [level_100; level_100_again])
    = true /\
  valid_order cap200 (Str "100.00") (Str "3.0") = true /\
  run cap200 ([level_101] ++ [level_100; level_100_again])
    = Some (after ([level_101] ++ [level_100; level_100_again])) /\
  run cap200 ([level_101] ++ [level_100_again])
    = Some (after ([level_101] ++ [level_100_again])) /\
  same_book (after ([level_101] ++ [level_100; level_100_again]))
            (after ([level_101] ++ [level_100_again])) /\
  forall lo hi,
    get_volume_in_range (after ([level_101] ++ [level_100; level_100_again]))
                        lo hi
    = get_volume_in_range (after ([level_101] ++ [level_100_again])) lo hi.
Proof.
  assert (H0 : new (of_int 200) "BTC-USD" = Some cap200)
    by (vm_compute; reflexivity).
  assert (H1 : forallb (valid_op cap200)
                 ([level_101] ++ [level_100; level_100_again]) = true)
    by (vm_compute; reflexivity).
  assert (H2 : valid_order cap200 (Str "100.00") (Str "3.0") = true)
    by (vm_compute; reflexivity).
  assert (H3 : run cap200 ([level_101] ++ [level_100; level_100_again])
               = Some (after ([level_101] ++ [level_100; level_100_again])))
    by (apply returns_returned; vm_compute; reflexivity).
  assert (H4 : run cap200 ([level_101] ++ [level_100_again])
               = Some (after ([level_101] ++ [level_100_again])))
    by (apply returns_returned; vm_compute; reflexivity).
  apply (conj H0), (conj H1), (conj H2), (conj H3), (conj H4).
  exact (later_update_wins (of_int 200) "BTC-USD" cap200 [level_101]
           (Str "100.00") (Str "1.5") (Str "3.0") _ _ H0 H1 H2 H3 H4).
Defined.

(** X3.  Two updates at prices of different cents commute: made in either
    order after the same valid operations, they leave books that read
    alike, cell by cell and in every range query. *)
Theorem updates_of_different_cents_commute cap cur b0 ops p1 v1 p2 v2 b12 b21 :
  new cap cur = Some b0 ->
  forallb (valid_op b0) (ops ++ [UpdateVolume p1 v1; UpdateVolume p2 v2])
    = true ->
  cents p1 <> cents p2 ->
  run b0 (ops ++ [UpdateVolume p1 v1; UpdateVolume p2 v2]) = Some b12 ->
  run b0 (ops ++ [UpdateVolume p2 v2; UpdateVolume p1 v1]) = Some b21 ->
  same_book b12 b21 /\
  forall lo hi, get_volume_in_range b12 lo hi = get_volume_in_range b21 lo hi.
Proof.
  intros Hnew Hvalid Hne Hrun12 Hrun21.
  rewrite forallb_app in Hvalid. apply andb_true_iff in Hvalid as [Hops Hlast].
  cbn [forallb] in Hlast.
  apply andb_true_iff in Hlast as [Hop1 Hop2].
  apply andb_true_iff in Hop2 as [Hop2 _].
  apply two_updates in Hrun12 as (b & b1 & Hrun & Hu1 & Hu12).
  apply two_updates in Hrun21 as (b' & b2 & Hrun' & Hu2 & Hu21).
  rewrite Hrun in Hrun'. injection Hrun' as <-. cbn [apply] in *.
  pose proof (reached_sound _ _ _ _ _ Hnew Hops Hrun) as Hs.
  destruct (run_price_cap _ _ _ Hrun) as [Hcap Hpts].
  destruct (update_volume_step b0 b p1 v1 b1 Hcap Hs Hop1 Hu1)
    as (Hs1 & (Hm1 & Hc1 & Hp1 & Hcur1) & H1).
  destruct (update_volume_step b0 b1 p2 v2 b12 ltac:(congruence) Hs1 Hop2 Hu12)
    as (Hs12 & (Hm12 & Hc12 & Hp12 & Hcur12) & H12).
  destruct (update_volume_step b0 b p2 v2 b2 Hcap Hs Hop2 Hu2)
    as (Hs2 & (Hm2 & Hc2 & Hp2 & Hcur2) & H2).
  destruct (update_volume_step b0 b2 p1 v1 b21 ltac:(congruence) Hs2 Hop1 Hu21)
    as (Hs21 & (Hm21 & Hc21 & Hp21 & Hcur21) & H21).
  assert (Hcap1 : price_cap b1 = price_cap b0) by congruence.
  assert (Hcap2 : price_cap b2 = price_cap b0) by congruence.
  assert (Hsame : same_book b12 b21).
  { apply sound_same_book; try assumption; try congruence.
    intros j Hj. rewrite Hp12, Hp1 in Hj.
    destruct (valid_order b0 p1 v1) eqn:E1;
      destruct (valid_order b0 p2 v2) eqn:E2.
    - (* both are accepted *)
      destruct (update_volume_accepted b0 b p1 v1 b1 Hcap Hs Hop1 E1 Hu1)
        as (c1 & x1 & Hcents1 & _ & Hx1 & Hl1 & Hr1).
      destruct (update_volume_accepted b0 b1 p2 v2 b12 Hcap1 Hs1 Hop2 E2 Hu12)
        as (c2 & x2 & Hcents2 & _ & Hx2 & Hl12 & Hr12).
      destruct (update_volume_accepted b0 b p2 v2 b2 Hcap Hs Hop2 E2 Hu2)
        as (c2' & x2' & Hcents2' & _ & Hx2' & Hl2 & Hr2).
      destruct (update_volume_accepted b0 b2 p1 v1 b21 Hcap2 Hs2 Hop1 E1 Hu21)
        as (c1' & x1' & Hcents1' & _ & Hx1' & Hl21 & Hr21).
      assert (c1' = c1) as -> by congruence.
      assert (x1' = x1) as -> by congruence.
      assert (c2' = c2) as -> by congruence.
      assert (x2' = x2) as -> by congruence.
      rewrite Hp1 in *. rewrite Hp2 in *.
      assert (Hc12' : c1 <> c2) by congruence.
      destruct (Z.eq_dec j (price_points b + c1 - 1)) as [->|Hj1];
        [| destruct (Z.eq_dec j (price_points b + c2 - 1)) as [->|Hj2]].
      + rewrite Hl21, Hr12 by (auto; lia). exact Hl1.
      + rewrite Hl12, Hr21 by (auto; lia). symmetry. exact Hl2.
      + rewrite Hr12, Hr21, Hr1, Hr2 by assumption. reflexivity.
    - (* only the first is accepted *)
      pose proof (update_volume_rejected b0 b1 p2 v2 b12 Hcap1 E2 Hu12).
      pose proof (update_volume_rejected b0 b p2 v2 b2 Hcap E2 Hu2).
      subst b12 b2. congruence.
    - (* only the second is accepted *)
      pose proof (update_volume_rejected b0 b p1 v1 b1 Hcap E1 Hu1).
      pose proof (update_volume_rejected b0 b2 p1 v1 b21 Hcap2 E1 Hu21).
      subst b1 b21. congruence.
    - pose proof (update_volume_rejected b0 b p1 v1 b1 Hcap E1 Hu1).
      pose proof (update_volume_rejected b0 b p2 v2 b2 Hcap E2 Hu2).
      subst b1 b2.
      pose proof (update_volume_rejected b0 b p2 v2 b12 Hcap E2 Hu12).
      pose proof (update_volume_rejected b0 b p1 v1 b21 Hcap E1 Hu21).
      congruence. }
  split; [exact Hsame |]. intros lo hi. apply same_book_range, Hsame.
Qed.

Lemma updates_of_different_cents_commute_witness :
  new (of_int 200) "BTC-USD" = Some cap200 /\
  forallb (valid_op cap200) ([level_100_again] ++ [level_100; level_101])
    = true /\
  cents (Str "100.00") <> cents (Str "101.00") /\
  run cap200 ([level_100_again] ++ [level_100; level_101])
    = Some (after ([level_100_again] ++ [level_100; level_101])) /\
  run cap200 ([level_100_again] ++ [level_101; level_100])
    = Some (after ([level_100_again] ++ [level_101; level_100])) /\
  same_book (after ([level_100_again] ++ [level_100; level_101]))
            (after ([level_100_again] ++ [level_101; level_100])) /\
  forall lo hi,
    get_volume_in_range (after ([level_100_again] ++ [level_100; level_101]))
                        lo hi
    = get_volume_in_range (after ([level_100_again] ++ [level_101; level_100]))
                          lo hi.
Proof.
  assert (H0 : new (of_int 200) "BTC-USD" = Some cap200)
    by (vm_compute; reflexivity).
  assert (H1 : forallb (valid_op cap200)
                 ([level_100_again] ++ [level_100; level_101]) = true)
    by (vm_compute; reflexivity).
  assert (H2 : cents (Str "100.00") <> cents (Str "101.00"))
    by (vm_compute; discriminate).
  assert (H3 : run cap200 ([level_100_again] ++ [level_100; level_101])
               = Some (after ([level_100_again] ++ [level_100; level_101])))
    by (apply returns_returned; vm_compute; reflexivity).
  assert (H4 : run cap200 ([level_100_again] ++ [level_101; level_100])
               = Some (after ([level_100_again] ++ [level_101; level_100])))
    by (apply returns_returned; vm_compute; reflexivity).
  apply (conj H0), (conj H1), (conj H2), (conj H3), (conj H4).
  exact (updates_of_different_cents_commute (of_int 200) "BTC-USD" cap200
           [level_100_again] (Str "100.00") (Str "1.5") (Str "101.00")
           (Str "2.5") _ _ H0 H1 H2 H3 H4).
Defined.

(** X4.  Writing back the volume a level had undoes an update: after any
    update at a price and a second, accepted one that sets the volume the
    leaf of that price held before, the book reads as before the two, cell
    by cell and in every range query. *)
Theorem writing_back_restores cap cur b0 ops b price v w c b2 :
  new cap cur = Some b0 ->
  forallb (valid_op b0) (ops ++ [UpdateVolume price v; UpdateVolume price w])
    = true ->
  run b0 ops = Some b ->
  valid_order b0 price w = true ->
  cents price = Some c ->
  to_float w = Some (node b (price_points b + c - 1)) ->
  run b0 (ops ++ [UpdateVolume price v; UpdateVolume price w]) = Some b2 ->
  same_book b2 b /\
  forall lo hi, get_volume_in_range b2 lo hi = get_volume_in_range b lo hi.
Proof.
  intros Hnew Hvalid Hrun Hw Hc Hold Hrun2.
  rewrite forallb_app in Hvalid. apply andb_true_iff in Hvalid as [Hops Hlast].
  cbn [forallb] in Hlast.
  apply andb_true_iff in Hlast as [Hop1 Hop2].
  apply andb_true_iff in Hop2 as [Hop2 _].
  apply two_updates in Hrun2 as (b' & b1 & Hrun' & Hu1 & Hu2).
  rewrite Hrun in Hrun'. injection Hrun' as <-. cbn [apply] in *.
  pose proof (reached_sound _ _ _ _ _ Hnew Hops Hrun) as Hs.
  destruct (run_price_cap _ _ _ Hrun) as [Hcap Hpts].
  destruct (update_volume_step b0 b price v b1 Hcap Hs Hop1 Hu1)
    as (Hs1 & (Hm1 & Hc1 & Hp1 & Hcur1) & H1).
  destruct (update_volume_step b0 b1 price w b2 ltac:(congruence) Hs1 Hop2 Hu2)
    as (Hs2 & (Hm2 & Hc2 & Hp2 & Hcur2) & [[Hno _]|[_ H2]]);
    [congruence |].
  destruct H2 as (c' & x & Hc' & _ & Hx & Hleaf2 & Hrest2).
  assert (c' = c) as -> by congruence.
  assert (x = node b (price_points b + c - 1)) as -> by congruence.
  assert (Hsame : same_book b2 b).
  { apply sound_same_book; try assumption; try congruence.
    intros j Hj. rewrite Hp2, Hp1 in Hj. rewrite Hp1 in *.
    destruct (Z.eq_dec j (price_points b + c - 1)) as [->|Hne];
      [exact Hleaf2 |].
    rewrite Hrest2 by assumption.
    destruct H1 as [[_ ->]|[_ (c1 & x1 & Hc1' & _ & _ & _ & Hrest1)]];
      [reflexivity |].
    apply Hrest1; [assumption |]. congruence. }
  split; [exact Hsame |]. intros lo hi. apply same_book_range, Hsame.
Qed.

Lemma writing_back_restores_witness :
  new (of_int 200) "BTC-USD" = Some cap200 /\
  forallb (valid_op cap200) ([level_101] ++ [level_100; level_100_off])
    = true /\
  run cap200 [level_101] = Some (after [level_101]) /\
  valid_order cap200 (Str "100.00") (Str "0") = true /\
  cents (Str "100.00") = Some 10000 /\
  to_float (Str "0")
    = Some (node (after [level_101])
                 (price_points (after [level_101]) + 10000 - 1)) /\
  run cap200 ([level_101] ++ [level_100; level_100_off])
    = Some (after ([level_101] ++ [level_100; level_100_off])) /\
  same_book (after ([level_101] ++ [level_100; level_100_off]))
            (after [level_101]) /\
  forall lo hi,
    get_volume_in_range (after ([level_101] ++ [level_100; level_100_off]))
                        lo hi
    = get_volume_in_range (after [level_101]) lo hi.
Proof.
  assert (H0 : new (of_int 200) "BTC-USD" = Some cap200)
    by (vm_compute; reflexivity).
  assert (H1 : forallb (valid_op cap200)
                 ([level_101] ++ [level_100; level_100_off]) = true)
    by (vm_compute; reflexivity).
  assert (H2 : run cap200 [level_101] = Some (after [level_101]))
    by (apply returns_returned; vm_compute; reflexivity).
  assert (H3 : valid_order cap200 (Str "100.00") (Str "0") = true)
    by (vm_compute; reflexivity).
  assert (H4 : cents (Str "100.00") = Some 10000) by (vm_compute; reflexivity).
  assert (H5 : to_float (Str "0")
               = Some (node (after [level_101])
                            (price_points (after [level_101]) + 10000 - 1)))
    by (vm_compute; reflexivity).
  assert (H6 : run cap200 ([level_101] ++ [level_100; level_100_off])
               = Some (after ([level_101] ++ [level_100; level_100_off])))
    by (apply returns_returned; vm_compute; reflexivity).
  apply (conj H0), (conj H1), (conj H2), (conj H3), (conj H4), (conj H5),
        (conj H6).
  exact (writing_back_restores (of_int 200) "BTC-USD" cap200 [level_101]
           (after [level_101]) (Str "100.00") (Str "1.5") (Str "0") 10000 _
           H0 H1 H2 H3 H4 H5 H6).
Defined.

(** ** What a range query returns *)

Section RangeResults.

Lemma range_step_kept (P : float -> Prop) tree st st1 :
  (forall x y, P x -> P y -> P (fadd x y)) ->
  (forall k, P (cell tree k)) ->
  P st.1.1 -> range_step tree st = Some st1 -> P st1.1.1.
Proof.
  intros Hadd Hcells. destruct st as [[sum l] r]. cbn [fst snd]. intros Hsum.
  assert (Hget : forall i x, get tree i = Some x -> P x).
  { intros i x. unfold get. destruct (index tree i); [| discriminate].
    cbn [mbind option_bind]. intros [= <-]. apply Hcells. }
  unfold range_step, take_left, take_right.
  destruct (negb (Z.land l 1 =? 0)).
  - destruct (get tree l) as [x|] eqn:Hx; [| discriminate].
    cbn [mbind option_bind fst snd].
    destruct (negb (Z.land r 1 =? 0)).
    + destruct (get tree (r - 1)) as [y|] eqn:Hy; [| discriminate].
      cbn [mbind option_bind fst snd]. intros [= <-]. cbn [fst snd]. eauto.
    + cbn [mbind option_bind fst snd]. intros [= <-]. cbn [fst snd]. eauto.
  - cbn [mbind option_bind fst snd].
    destruct (negb (Z.land r 1 =? 0)).
    + destruct (get tree (r - 1)) as [y|] eqn:Hy; [| discriminate].
      cbn [mbind option_bind fst snd]. intros [= <-]. cbn [fst snd]. eauto.
    + cbn [mbind option_bind fst snd]. intros [= <-]. exact Hsum.
Qed.

Lemma range_query_kept (P : float -> Prop) b lo hi x :
  (forall x y, P x -> P y -> P (fadd x y)) -> P (of_int 0) ->
  (forall k, P (node b k)) ->
  get_volume_in_range b lo hi = Some x -> P x.
Proof.
  intros Hadd H0 Hcells Hq. unfold get_volume_in_range in Hq.
  destruct (_ && _); [| injection Hq as <-; exact H0].
  destruct (left_index b lo) as [l|]; [| discriminate].
  cbn [mbind option_bind] in Hq.
  destruct (right_index b hi) as [r|]; [| discriminate].
  cbn [mbind option_bind] in Hq.
  destruct (while _ _ _ _) as [st|] eqn:Hw; [| discriminate].
  cbn [mbind option_bind] in Hq. injection Hq as <-.
  apply (while_ended (λ st : float * Z * Z, P st.1.1)) in Hw;
    [apply Hw | | exact H0].
  intros s s1 Hs _. apply range_step_kept; assumption.
Qed.

Lemma count_up_bounds k : forall i c, c ∈ count_up k i -> i <= c < i + Z.of_nat k.
Proof.
  induction k as [|k IH]; intros i c; cbn [count_up].
  - intros H. inversion H.
  - intros [->|H]%elem_of_cons; [lia |]. apply IH in H. lia.
Qed.

Lemma count_up_NoDup k : forall i, NoDup (count_up k i).
Proof.
  induction k as [|k IH]; intros i; cbn [count_up]; constructor; [| apply IH].
  intros H%count_up_bounds. lia.
Qed.

Lemma range_bounds a c j : j ∈ range a c -> a <= j < c.
Proof. unfold range. intros H%count_up_bounds. lia. Qed.

Lemma same_number_feq x y : same_number x y -> volume_like y -> feq x y = true.
Proof.
  intros [->|[Hx Hy]] Hv; [apply feq_refl, Hv |].
  destruct x; try discriminate. destruct y; try discriminate. reflexivity.
Qed.

Lemma fadd_zero_r x z :
  volume_like x -> is_zero z = true -> same_number (fadd x z) x.
Proof.
  destruct z as [sz| | |]; try discriminate. intros Hx _.
  destruct x as [sx|[]| |[] m e]; try contradiction.
  - right. split; [| reflexivity]. destruct sx, sz; reflexivity.
  - left. reflexivity.
  - left. reflexivity.
Qed.

Lemma fadd_zero_l x z :
  volume_like x -> is_zero z = true -> same_number (fadd z x) x.
Proof. intros Hx Hz. rewrite fadd_comm. apply fadd_zero_r; assumption. Qed.

(** A sum in which every cell but [i] holds a zero, and [i] comes at most
    once, is the number in the cell [i], or a zero when [i] is not in it. *)
Lemma eval_lone tree i e :
  (forall j, volume_like (cell tree j)) ->
  (forall j, j ∈ cells_of e -> j <> i -> is_zero (cell tree j) = true) ->
  NoDup (cells_of e) ->
  (i ∈ cells_of e -> same_number (eval tree e) (cell tree i)) /\
  (i ∉ cells_of e -> is_zero (eval tree e) = true).
Proof.
  intros Hvl. induction e as [| k | a IHa c IHc]; cbn [cells_of eval].
  - intros _ _. split; [intros H; inversion H | reflexivity].
  - intros Hz _. split.
    + intros ->%list_elem_of_singleton. left. reflexivity.
    + intros Hni. apply Hz; [apply list_elem_of_singleton; reflexivity |].
      intros ->. apply Hni, list_elem_of_singleton. reflexivity.
  - intros Hz Hnd. apply NoDup_app in Hnd as (Hnda & Hdisj & Hndc).
    destruct IHa as [IHa1 IHa0];
      [intros j Hj; apply Hz, elem_of_app; auto | assumption |].
    destruct IHc as [IHc1 IHc0];
      [intros j Hj; apply Hz, elem_of_app; auto | assumption |].
    assert (Hsum : forall x y z, same_number x y -> volume_like y ->
                     is_zero z = true ->
                     same_number (fadd x z) y /\ same_number (fadd z x) y).
    { intros x y z [->|[Hx Hy]] Hy' Hz'.
      - split; [apply fadd_zero_r | apply fadd_zero_l]; assumption.
      - destruct x as [sx| | |]; try discriminate.
        destruct z as [sz| | |]; try discriminate.
        split; right; (split; [| exact Hy]); destruct sx, sz; reflexivity. }
    split.
    + intros [Hia|Hic]%elem_of_app.
      * apply (Hsum (eval tree a) (cell tree i) (eval tree c));
          [auto | apply Hvl |]. apply IHc0. intros Hic.
        exact (Hdisj i Hia Hic).
      * apply (Hsum (eval tree c) (cell tree i) (eval tree a));
          [auto | apply Hvl |]. apply IHa0. intros Hia.
        exact (Hdisj i Hia Hic).
    + intros Hni.
      assert (Ha : is_zero (eval tree a) = true)
        by (apply IHa0; intros H; apply Hni, elem_of_app; auto).
      assert (Hc : is_zero (eval tree c) = true)
        by (apply IHc0; intros H; apply Hni, elem_of_app; auto).
      destruct (eval tree a) as [sa| | |]; try discriminate.
      destruct (eval tree c) as [sc| | |]; try discriminate.
      destruct sa, sc; reflexivity.
Qed.

Lemma range_query_lone b lo hi clo chi c :
  sound b ->
  valid_price b (Num lo) = true ->
  valid_price b (Num hi) = true ->
  left_index b lo = Some (price_points b + clo - 1) ->
  right_index b hi = Some (price_points b + chi) ->
  1 <= clo <= chi /\ chi <= price_points b ->
  clo <= c <= chi ->
  (forall c', clo <= c' <= chi -> c' <> c ->
              is_zero (node b (price_points b + c' - 1)) = true) ->
  exists x, get_volume_in_range b lo hi = Some x /\
            feq x (node b (price_points b + c - 1)) = true.
Proof.
  intros Hs Hlo Hhi Hl Hr Hc Hin Hz.
  destruct (range_query_sum b lo hi clo chi Hs Hlo Hhi Hl Hr Hc)
    as (e & Hq & Hperm).
  destruct Hs as (_ & _ & Hvl).
  exists (eval (volume_seg_tree b) e). split; [exact Hq |].
  destruct (eval_lone (volume_seg_tree b) (price_points b + c - 1) e) as [H1 _].
  - exact Hvl.
  - intros j Hj Hne. rewrite Hperm in Hj. apply range_bounds in Hj.
    replace j with (price_points b + (j - price_points b + 1) - 1) by lia.
    apply Hz; lia.
  - rewrite Hperm. apply count_up_NoDup.
  - apply same_number_feq; [| apply Hvl]. apply H1. rewrite Hperm.
    apply count_up_elem. lia.
Qed.

Lemma valid_price_num b price p :
  to_float price = Some p -> valid_price b price = true ->
  valid_price b (Num p) = true.
Proof.
  intros Hp. unfold valid_price. rewrite Hp.
  destruct (negb (valid_number price)); [discriminate |].
  cbn [valid_number is_number negb to_float]. auto.
Qed.

End RangeResults.

(** X5.  On a book reached by valid operations, whatever a range query
    returns is a volume: a zero, a positive finite number or [+inf]; never
    a negative number and never a NaN. *)
Theorem range_query_returns_a_volume cap cur b0 ops b lo hi x :
  new cap cur = Some b0 ->
  forallb (valid_op b0) ops = true ->
  run b0 ops = Some b ->
  get_volume_in_range b lo hi = Some x ->
  volume_like x /\ flt x (of_int 0) = false /\ feq x x = true.
Proof.
  intros Hnew Hvalid Hrun Hq.
  destruct (reached_sound _ _ _ _ _ Hnew Hvalid Hrun) as (_ & _ & Hvl).
  assert (Hx : volume_like x).
  { apply (range_query_kept volume_like b lo hi x);
      [apply fadd_volume_like | exact I | exact Hvl | exact Hq]. }
  split; [exact Hx |]. split; [| apply feq_refl, Hx].
  destruct x as [[]|[]| |[] m e]; try contradiction; reflexivity.
Qed.

Lemma range_query_returns_a_volume_witness :
  new (of_int 200) "BTC-USD" = Some cap200 /\
  forallb (valid_op cap200) four_levels = true /\
  run cap200 four_levels = Some four_levels_book /\
  get_volume_in_range four_levels_book (decimal false 10002 2)
                      (decimal false 10005 2)
    = Some (S754_finite false 6305039478318695 (-53)) /\
  volume_like (S754_finite false 6305039478318695 (-53)) /\
  flt (S754_finite false 6305039478318695 (-53)) (of_int 0) = false /\
  feq (S754_finite false 6305039478318695 (-53))
      (S754_finite false 6305039478318695 (-53)) = true.
Proof.
  assert (H0 : new (of_int 200) "BTC-USD" = Some cap200)
    by (vm_compute; reflexivity).
  assert (H1 : forallb (valid_op cap200) four_levels = true)
    by (vm_compute; reflexivity).
  assert (H2 : run cap200 four_levels = Some four_levels_book)
    by (apply returns_returned; vm_compute; reflexivity).
  assert (H3 : get_volume_in_range four_levels_book (decimal false 10002 2)
                 (decimal false 10005 2)
               = Some (S754_finite false 6305039478318695 (-53)))
    by (vm_compute; reflexivity).
  apply (conj H0), (conj H1), (conj H2), (conj H3).
  exact (range_query_returns_a_volume _ _ _ _ _ _ _ _ H0 H1 H2 H3).
Defined.

(** X6.  A range query finds a lone level: on a book reached by valid
    operations, when every leaf of the cents [clo .. chi] but the one of
    [c] holds a zero, [get_volume_in_range(lo, hi)] returns a number equal
    (Python's [==]) to the volume at [c].  The two positions the query
    starts from are the leaf of [clo] and one past the leaf of [chi]. *)
Theorem range_query_finds_a_lone_level cap cur b0 ops b lo hi clo chi c :
  new cap cur = Some b0 ->
  forallb (valid_op b0) ops = true ->
  run b0 ops = Some b ->
  valid_price b (Num lo) = true ->
  valid_price b (Num hi) = true ->
  left_index b lo = Some (price_points b + clo - 1) ->
  right_index b hi = Some (price_points b + chi) ->
  1 <= clo <= chi /\ chi <= price_points b ->
  clo <= c <= chi ->
  (forall c', clo <= c' <= chi -> c' <> c ->
              is_zero (node b (price_points b + c' - 1)) = true) ->
  exists x, get_volume_in_range b lo hi = Some x /\
            feq x (node b (price_points b + c - 1)) = true.
Proof.
  intros Hnew Hvalid Hrun. apply range_query_lone.
  exact (reached_sound _ _ _ _ _ Hnew Hvalid Hrun).
Qed.

Lemma range_query_finds_a_lone_level_witness :
  new (of_int 200) "BTC-USD" = Some cap200 /\
  forallb (valid_op cap200) [level_100] = true /\
  run cap200 [level_100] = Some (after [level_100]) /\
  valid_price (after [level_100]) (Num (decimal false 9999 2)) = true /\
  valid_price (after [level_100]) (Num (decimal false 10001 2)) = true /\
  left_index (after [level_100]) (decimal false 9999 2)
    = Some (price_points (after [level_100]) + 9999 - 1) /\
  right_index (after [level_100]) (decimal false 10001 2)
    = Some (price_points (after [level_100]) + 10001) /\
  (1 <= 9999 <= 10001 /\ 10001 <= price_points (after [level_100])) /\
  9999 <= 10000 <= 10001 /\
  (forall c', 9999 <= c' <= 10001 -> c' <> 10000 ->
     is_zero (node (after [level_100])
                   (price_points (after [level_100]) + c' - 1)) = true) /\
  exists x,
    get_volume_in_range (after [level_100]) (decimal false 9999 2)
                        (decimal false 10001 2) = Some x /\
    feq x (node (after [level_100])
                (price_points (after [level_100]) + 10000 - 1)) = true.
Proof.
  assert (H0 : new (of_int 200) "BTC-USD" = Some cap200)
    by (vm_compute; reflexivity).
  assert (H1 : forallb (valid_op cap200) [level_100] = true)
    by (vm_compute; reflexivity).
  assert (H2 : run cap200 [level_100] = Some (after [level_100]))
    by (apply returns_returned; vm_compute; reflexivity).
  assert (H3 : valid_price (after [level_100]) (Num (decimal false 9999 2))
               = true) by (vm_compute; reflexivity).
  assert (H4 : valid_price (after [level_100]) (Num (decimal false 10001 2))
               = true) by (vm_compute; reflexivity).
  assert (H5 : left_index (after [level_100]) (decimal false 9999 2)
               = Some (price_points (after [level_100]) + 9999 - 1))
    by (vm_compute; reflexivity).
  assert (H6 : right_index (after [level_100]) (decimal false 10001 2)
               = Some (price_points (after [level_100]) + 10001))
    by (vm_compute; reflexivity).
  assert (H7 : 1 <= 9999 <= 10001 /\
               10001 <= price_points (after [level_100]))
    by (vm_compute; repeat apply conj; discriminate).
  assert (H8 : 9999 <= 10000 <= 10001) by lia.
  assert (H9 : forall c', 9999 <= c' <= 10001 -> c' <> 10000 ->
                 is_zero (node (after [level_100])
                            (price_points (after [level_100]) + c' - 1))
                 = true).
  { intros c' Hc' Hne.
    assert (c' = 9999 \/ c' = 10001) as [-> | ->] by lia;
      vm_compute; reflexivity. }
  apply (conj H0), (conj H1), (conj H2), (conj H3), (conj H4), (conj H5),
        (conj H6), (conj H7), (conj H8), (conj H9).
  exact (range_query_finds_a_lone_level _ _ _ _ _ _ _ _ _ _
           H0 H1 H2 H3 H4 H5 H6 H7 H8 H9).
Defined.

(** X7.  An update and a query at its price make a round trip: on a book
    reached by valid operations, after an accepted update of a finite
    volume at a price whose cent the range query computes as the update
    does, [get_volume_in_range(price, price)] returns a number equal
    (Python's [==]) to [float(volume)]. *)
Theorem update_then_query cap cur b0 ops b price volume c p v :
  new cap cur = Some b0 ->
  forallb (valid_op b0) ops = true ->
  run b0 ops = Some b ->
  valid_order b price volume = true ->
  finite_volume volume = true ->
  cents price = Some c -> 1 <= c <= price_points b ->
  to_float price = Some p -> to_float volume = Some v ->
  left_index b p = Some (price_points b + c - 1) ->
  right_index b p = Some (price_points b + c) ->
  exists b' x,
    update_volume b price volume = Some b' /\
    get_volume_in_range b' p p = Some x /\ feq x v = true.
Proof.
  intros Hnew Hvalid Hrun Hvo Hfin Hc Hc1 Hp Hv Hl Hr.
  pose proof (reached_sound _ _ _ _ _ Hnew Hvalid Hrun) as Hs.
  destruct (update_volume_returns b price volume c v (proj1 Hs) Hc Hc1 Hv)
    as [b' Hup].
  assert (Hop : valid_op b (UpdateVolume price volume) = true).
  { cbn [valid_op]. rewrite Hvo. cbn [implb]. unfold at_least_a_cent.
    rewrite Hc, Hfin. apply andb_true_iff. split; [lia | reflexivity]. }
  pose proof (update_volume_sound _ _ _ _ Hs Hop Hup) as Hs'.
  destruct (update_volume_fields _ _ _ _ Hup) as (_ & Hcap & Hpts & _).
  destruct (update_volume_leaves b price volume c v b' (proj1 Hs) Hvo Hc
              ltac:(lia) Hv Hup) as (_ & Hleaf & _).
  assert (Hvp : valid_price b' (Num p) = true).
  { rewrite (valid_price_cap b b') by exact Hcap.
    apply (valid_price_num b price p Hp).
    unfold valid_order in Hvo. apply andb_true_iff in Hvo. apply Hvo. }
  destruct (range_query_lone b' p p c c c Hs' Hvp Hvp) as (x & Hq & Hx).
  - unfold left_index in *. rewrite Hpts. exact Hl.
  - unfold right_index in *. rewrite Hpts. exact Hr.
  - lia.
  - lia.
  - intros c' Hc' Hne. lia.
  - exists b', x. split; [exact Hup |]. split; [exact Hq |].
    rewrite Hpts, Hleaf in Hx. exact Hx.
Qed.

Lemma update_then_query_witness :
  new (of_int 200) "BTC-USD" = Some cap200 /\
  forallb (valid_op cap200) [level_101] = true /\
  run cap200 [level_101] = Some (after [level_101]) /\
  valid_order (after [level_101]) (Str "100.00") (Str "1.5") = true /\
  finite_volume (Str "1.5") = true /\
  cents (Str "100.00") = Some 10000 /\
  1 <= 10000 <= price_points (after [level_101]) /\
  to_float (Str "100.00") = Some (decimal false 10000 2) /\
  to_float (Str "1.5") = Some (decimal false 15 1) /\
  left_index (after [level_101]) (decimal false 10000 2)
    = Some (price_points (after [level_101]) + 10000 - 1) /\
  right_index (after [level_101]) (decimal false 10000 2)
    = Some (price_points (after [level_101]) + 10000) /\
  exists b' x,
    update_volume (after [level_101]) (Str "100.00") (Str "1.5") = Some b' /\
    get_volume_in_range b' (decimal false 10000 2) (decimal false 10000 2)
      = Some x /\
    feq x (decimal false 15 1) = true.
Proof.
  assert (H0 : new (of_int 200) "BTC-USD" = Some cap200)
    by (vm_compute; reflexivity).
  assert (H1 : forallb (valid_op cap200) [level_101] = true)
    by (vm_compute; reflexivity).
  assert (H2 : run cap200 [level_101] = Some (after [level_101]))
    by (apply returns_returned; vm_compute; reflexivity).
  assert (H3 : valid_order (after [level_101]) (Str "100.00") (Str "1.5")
               = true) by (vm_compute; reflexivity).
  assert (H4 : finite_volume (Str "1.5") = true) by (vm_compute; reflexivity).
  assert (H5 : cents (Str "100.00") = Some 10000) by (vm_compute; reflexivity).
  assert (H6 : 1 <= 10000 <= price_points (after [level_101]))
    by (vm_compute; apply conj; discriminate).
  assert (H7 : to_float (Str "100.00") = Some (decimal false 10000 2))
    by (vm_compute; reflexivity).
  assert (H8 : to_float (Str "1.5") = Some (decimal false 15 1))
    by (vm_compute; reflexivity).
  assert (H9 : left_index (after [level_101]) (decimal false 10000 2)
               = Some (price_points (after [level_101]) + 10000 - 1))
    by (vm_compute; reflexivity).
  assert (H10 : right_index (after [level_101]) (decimal false 10000 2)
                = Some (price_points (after [level_101]) + 10000))
    by (vm_compute; reflexivity).
  apply (conj H0), (conj H1), (conj H2), (conj H3), (conj H4), (conj H5),
        (conj H6), (conj H7), (conj H8), (conj H9), (conj H10).
  exact (update_then_query _ _ _ _ _ _ _ _ _ _
           H0 H1 H2 H3 H4 H5 H6 H7 H8 H9 H10).
Defined.

(** ** What a snapshot leaves *)

Section Snapshot.

Lemma for_each_app {A S : Type} (body : A -> S -> option S) xs ys s :
  for_each (xs ++ ys) body s = (s' ← for_each xs body s; for_each ys body s').
Proof.
  revert s. induction xs as [|x xs IH]; intros s; [reflexivity |].
  cbn [app for_each]. destruct (body x s); cbn [mbind option_bind]; auto.
Qed.

Lemma index_bounds l i k : index l i = Some k -> 0 <= k < pl_len l.
Proof.
  unfold index.
  destruct ((0 <=? i) && (i <? pl_len l)) eqn:H1.
  - intros [= <-]. apply andb_true_iff in H1 as [?%Z.leb_le ?%Z.ltb_lt]. lia.
  - destruct ((- pl_len l <=? i) && (i <? 0)) eqn:H2; [| discriminate].
    intros [= <-]. apply andb_true_iff in H2 as [?%Z.leb_le ?%Z.ltb_lt]. lia.
Qed.

Lemma index_same l1 l2 i : pl_len l1 = pl_len l2 -> index l1 i = index l2 i.
Proof. unfold index. intros ->. reflexivity. Qed.

Lemma place_order_placed b order volumes volumes' :
  0 <= price_points b -> pl_len volumes = price_points b ->
  place_order b order volumes = Some volumes' ->
  pl_len volumes' = price_points b /\
  match placed b order with
  | Some (k, x) =>
      0 <= k < price_points b /\ cell volumes' k = x /\
      forall j, j <> k -> cell volumes' j = cell volumes j
  | None => forall j, cell volumes' j = cell volumes j
  end.
Proof.
  intros Hn Hlen. unfold place_order, placed.
  destruct (order !! 0%nat) as [p|]; [| discriminate].
  destruct (order !! 1%nat) as [v|]; [| discriminate].
  cbn [mbind option_bind].
  destruct (valid_order b p v); [| intros [= <-]; auto].
  destruct (cents p) as [c|]; [| discriminate]. cbn [mbind option_bind].
  destruct (to_float v) as [x|]; [| discriminate]. cbn [mbind option_bind].
  unfold set.
  rewrite (index_same (zeros (price_points b)) volumes)
    by (cbn [zeros pl_len]; lia).
  destruct (index volumes (c - 1)) as [k|] eqn:Hk; [| discriminate].
  cbn [mbind option_bind]. intros [= <-]. cbn [pl_len].
  split; [assumption |]. apply index_bounds in Hk.
  split; [lia |]. destruct volumes as [len cells].
  split; [apply cell_insert_eq | intros j Hj; apply cell_insert_ne; auto].
Qed.

Lemma slot_placed b order k x : placed b order = Some (k, x) -> slot b order = Some k.
Proof. unfold slot. intros ->. reflexivity. Qed.

Lemma for_each_place_order b orders :
  forall volumes volumes',
    0 <= price_points b -> pl_len volumes = price_points b ->
    for_each orders (place_order b) volumes = Some volumes' ->
    pl_len volumes' = price_points b /\
    forall k, Forall (λ o', slot b o' <> Some k) orders ->
              cell volumes' k = cell volumes k.
Proof.
  induction orders as [|o orders IH]; intros volumes volumes' Hn Hlen H;
    cbn [for_each] in H.
  - injection H as <-. auto.
  - destruct (place_order b o volumes) as [v1|] eqn:Ho; [| discriminate].
    cbn [mbind option_bind] in H.
    destruct (place_order_placed _ _ _ _ Hn Hlen Ho) as [Hlen1 Hcells].
    destruct (IH v1 volumes' Hn Hlen1 H) as [Hlen' Hrest].
    split; [exact Hlen' |]. intros k Hk.
    apply Forall_cons in Hk as [Hko Hk]. rewrite Hrest by exact Hk.
    destruct (placed b o) as [[k' x]|] eqn:Hp; [| apply Hcells].
    destruct Hcells as (_ & _ & Hother). apply Hother. intros ->.
    apply Hko. apply (slot_placed _ _ _ _ Hp).
Qed.

Lemma gen_vol_array_for_each b bid_orders ask_orders :
  gen_vol_array b bid_orders ask_orders
  = for_each (bid_orders ++ ask_orders) (place_order b)
             (zeros (price_points b)).
Proof. unfold gen_vol_array. rewrite for_each_app. reflexivity. Qed.

Lemma gen_vol_array_last b bid_orders ask_orders volumes pre order post k x :
  0 <= price_points b ->
  gen_vol_array b bid_orders ask_orders = Some volumes ->
  bid_orders ++ ask_orders = pre ++ order :: post ->
  placed b order = Some (k, x) ->
  Forall (λ o', slot b o' <> Some k) post ->
  pl_len volumes = price_points b /\ 0 <= k < price_points b /\
  cell volumes k = x.
Proof.
  intros Hn Hg Hsplit Hp Hpost.
  rewrite gen_vol_array_for_each, Hsplit, for_each_app in Hg.
  destruct (for_each pre _ _) as [v1|] eqn:H1; [| discriminate].
  cbn [mbind option_bind for_each] in Hg.
  destruct (place_order b order v1) as [v2|] eqn:H2; [| discriminate].
  cbn [mbind option_bind] in Hg.
  assert (Hz : pl_len (zeros (price_points b)) = price_points b)
    by (cbn [zeros pl_len]; lia).
  destruct (for_each_place_order b pre _ _ Hn Hz H1) as [Hl1 _].
  destruct (place_order_placed _ _ _ _ Hn Hl1 H2) as [Hl2 Hcells].
  rewrite Hp in Hcells. destruct Hcells as (Hk & Hx & _).
  destruct (for_each_place_order b post _ _ Hn Hl2 Hg) as [Hl3 Hrest].
  split; [exact Hl3 |]. split; [exact Hk |].
  rewrite Hrest by exact Hpost. exact Hx.
Qed.

Lemma gen_vol_array_none b bid_orders ask_orders volumes k :
  0 <= price_points b ->
  gen_vol_array b bid_orders ask_orders = Some volumes ->
  Forall (λ o', slot b o' <> Some k) (bid_orders ++ ask_orders) ->
  pl_len volumes = price_points b /\ cell volumes k = fzero.
Proof.
  intros Hn Hg Hall. rewrite gen_vol_array_for_each in Hg.
  assert (Hz : pl_len (zeros (price_points b)) = price_points b)
    by (cbn [zeros pl_len]; lia).
  destruct (for_each_place_order b _ _ _ Hn Hz Hg) as [Hl Hrest].
  split; [exact Hl |]. rewrite Hrest by exact Hall. apply cell_zeros.
Qed.

(** The first loop of [__build_order_book] copies the array onto the
    leaves and writes nothing else. *)
Lemma copy_leaves n volumes idxs :
  forall tree tree',
    0 <= n -> (forall i, i ∈ idxs -> 0 <= i) ->
    for_each idxs (λ i tree, x ← get volumes i; set tree (n + i) x) tree
      = Some tree' ->
    pl_len tree' = pl_len tree /\
    (forall i, i ∈ idxs -> cell tree' (n + i) = cell volumes i) /\
    (forall j, j - n ∉ idxs -> cell tree' j = cell tree j).
Proof.
  induction idxs as [|x xs IH]; intros tree tree' Hn His H; cbn [for_each] in H.
  - injection H as <-. split; [reflexivity |]. split; [| reflexivity].
    intros i Hi. inversion Hi.
  - assert (Hx0 : 0 <= x) by (apply His; left).
    destruct (get volumes x) as [a|] eqn:Ha; [| discriminate].
    apply get_nonneg in Ha as [-> _]; [| exact Hx0].
    cbn [mbind option_bind] in H.
    destruct (set tree (n + x) _) as [tree1|] eqn:Hset; [| discriminate].
    cbn [mbind option_bind] in H.
    apply set_nonneg in Hset as [-> _]; [| lia].
    destruct (IH _ tree' Hn ltac:(intros i Hi; apply His; right; exact Hi) H)
      as (Hlen & Hin & Hout).
    cbn [pl_len] in Hlen. split; [exact Hlen |].
    destruct tree as [len cells]. cbn [pl_len pl_cells] in *. split.
    + intros i Hi. destruct (decide (i ∈ xs)) as [Hixs|Hixs]; [auto |].
      apply elem_of_cons in Hi as [->|Hi]; [| contradiction].
      rewrite Hout by (replace (n + x - n) with x by lia; exact Hixs).
      apply cell_insert_eq.
    + intros j Hj. apply not_elem_of_cons in Hj as [Hjx Hj].
      rewrite Hout by exact Hj. apply cell_insert_ne. lia.
Qed.

(** The second loop writes the positions it walks over and nothing else. *)
Lemma sum_parents_frame idxs :
  forall tree tree',
    (forall i, i ∈ idxs -> 0 <= i) ->
    for_each idxs
      (λ i tree,
         a ← get tree (Z.shiftl i 1);
         c ← get tree (Z.lor (Z.shiftl i 1) 1);
         set tree i (fadd a c)) tree = Some tree' ->
    pl_len tree' = pl_len tree /\
    forall j, j ∉ idxs -> cell tree' j = cell tree j.
Proof.
  induction idxs as [|x xs IH]; intros tree tree' His H; cbn [for_each] in H.
  - injection H as <-. auto.
  - assert (Hx0 : 0 <= x) by (apply His; left).
    destruct (get tree (Z.shiftl x 1)) as [a|]; [| discriminate].
    cbn [mbind option_bind] in H.
    destruct (get tree (Z.lor (Z.shiftl x 1) 1)) as [c|]; [| discriminate].
    cbn [mbind option_bind] in H.
    destruct (set tree x _) as [tree1|] eqn:Hset; [| discriminate].
    cbn [mbind option_bind] in H.
    apply set_nonneg in Hset as [-> _]; [| lia].
    destruct (IH _ tree' ltac:(intros i Hi; apply His; right; exact Hi) H)
      as (Hlen & Hout).
    cbn [pl_len] in Hlen. split; [exact Hlen |].
    intros j Hj. apply not_elem_of_cons in Hj as [Hjx Hj].
    rewrite Hout by exact Hj. destruct tree as [len cells].
    apply cell_insert_ne. lia.
Qed.

Lemma count_down_bounds k : forall i j, j ∈ count_down k i -> i - Z.of_nat k < j <= i.
Proof.
  induction k as [|k IH]; intros i j; cbn [count_down].
  - intros H. inversion H.
  - intros [->|H]%elem_of_cons; [lia |]. apply IH in H. lia.
Qed.

Lemma count_down_snoc k : forall i,
  count_down (S k) i = count_down k i ++ [i - Z.of_nat k].
Proof.
  induction k as [|k IH]; intros i.
  - cbn [count_down app]. f_equal. lia.
  - change (count_down (S (S k)) i) with (i :: count_down (S k) (i - 1)).
    rewrite IH. cbn [count_down app]. do 2 f_equal. f_equal. lia.
Qed.

(** What [__build_order_book] leaves: the array on the leaves, the old
    [tree[0]] plus the new root in [tree[0]], and the cells outside the
    tree untouched. *)
Lemma build_order_book_leaves b volumes b' :
  well_formed b -> pl_len volumes = price_points b ->
  build_order_book b volumes = Some b' ->
  (forall i, 0 <= i < price_points b ->
     node b' (price_points b + i) = cell volumes i) /\
  (1 <= price_points b -> node b' 0 = fadd (node b 0) (node b' 1)) /\
  (forall j, 2 * price_points b <= j \/ j < 0 -> node b' j = node b j) /\
  market_price b' = market_price b /\ price_cap b' = price_cap b /\
  price_points b' = price_points b /\ currency b' = currency b.
Proof.
  intros [Hn Hlen] Hvlen H. unfold build_order_book in H.
  set (n := price_points b) in *.
  destruct (for_each (range 0 n) _ _) as [tree1|] eqn:H1; [| discriminate].
  cbn [mbind option_bind] in H.
  destruct (for_each (range_down _ _) _ _) as [tree2|] eqn:H2; [| discriminate].
  cbn [mbind option_bind] in H. injection H as <-.
  apply (copy_leaves n) in H1 as (Hlen1 & Hin1 & Hout1); [| lia |].
  2:{ intros i Hi. apply range_bounds in Hi. lia. }
  unfold node. cbn [volume_seg_tree with_tree market_price price_cap
                    price_points currency].
  unfold range_down in H2. replace (n - 1 - -1) with n in H2 by lia.
  split; [| split; [| split; [| auto]]].
  - intros i Hi.
    apply sum_parents_frame in H2 as [_ Hout2].
    2:{ intros j Hj. apply count_down_bounds in Hj. lia. }
    rewrite Hout2.
    + apply Hin1. apply count_up_elem. lia.
    + intros Hj. apply count_down_bounds in Hj. lia.
  - intros Hn1.
    replace (Z.to_nat n) with (S (Z.to_nat (n - 1))) in H2 by lia.
    rewrite count_down_snoc, for_each_app in H2.
    destruct (for_each (count_down _ _) _ tree1) as [tree3|] eqn:H3;
      [| discriminate].
    cbn [mbind option_bind for_each] in H2.
    replace (n - 1 - Z.of_nat (Z.to_nat (n - 1))) with 0 in H2 by lia.
    change (Z.shiftl 0 1) with 0 in H2. change (Z.lor 0 1) with 1 in H2.
    destruct (get tree3 0) as [a|] eqn:Ha; [| discriminate].
    apply get_nonneg in Ha as [-> _]; [| lia].
    cbn [mbind option_bind] in H2.
    destruct (get tree3 1) as [c|] eqn:Hc; [| discriminate].
    apply get_nonneg in Hc as [-> _]; [| lia].
    cbn [mbind option_bind] in H2.
    destruct (set tree3 0 _) as [tree4|] eqn:Hset; [| discriminate].
    cbn [mbind option_bind] in H2. injection H2 as <-.
    apply set_nonneg in Hset as [-> _]; [| lia].
    apply sum_parents_frame in H3 as [_ Hout3].
    2:{ intros j Hj. apply count_down_bounds in Hj. lia. }
    destruct tree3 as [len3 cells3]. cbn [pl_len pl_cells].
    rewrite cell_insert_eq, (cell_insert_ne _ _ 0 1) by lia.
    f_equal. rewrite Hout3.
    + apply Hout1. intros Hj. apply range_bounds in Hj. lia.
    + intros Hj. apply count_down_bounds in Hj. lia.
  - intros j Hj.
    apply sum_parents_frame in H2 as [_ Hout2].
    2:{ intros i Hi. apply count_down_bounds in Hi. lia. }
    rewrite Hout2.
    + apply Hout1. intros Hi. apply range_bounds in Hi. lia.
    + intros Hi. apply count_down_bounds in Hi. lia.
Qed.

Lemma for_each_returns {A S : Type} (Inv : S -> Prop)
    (body : A -> S -> option S) xs :
  (forall x s, x ∈ xs -> Inv s -> exists s', body x s = Some s' /\ Inv s') ->
  forall s, Inv s -> exists s', for_each xs body s = Some s' /\ Inv s'.
Proof.
  induction xs as [|x xs IH]; intros Hstep s Hs; cbn [for_each]; [eauto |].
  destruct (Hstep x s ltac:(left) Hs) as (s1 & -> & Hs1).
  cbn [mbind option_bind]. apply IH; [| exact Hs1].
  intros y t Hy. apply Hstep. right. exact Hy.
Qed.

Lemma place_order_returns_same b order v1 v2 :
  pl_len v1 = pl_len v2 ->
  returns (place_order b order v1) = returns (place_order b order v2).
Proof.
  intros Hlen. unfold place_order.
  destruct (order !! 0%nat) as [p|]; [| reflexivity].
  destruct (order !! 1%nat) as [v|]; [| reflexivity].
  cbn [mbind option_bind]. destruct (valid_order b p v); [| reflexivity].
  destruct (cents p) as [c|]; [| reflexivity]. cbn [mbind option_bind].
  destruct (to_float v) as [x|]; [| reflexivity]. cbn [mbind option_bind].
  unfold set. rewrite (index_same v1 v2) by exact Hlen.
  destruct (index v2 (c - 1)); reflexivity.
Qed.

Lemma for_each_place_order_returns b orders :
  forall volumes,
    0 <= price_points b -> pl_len volumes = price_points b ->
    returns (for_each orders (place_order b) volumes)
    = forallb (placeable b) orders.
Proof.
  induction orders as [|o orders IH]; intros volumes Hn Hlen;
    cbn [for_each forallb]; [reflexivity |].
  unfold placeable at 1.
  rewrite <- (place_order_returns_same b o volumes)
    by (cbn [zeros pl_len]; lia).
  destruct (place_order b o volumes) as [v1|] eqn:Ho;
    cbn [mbind option_bind returns andb]; [| reflexivity].
  apply IH; [exact Hn |].
  apply (place_order_placed _ _ _ _ Hn Hlen Ho).
Qed.

Lemma build_order_book_returns b volumes :
  well_formed b -> pl_len volumes = price_points b ->
  exists b', build_order_book b volumes = Some b'.
Proof.
  intros [Hn Hlen] Hvlen. unfold build_order_book.
  set (n := price_points b) in *.
  destruct (for_each_returns (λ tree : pylist, pl_len tree = 2 * n)
              (λ i tree, x ← get volumes i; set tree (n + i) x) (range 0 n))
    with (s := volume_seg_tree b) as (tree1 & -> & Hlen1); [| exact Hlen |].
  { intros i tree Hi Ht. apply range_bounds in Hi.
    rewrite (get_in_range volumes i) by lia. cbn [mbind option_bind].
    rewrite (set_in_range tree (n + i)) by lia. eexists.
    split; [reflexivity | exact Ht]. }
  cbn [mbind option_bind].
  destruct (for_each_returns (λ tree : pylist, pl_len tree = 2 * n)
              (λ i tree,
                 a ← get tree (Z.shiftl i 1);
                 c ← get tree (Z.lor (Z.shiftl i 1) 1);
                 set tree i (fadd a c)) (range_down (n - 1) (-1)))
    with (s := tree1) as (tree2 & -> & Hlen2); [| exact Hlen1 |].
  { intros i tree Hi Ht. unfold range_down in Hi.
    apply count_down_bounds in Hi.
    rewrite lor_shiftl_1, shiftl_1 by lia.
    rewrite (get_in_range tree (2 * i)) by lia. cbn [mbind option_bind].
    rewrite (get_in_range tree (2 * i + 1)) by lia. cbn [mbind option_bind].
    rewrite (set_in_range tree i) by lia. eexists.
    split; [reflexivity | exact Ht]. }
  cbn [mbind option_bind]. eauto.
Qed.

Lemma init_book_leaves b o b' :
  well_formed b -> init_book b o = Some b' ->
  exists volumes,
    gen_vol_array b (bids o) (asks o) = Some volumes /\
    pl_len volumes = price_points b /\
    build_order_book b volumes = Some b'.
Proof.
  intros Hwf H. unfold init_book in H.
  destruct (gen_vol_array b (bids o) (asks o)) as [volumes|] eqn:Hg;
    [| discriminate].
  cbn [mbind option_bind] in H. exists volumes.
  split; [reflexivity |]. split; [| exact H].
  rewrite gen_vol_array_for_each in Hg.
  apply (for_each_place_order b _ _ _ (proj1 Hwf)) in Hg; [apply Hg |].
  cbn [zeros pl_len]. destruct Hwf. lia.
Qed.

End Snapshot.

(** X8.  [init_book] raises exactly when placing one of the orders of the
    snapshot raises: on a book reached by valid operations it returns if
    and only if [__gen_vol_array] can place, or pass over, every order of
    the bids and the asks. *)
Theorem init_book_returns cap cur b0 ops b o :
  new cap cur = Some b0 ->
  forallb (valid_op b0) ops = true ->
  run b0 ops = Some b ->
  returns (init_book b o) = forallb (placeable b) (bids o ++ asks o).
Proof.
  intros Hnew Hvalid Hrun.
  destruct (reached_sound _ _ _ _ _ Hnew Hvalid Hrun) as (Hwf & _ & _).
  rewrite <- (for_each_place_order_returns b _ (zeros (price_points b)))
    by (destruct Hwf; cbn [zeros pl_len]; lia).
  rewrite <- gen_vol_array_for_each. unfold init_book.
  destruct (gen_vol_array b (bids o) (asks o)) as [volumes|] eqn:Hg;
    [| reflexivity].
  cbn [mbind option_bind returns].
  rewrite gen_vol_array_for_each in Hg.
  apply (for_each_place_order b _ _ _ (proj1 Hwf)) in Hg as [Hlen _];
    [| destruct Hwf; cbn [zeros pl_len]; lia].
  destruct (build_order_book_returns b volumes Hwf Hlen) as [b' ->].
  reflexivity.
Qed.

Lemma init_book_returns_witness :
  new (of_int 2) "BTC-USD" = Some small_book /\
  forallb (valid_op small_book) small_ops = true /\
  run small_book small_ops = Some small_after /\
  returns (init_book small_after twice_one)
  = forallb (placeable small_after) (bids twice_one ++ asks twice_one).
Proof.
  assert (H0 : new (of_int 2) "BTC-USD" = Some small_book)
    by (vm_compute; reflexivity).
  assert (H1 : forallb (valid_op small_book) small_ops = true)
    by (vm_compute; reflexivity).
  assert (H2 : run small_book small_ops = Some small_after)
    by (apply returns_returned; vm_compute; reflexivity).
  apply (conj H0), (conj H1), (conj H2).
  exact (init_book_returns _ _ _ _ _ twice_one H0 H1 H2).
Defined.

(** X9.  In a snapshot the last order placed on a cell wins: after
    [init_book] on a book reached by valid operations, the leaf of the cell
    [k] holds the volume of the last order, bids before asks, that
    [__gen_vol_array] wrote to [k]. *)
Theorem snapshot_last_order_wins cap cur b0 ops b o pre order post k x b' :
  new cap cur = Some b0 ->
  forallb (valid_op b0) ops = true ->
  run b0 ops = Some b ->
  init_book b o = Some b' ->
  bids o ++ asks o = pre ++ order :: post ->
  placed b order = Some (k, x) ->
  Forall (λ o', slot b o' <> Some k) post ->
  node b' (price_points b + k) = x.
Proof.
  intros Hnew Hvalid Hrun Hinit Hsplit Hp Hpost.
  destruct (reached_sound _ _ _ _ _ Hnew Hvalid Hrun) as (Hwf & _ & _).
  destruct (init_book_leaves b o b' Hwf Hinit) as (volumes & Hg & Hlen & Hb).
  destruct (gen_vol_array_last b _ _ volumes pre order post k x
              (proj1 Hwf) Hg Hsplit Hp Hpost) as (_ & Hk & Hx).
  destruct (build_order_book_leaves b volumes b' Hwf Hlen Hb) as (Hleaf & _).
  rewrite Hleaf by exact Hk. exact Hx.
Qed.

Lemma snapshot_last_order_wins_witness :
  new (of_int 2) "BTC-USD" = Some small_book /\
  forallb (valid_op small_book) small_ops = true /\
  run small_book small_ops = Some small_after /\
  init_book small_after twice_one
    = Some (returned small_book (init_book small_after twice_one)) /\
  bids twice_one ++ asks twice_one
    = [[Str "1.00"; Str "1.5"]; [Str "0.99"; Str "2.0"]]
      ++ [Str "1.00"; Str "0.5"] :: [[Str "1.01"; Str "0.25"]] /\
  placed small_after [Str "1.00"; Str "0.5"]
    = Some (99, decimal false 5 1) /\
  Forall (λ o', slot small_after o' <> Some 99) [[Str "1.01"; Str "0.25"]] /\
  node (returned small_book (init_book small_after twice_one))
       (price_points small_after + 99) = decimal false 5 1.
Proof.
  assert (H0 : new (of_int 2) "BTC-USD" = Some small_book)
    by (vm_compute; reflexivity).
  assert (H1 : forallb (valid_op small_book) small_ops = true)
    by (vm_compute; reflexivity).
  assert (H2 : run small_book small_ops = Some small_after)
    by (apply returns_returned; vm_compute; reflexivity).
  assert (H3 : init_book small_after twice_one
               = Some (returned small_book (init_book small_after twice_one)))
    by (apply returns_returned; vm_compute; reflexivity).
  assert (H4 : bids twice_one ++ asks twice_one
               = [[Str "1.00"; Str "1.5"]; [Str "0.99"; Str "2.0"]]
                 ++ [Str "1.00"; Str "0.5"] :: [[Str "1.01"; Str "0.25"]])
    by reflexivity.
  assert (H5 : placed small_after [Str "1.00"; Str "0.5"]
               = Some (99, decimal false 5 1)) by (vm_compute; reflexivity).
  assert (H6 : Forall (λ o', slot small_after o' <> Some 99)
                      [[Str "1.01"; Str "0.25"]])
    by (repeat constructor; vm_compute; discriminate).
  apply (conj H0), (conj H1), (conj H2), (conj H3), (conj H4), (conj H5),
        (conj H6).
  exact (snapshot_last_order_wins _ _ _ _ _ twice_one _ _ _ _ _ _
           H0 H1 H2 H3 H4 H5 H6).
Defined.

(** X10.  A snapshot replaces the book: after [init_book] on a book reached
    by valid operations, the leaf of every cell that no order of the
    snapshot was written to holds 0, whatever it held before. *)
Theorem snapshot_clears_other_levels cap cur b0 ops b o k b' :
  new cap cur = Some b0 ->
  forallb (valid_op b0) ops = true ->
  run b0 ops = Some b ->
  init_book b o = Some b' ->
  0 <= k < price_points b ->
  Forall (λ o', slot b o' <> Some k) (bids o ++ asks o) ->
  node b' (price_points b + k) = fzero.
Proof.
  intros Hnew Hvalid Hrun Hinit Hk Hall.
  destruct (reached_sound _ _ _ _ _ Hnew Hvalid Hrun) as (Hwf & _ & _).
  destruct (init_book_leaves b o b' Hwf Hinit) as (volumes & Hg & Hlen & Hb).
  destruct (gen_vol_array_none b _ _ volumes k (proj1 Hwf) Hg Hall) as [_ Hx].
  destruct (build_order_book_leaves b volumes b' Hwf Hlen Hb) as (Hleaf & _).
  rewrite Hleaf by exact Hk. exact Hx.
Qed.

Lemma snapshot_clears_other_levels_witness :
  new (of_int 2) "BTC-USD" = Some small_book /\
  forallb (valid_op small_book) small_ops = true /\
  run small_book small_ops = Some small_after /\
  init_book small_after under_a_cent
    = Some (returned small_book (init_book small_after under_a_cent)) /\
  0 <= 99 < price_points small_after /\
  Forall (λ o', slot small_after o' <> Some 99)
         (bids under_a_cent ++ asks under_a_cent) /\
  node small_after (price_points small_after + 99) = of_int 3 /\
  node (returned small_book (init_book small_after under_a_cent))
       (price_points small_after + 99) = fzero.
Proof.
  assert (H0 : new (of_int 2) "BTC-USD" = Some small_book)
    by (vm_compute; reflexivity).
  assert (H1 : forallb (valid_op small_book) small_ops = true)
    by (vm_compute; reflexivity).
  assert (H2 : run small_book small_ops = Some small_after)
    by (apply returns_returned; vm_compute; reflexivity).
  assert (H3 : init_book small_after under_a_cent
               = Some (returned small_book
                         (init_book small_after under_a_cent)))
    by (apply returns_returned; vm_compute; reflexivity).
  assert (H4 : 0 <= 99 < price_points small_after)
    by (vm_compute; apply conj; [discriminate | reflexivity]).
  assert (H5 : Forall (λ o', slot small_after o' <> Some 99)
                      (bids under_a_cent ++ asks under_a_cent))
    by (repeat constructor; vm_compute; discriminate).
  assert (H6 : node small_after (price_points small_after + 99) = of_int 3)
    by (vm_compute; reflexivity).
  apply (conj H0), (conj H1), (conj H2), (conj H3), (conj H4), (conj H5),
        (conj H6).
  exact (snapshot_clears_other_levels _ _ _ _ _ under_a_cent _ _
           H0 H1 H2 H3 H4 H5).
Defined.

(** X11.  A snapshot order under one cent is booked at the price cap: an
    order that the book accepts and whose price counts zero cents is
    written at position [-1] of the array, so that after [init_book] its
    volume stands on the last leaf of the tree, the leaf of the cap. *)
Theorem snapshot_order_under_a_cent cap cur b0 ops b o pre p v rest post x b' :
  new cap cur = Some b0 ->
  forallb (valid_op b0) ops = true ->
  run b0 ops = Some b ->
  1 <= price_points b ->
  init_book b o = Some b' ->
  bids o ++ asks o = pre ++ (p :: v :: rest) :: post ->
  valid_order b p v = true ->
  cents p = Some 0 ->
  to_float v = Some x ->
  Forall (λ o', slot b o' <> Some (price_points b - 1)) post ->
  node b' (2 * price_points b - 1) = x.
Proof.
  intros Hnew Hvalid Hrun Hn Hinit Hsplit Hvo Hc Hx Hpost.
  destruct (reached_sound _ _ _ _ _ Hnew Hvalid Hrun) as (Hwf & _ & _).
  destruct (init_book_leaves b o b' Hwf Hinit) as (volumes & Hg & Hlen & Hb).
  assert (Hp : placed b (p :: v :: rest) = Some (price_points b - 1, x)).
  { unfold placed. cbn [lookup list_lookup]. rewrite Hvo, Hc, Hx.
    cbn [mbind option_bind]. unfold index. cbn [zeros pl_len].
    rewrite Z.max_r by lia.
    replace ((0 <=? 0 - 1) && (0 - 1 <? price_points b)) with false
      by (symmetry; apply andb_false_iff; left; apply Z.leb_gt; lia).
    replace ((- price_points b <=? 0 - 1) && (0 - 1 <? 0)) with true
      by (symmetry; apply andb_true_iff; split;
          [apply Z.leb_le | apply Z.ltb_lt]; lia).
    cbn [mbind option_bind]. do 2 f_equal; lia. }
  destruct (gen_vol_array_last b _ _ volumes pre _ post _ x
              (proj1 Hwf) Hg Hsplit Hp Hpost) as (_ & Hk & Hx').
  destruct (build_order_book_leaves b volumes b' Hwf Hlen Hb) as (Hleaf & _).
  replace (2 * price_points b - 1)
    with (price_points b + (price_points b - 1)) by lia.
  rewrite Hleaf by exact Hk. exact Hx'.
Qed.

Lemma snapshot_order_under_a_cent_witness :
  new (of_int 2) "BTC-USD" = Some small_book /\
  forallb (valid_op small_book) small_ops = true /\
  run small_book small_ops = Some small_after /\
  1 <= price_points small_after /\
  init_book small_after under_a_cent
    = Some (returned small_book (init_book small_after under_a_cent)) /\
  bids under_a_cent ++ asks under_a_cent
    = [] ++ [Str "0.005"; Str "1.0"] :: [[Str "1.01"; Str "0.25"]] /\
  valid_order small_after (Str "0.005") (Str "1.0") = true /\
  cents (Str "0.005") = Some 0 /\
  to_float (Str "1.0") = Some (of_int 1) /\
  Forall (λ o', slot small_after o' <> Some (price_points small_after - 1))
         [[Str "1.01"; Str "0.25"]] /\
  node (returned small_book (init_book small_after under_a_cent))
       (2 * price_points small_after - 1) = of_int 1.
Proof.
  assert (H0 : new (of_int 2) "BTC-USD" = Some small_book)
    by (vm_compute; reflexivity).
  assert (H1 : forallb (valid_op small_book) small_ops = true)
    by (vm_compute; reflexivity).
  assert (H2 : run small_book small_ops = Some small_after)
    by (apply returns_returned; vm_compute; reflexivity).
  assert (H3 : 1 <= price_points small_after) by (vm_compute; discriminate).
  assert (H4 : init_book small_after under_a_cent
               = Some (returned small_book
                         (init_book small_after under_a_cent)))
    by (apply returns_returned; vm_compute; reflexivity).
  assert (H5 : bids under_a_cent ++ asks under_a_cent
               = [] ++ [Str "0.005"; Str "1.0"] :: [[Str "1.01"; Str "0.25"]])
    by reflexivity.
  assert (H6 : valid_order small_after (Str "0.005") (Str "1.0") = true)
    by (vm_compute; reflexivity).
  assert (H7 : cents (Str "0.005") = Some 0) by (vm_compute; reflexivity).
  assert (H8 : to_float (Str "1.0") = Some (of_int 1))
    by (vm_compute; reflexivity).
  assert (H9 : Forall (λ o', slot small_after o'
                             <> Some (price_points small_after - 1))
                      [[Str "1.01"; Str "0.25"]])
    by (repeat constructor; vm_compute; discriminate).
  apply (conj H0), (conj H1), (conj H2), (conj H3), (conj H4), (conj H5),
        (conj H6), (conj H7), (conj H8), (conj H9).
  exact (snapshot_order_under_a_cent _ _ _ _ _ under_a_cent _ _ _ _ _ _ _
           H0 H1 H2 H3 H4 H5 H6 H7 H8 H9).
Defined.



(** ** Books without volume, prices that are no numbers, the row of a query *)

Section Queries.

Lemma fadd_zeros x y :
  is_zero x = true -> is_zero y = true -> is_zero (fadd x y) = true.
Proof.
  destruct x as [sx| | |]; try discriminate.
  destruct y as [sy| | |]; try discriminate.
  destruct sx, sy; reflexivity.
Qed.

Lemma new_cells cap cur b k : new cap cur = Some b -> node b k = fzero.
Proof.
  unfold new. destruct (fle cap (of_int 0)); [discriminate |].
  destruct (bool_decide _); [| discriminate].
  destruct (int_of_float _); [| discriminate]. cbn [mbind option_bind].
  intros [= <-]. apply cell_zeros.
Qed.

(** The loop of [query] adds one volume to each list for every range. *)
Lemma query_bands b price ranges :
  forall buys0 sells0 vols,
    for_each ranges
      (λ percent (vols : list float * list float),
         let high := fadd price (fdiv (fmul price percent) (of_int 100)) in
         let low := fsub price (fdiv (fmul price percent) (of_int 100)) in
         buy ← get_volume_in_range b low price;
         sell ← get_volume_in_range b price high;
         Some (vols.1 ++ [buy], vols.2 ++ [sell]))
      (buys0, sells0) = Some vols ->
    exists buys sells,
      vols = (buys0 ++ buys, sells0 ++ sells) /\
      length buys = length ranges /\ length sells = length ranges /\
      forall i percent, ranges !! i = Some percent ->
        buys !! i
        = get_volume_in_range b
            (fsub price (fdiv (fmul price percent) (of_int 100))) price /\
        sells !! i
        = get_volume_in_range b price
            (fadd price (fdiv (fmul price percent) (of_int 100))).
Proof.
  induction ranges as [|percent ranges IH]; intros buys0 sells0 vols H;
    cbn [for_each] in H.
  - injection H as <-. exists [], []. rewrite !app_nil_r.
    repeat (split; [reflexivity |]). intros i p Hi. inversion Hi.
  - cbv zeta in H.
    destruct (get_volume_in_range b _ price) as [buy|] eqn:Hb; [| discriminate].
    cbn [mbind option_bind] in H.
    destruct (get_volume_in_range b price _) as [sell|] eqn:Hs;
      [| discriminate].
    cbn [mbind option_bind fst snd] in H.
    destruct (IH _ _ _ H) as (buys & sells & -> & Hlb & Hls & Hat).
    exists (buy :: buys), (sell :: sells). rewrite <- !app_assoc.
    split; [reflexivity |]. cbn [length]. split; [lia |]. split; [lia |].
    intros [|i] p Hi; cbn [lookup list_lookup] in Hi |- *.
    + injection Hi as <-. rewrite Hb, Hs. auto.
    + apply Hat, Hi.
Qed.

Lemma query_row_length b second_time server_time ranges row :
  query b second_time server_time ranges = Some row ->
  length row = (5 + 2 * length ranges)%nat.
Proof.
  unfold query. intros H.
  destruct (for_each ranges _ _) as [vols|] eqn:Hv; [| discriminate].
  cbn [mbind option_bind] in H.
  destruct (get_total_volume b) as [total|]; [| discriminate].
  cbn [mbind option_bind] in H. injection H as <-.
  apply query_bands in Hv as (buys & sells & -> & Hlb & Hls & _).
  cbn [fst snd app length].
  rewrite !length_app, !length_fmap. cbn [length]. lia.
Qed.

End Queries.

(** X13.  A new book is never reported built, and every range query on it
    that returns, returns a zero. *)
Theorem new_book_is_not_built cap cur b :
  new cap cur = Some b ->
  built b <> Some true /\
  forall lo hi x, get_volume_in_range b lo hi = Some x -> is_zero x = true.
Proof.
  intros Hnew.
  assert (Hq : forall lo hi x, get_volume_in_range b lo hi = Some x ->
                               is_zero x = true).
  { intros lo hi x. apply (range_query_kept (λ x, is_zero x = true)).
    - apply fadd_zeros.
    - reflexivity.
    - intros k. rewrite (new_cells _ _ _ k Hnew). reflexivity. }
  split; [| exact Hq].
  unfold built, get_total_volume.
  destruct (get_volume_in_range b _ _) as [total|] eqn:Ht; [| discriminate].
  cbn [mbind option_bind]. apply Hq in Ht.
  destruct total as [[]| | |]; try discriminate; intros [=].
Qed.

Lemma new_book_is_not_built_witness :
  new (of_int 200) "BTC-USD" = Some cap200 /\
  built cap200 <> Some true /\
  forall lo hi x, get_volume_in_range cap200 lo hi = Some x ->
                  is_zero x = true.
Proof.
  assert (H0 : new (of_int 200) "BTC-USD" = Some cap200)
    by (vm_compute; reflexivity).
  apply (conj H0).
  exact (new_book_is_not_built _ _ _ H0).
Defined.

(** X14.  A NaN passes [__valid_price]: with a volume the book accepts
    [update_volume] then raises on [int(nan)] instead of turning the order
    away, the range query raises as well, and once [update_market_price]
    has stored a NaN every [query] over at least one range raises. *)
Theorem nan_price_is_accepted_and_raises b volume second_time server_time
    percent ranges :
  valid_volume volume = true ->
  valid_price b (Num S754_nan) = true /\
  update_volume b (Num S754_nan) volume = None /\
  get_volume_in_range b S754_nan S754_nan = None /\
  update_market_price b (Num S754_nan) = Some (with_market_price b S754_nan) /\
  query (with_market_price b S754_nan) second_time server_time
        (percent :: ranges) = None.
Proof.
  intros Hv.
  assert (Hp : forall b', valid_price b' (Num S754_nan) = true).
  { intros b'. unfold valid_price, price_under_cap.
    cbn [valid_number is_number negb to_float].
    destruct (price_cap b') as [| | |[] ? ?]; reflexivity. }
  assert (Hq : forall b', get_volume_in_range b' S754_nan S754_nan = None).
  { intros b'. unfold get_volume_in_range. rewrite Hp. reflexivity. }
  split; [apply Hp |]. split; [| split; [apply Hq | split]].
  - unfold update_volume, valid_order. rewrite Hp, Hv. reflexivity.
  - unfold update_market_price. rewrite Hp. reflexivity.
  - unfold query. cbn [get_market_price market_price with_market_price
                       for_each].
    change (fmul S754_nan percent) with S754_nan.
    change (fdiv S754_nan (of_int 100)) with S754_nan.
    change (fsub S754_nan S754_nan) with S754_nan.
    rewrite !Hq. reflexivity.
Qed.

Lemma nan_price_is_accepted_and_raises_witness :
  valid_volume (Str "1.5") = true /\
  valid_price cap200 (Num S754_nan) = true /\
  update_volume cap200 (Num S754_nan) (Str "1.5") = None /\
  get_volume_in_range cap200 S754_nan S754_nan = None /\
  update_market_price cap200 (Num S754_nan)
    = Some (with_market_price cap200 S754_nan) /\
  query (with_market_price cap200 S754_nan) (of_int 0) "" [of_int 1] = None.
Proof.
  assert (H0 : valid_volume (Str "1.5") = true) by (vm_compute; reflexivity).
  apply (conj H0).
  exact (nan_price_is_accepted_and_raises cap200 (Str "1.5") (of_int 0) ""
           (of_int 1) [] H0).
Defined.

(** X15.  The row of [query]: the reading of the clock, the currency, the
    server time and the market price; then, for the ranges in their order,
    the volumes from [price - price * percent / 100] to the price; then,
    in the same order, the volumes from the price to
    [price + price * percent / 100]; then the total volume.  It has
    [5 + 2 * len(percent_ranges)] entries. *)
Theorem query_row_layout b second_time server_time ranges row :
  query b second_time server_time ranges = Some row ->
  length row = (5 + 2 * length ranges)%nat /\
  take 4 row = [Num second_time; Str (currency b); Str server_time;
                Num (market_price b)] /\
  (forall i percent, ranges !! i = Some percent ->
     row !! (4 + i)%nat
     = Num <$> get_volume_in_range b
                 (fsub (market_price b)
                       (fdiv (fmul (market_price b) percent) (of_int 100)))
                 (market_price b) /\
     row !! (4 + length ranges + i)%nat
     = Num <$> get_volume_in_range b (market_price b)
                 (fadd (market_price b)
                       (fdiv (fmul (market_price b) percent) (of_int 100)))) /\
  row !! (4 + 2 * length ranges)%nat = Num <$> get_total_volume b.
Proof.
  unfold query, get_market_price. intros H.
  destruct (for_each ranges _ _) as [vols|] eqn:Hv; [| discriminate].
  cbn [mbind option_bind] in H.
  destruct (get_total_volume b) as [total|]; [| discriminate].
  cbn [mbind option_bind] in H.
  apply query_bands in Hv as (buys & sells & -> & Hlb & Hls & Hat).
  set (head := [Num second_time; Str (currency b); Str server_time;
                Num (market_price b)]).
  assert (Hhead : length head = 4%nat) by reflexivity.
  assert (Hrow : row = head ++ (Num <$> buys) ++ (Num <$> sells)
                       ++ [Num total])
    by (injection H as <-; reflexivity).
  clear H. rewrite Hrow. clear Hrow.
  split; [| split; [reflexivity | split]].
  - rewrite !length_app, !length_fmap, Hhead. cbn [length]. lia.
  - intros i percent Hi. destruct (Hat i percent Hi) as [Hb Hs].
    assert (Hlt : (i < length ranges)%nat) by (eapply lookup_lt_Some; eauto).
    split.
    + rewrite lookup_app_r by lia. rewrite Hhead.
      replace (4 + i - 4)%nat with i by lia.
      rewrite lookup_app_l by (rewrite length_fmap; lia).
      rewrite list_lookup_fmap, Hb. reflexivity.
    + rewrite lookup_app_r by lia. rewrite Hhead.
      rewrite lookup_app_r by (rewrite length_fmap; lia).
      rewrite length_fmap, Hlb.
      replace (4 + length ranges + i - 4 - length ranges)%nat with i by lia.
      rewrite lookup_app_l by (rewrite length_fmap; lia).
      rewrite list_lookup_fmap, Hs. reflexivity.
  - rewrite lookup_app_r by lia. rewrite Hhead.
    rewrite lookup_app_r by (rewrite length_fmap; lia).
    rewrite lookup_app_r by (rewrite !length_fmap; lia).
    rewrite !length_fmap, Hlb, Hls.
    replace (4 + 2 * length ranges - 4 - length ranges - length ranges)%nat
      with 0%nat by lia.
    reflexivity.
Qed.

Lemma query_row_layout_witness :
  query scenario_s4_book (of_int 0) "" [decimal false 5 1; of_int 1]
    = Some (returned []
              (query scenario_s4_book (of_int 0) ""
                     [decimal false 5 1; of_int 1])) /\
  length (returned []
            (query scenario_s4_book (of_int 0) ""
                   [decimal false 5 1; of_int 1])) = 9%nat.
Proof.
  assert (H0 : query scenario_s4_book (of_int 0) ""
                     [decimal false 5 1; of_int 1]
               = Some (returned []
                         (query scenario_s4_book (of_int 0) ""
                                [decimal false 5 1; of_int 1])))
    by (apply returns_returned; vm_compute; reflexivity).
  apply (conj H0).
  exact (proj1 (query_row_layout _ _ _ _ _ H0)).
Defined.

(** * Further properties of the handler *)

(** ** The sampling of the books *)

Section Sampling.

Lemma write_to_db_keeps h answer now now' :
  LoggerHandler.order_books (LoggerHandler.write_to_db h answer now now').1.1
    = LoggerHandler.order_books h /\
  LoggerHandler.post_to_slack (LoggerHandler.write_to_db h answer now now').1.1
    = LoggerHandler.post_to_slack h /\
  LoggerHandler.slack_url (LoggerHandler.write_to_db h answer now now').1.1
    = LoggerHandler.slack_url h /\
  (LoggerHandler.post_to_slack h = false ->
   (LoggerHandler.write_to_db h answer now now').1.2 = []).
Proof.
  unfold LoggerHandler.write_to_db. destruct answer as [|err]; [auto |].
  destruct (_ && _); [| auto]. destruct (fle _ _); [| auto].
  cbn [fst snd LoggerHandler.with_last_error LoggerHandler.order_books
       LoggerHandler.post_to_slack LoggerHandler.slack_url].
  repeat (split; [reflexivity |]). unfold LoggerHandler.write_to_slack.
  cbn [LoggerHandler.post_to_slack LoggerHandler.with_last_error].
  intros ->. reflexivity.
Qed.

Lemma sample_product_keeps world product st st' :
  LoggerHandler.sample_product world product st = Some st' ->
  LoggerHandler.order_books st'.1.1 = LoggerHandler.order_books st.1.1 /\
  LoggerHandler.post_to_slack st'.1.1 = LoggerHandler.post_to_slack st.1.1 /\
  LoggerHandler.slack_url st'.1.1 = LoggerHandler.slack_url st.1.1 /\
  (exists rs, st'.1.2 = st.1.2 ++ rs /\ (length rs <= 1)%nat /\
              Forall sampled rs) /\
  (LoggerHandler.post_to_slack st.1.1 = false -> st'.2 = st.2).
Proof.
  unfold LoggerHandler.sample_product.
  destruct (LoggerHandler.order_books st.1.1 !! product) as [book|];
    [| discriminate].
  cbn [mbind option_bind].
  destruct (built book) as [is_built|]; [| discriminate].
  cbn [mbind option_bind].
  destruct is_built; cbn [negb].
  - destruct (query book _ _ _) as [row|] eqn:Hq; [| discriminate].
    cbn [mbind option_bind]. intros [= <-]. cbn [fst snd].
    destruct (write_to_db_keeps st.1.1
                (LoggerHandler.db_answer (world product))
                (LoggerHandler.failed_at (world product))
                (LoggerHandler.logged_at (world product)))
      as (Hb & Hp & Hu & Hoff).
    repeat (split; [assumption |]). split.
    + eexists. split; [reflexivity |]. split; [reflexivity |].
      constructor; [| constructor]. unfold sampled.
      cbn [LoggerHandler.path LoggerHandler.sql LoggerHandler.row].
      repeat (split; [reflexivity |]).
      rewrite length_fmap, (query_row_length _ _ _ _ _ Hq).
      split; reflexivity.
    + intros Hno. rewrite (Hoff Hno). apply app_nil_r.
  - intros [= <-]. repeat (split; [reflexivity |]). split; [| reflexivity].
    exists []. rewrite app_nil_r. repeat split; [cbn; lia | constructor].
Qed.

Lemma sample_products_keep world products :
  forall st st',
    for_each products (LoggerHandler.sample_product world) st = Some st' ->
    LoggerHandler.order_books st'.1.1 = LoggerHandler.order_books st.1.1 /\
    LoggerHandler.post_to_slack st'.1.1 = LoggerHandler.post_to_slack st.1.1 /\
    LoggerHandler.slack_url st'.1.1 = LoggerHandler.slack_url st.1.1 /\
    (exists rs, st'.1.2 = st.1.2 ++ rs /\
                (length rs <= length products)%nat /\ Forall sampled rs) /\
    (LoggerHandler.post_to_slack st.1.1 = false -> st'.2 = st.2).
Proof.
  induction products as [|product products IH]; intros st st' H;
    cbn [for_each] in H.
  - injection H as <-. repeat (split; [reflexivity |]). split; [| reflexivity].
    exists []. rewrite app_nil_r. repeat split; [cbn; lia | constructor].
  - destruct (LoggerHandler.sample_product world product st) as [st1|] eqn:H1;
      [| discriminate].
    cbn [mbind option_bind] in H.
    destruct (sample_product_keeps _ _ _ _ H1)
      as (Hb1 & Hp1 & Hu1 & (rs1 & Hr1 & Hl1 & Hf1) & Ho1).
    destruct (IH _ _ H) as (Hb & Hp & Hu & (rs & Hr & Hl & Hf) & Ho).
    split; [congruence |]. split; [congruence |]. split; [congruence |].
    split.
    + exists (rs1 ++ rs). rewrite Hr, Hr1, <- app_assoc.
      split; [reflexivity |]. split.
      * rewrite length_app. cbn [length]. lia.
      * apply Forall_app. split; assumption.
    + intros Hno. rewrite Ho, Ho1 by congruence. reflexivity.
Qed.

Lemma new_books now h :
  LoggerHandler.new now = Some h ->
  LoggerHandler.order_books h !! GDAXConst.btc_usd = Some btc_book /\
  LoggerHandler.order_books h !! GDAXConst.eth_usd = Some eth_book /\
  LoggerHandler.order_books h !! GDAXConst.ltc_usd = Some ltc_book /\
  LoggerHandler.order_books h !! GDAXConst.bch_usd = Some bch_book.
Proof.
  unfold LoggerHandler.new.
  replace (OrderBook.new (of_int 50000) GDAXConst.btc_usd)
    with (Some btc_book) by (vm_compute; reflexivity).
  replace (OrderBook.new (of_int 10000) GDAXConst.eth_usd)
    with (Some eth_book) by (vm_compute; reflexivity).
  replace (OrderBook.new (of_int 5000) GDAXConst.ltc_usd)
    with (Some ltc_book) by (vm_compute; reflexivity).
  replace (OrderBook.new (of_int 20000) GDAXConst.bch_usd)
    with (Some bch_book) by (vm_compute; reflexivity).
  cbn [mbind option_bind]. intros [= <-]. cbn [LoggerHandler.order_books].
  repeat apply conj.
  - apply lookup_insert_eq.
  - rewrite lookup_insert_ne by discriminate. apply lookup_insert_eq.
  - rewrite !lookup_insert_ne by discriminate. apply lookup_insert_eq.
  - rewrite !lookup_insert_ne by discriminate. apply lookup_insert_eq.
Qed.

Lemma sample_unbuilt world product st book :
  LoggerHandler.order_books st.1.1 !! product = Some book ->
  built book = Some false ->
  LoggerHandler.sample_product world product st = Some st.
Proof.
  intros Hb Hu. unfold LoggerHandler.sample_product. rewrite Hb.
  cbn [mbind option_bind]. rewrite Hu. reflexivity.
Qed.

End Sampling.

(** X17.  What [__query_order_books] submits: at most one insert for each
    product, each to [order_books.db] with the statement of 23 [?] and a
    row of as many values, one for each column of the [order_books] table;
    the books and the Slack settings of the handler stay as they were, and
    with posting off nothing is posted. *)
Theorem query_order_books_rows h world h' requests posts :
  LoggerHandler.query_order_books h world = Some (h', requests, posts) ->
  LoggerHandler.order_books h' = LoggerHandler.order_books h /\
  LoggerHandler.post_to_slack h' = LoggerHandler.post_to_slack h /\
  LoggerHandler.slack_url h' = LoggerHandler.slack_url h /\
  (length requests <= length LoggerHandler.product_ids)%nat /\
  Forall sampled requests /\
  (LoggerHandler.post_to_slack h = false -> posts = []).
Proof.
  unfold LoggerHandler.query_order_books. intros H.
  destruct (sample_products_keep _ _ _ _ H)
    as (Hb & Hp & Hu & (rs & Hr & Hl & Hf) & Ho).
  cbn [fst snd app] in *. subst rs. auto 10.
Qed.

Lemma query_order_books_rows_witness :
  LoggerHandler.query_order_books one_level_handler quiet_world
    = Some (one_sample.1.1, one_sample.1.2, one_sample.2) /\
  length one_sample.1.2 = 1%nat /\
  placeholders LoggerHandler.OB_INSERT = 23%nat /\
  LoggerHandler.order_books one_sample.1.1
    = LoggerHandler.order_books one_level_handler /\
  LoggerHandler.post_to_slack one_sample.1.1
    = LoggerHandler.post_to_slack one_level_handler /\
  LoggerHandler.slack_url one_sample.1.1
    = LoggerHandler.slack_url one_level_handler /\
  (length one_sample.1.2 <= length LoggerHandler.product_ids)%nat /\
  Forall sampled one_sample.1.2 /\
  (LoggerHandler.post_to_slack one_level_handler = false ->
   one_sample.2 = []).
Proof.
  assert (H0 : LoggerHandler.query_order_books one_level_handler quiet_world
               = Some (one_sample.1.1, one_sample.1.2, one_sample.2)).
  { transitivity (Some one_sample).
    - apply returns_returned. vm_compute. reflexivity.
    - apply (f_equal Some). generalize one_sample. intros [[? ?] ?].
      reflexivity. }
  assert (H1 : length one_sample.1.2 = 1%nat) by (vm_compute; reflexivity).
  assert (H2 : placeholders LoggerHandler.OB_INSERT = 23%nat)
    by (vm_compute; reflexivity).
  apply (conj H0), (conj H1), (conj H2).
  exact (query_order_books_rows _ _ _ _ _ H0).
Defined.

(** X18.  A new handler samples nothing: none of its four books is built,
    so [__query_order_books] submits no insert, posts nothing and leaves
    the handler as it was, whatever sqlite and the clock would answer. *)
Theorem new_handler_samples_nothing now h world :
  LoggerHandler.new now = Some h ->
  LoggerHandler.query_order_books h world = Some (h, [], []).
Proof.
  intros Hnew. destruct (new_books now h Hnew) as (Hbtc & Heth & Hltc & Hbch).
  unfold LoggerHandler.query_order_books, LoggerHandler.product_ids.
  cbn [for_each].
  rewrite (sample_unbuilt world GDAXConst.btc_usd (h, [], []) btc_book Hbtc)
    by (vm_compute; reflexivity).
  cbn [mbind option_bind].
  rewrite (sample_unbuilt world GDAXConst.eth_usd (h, [], []) eth_book Heth)
    by (vm_compute; reflexivity).
  cbn [mbind option_bind].
  rewrite (sample_unbuilt world GDAXConst.ltc_usd (h, [], []) ltc_book Hltc)
    by (vm_compute; reflexivity).
  cbn [mbind option_bind].
  rewrite (sample_unbuilt world GDAXConst.bch_usd (h, [], []) bch_book Hbch)
    by (vm_compute; reflexivity).
  reflexivity.
Qed.

Lemma new_handler_samples_nothing_witness :
  LoggerHandler.new (of_int 1600000000) = Some handler0 /\
  LoggerHandler.query_order_books handler0 quiet_world
    = Some (handler0, [], []).
Proof.
  assert (H0 : LoggerHandler.new (of_int 1600000000) = Some handler0)
    by (apply returns_returned; vm_compute; reflexivity).
  apply (conj H0).
  exact (new_handler_samples_nothing _ _ quiet_world H0).
Defined.

(** ** The row of a ticker *)

Section Ticker.

Lemma dict_set_fresh d key v :
  key ∉ d.*1 -> LoggerHandler.dict_set d key v = d ++ [(key, v)].
Proof.
  induction d as [|[k w] d IH]; cbn [LoggerHandler.dict_set fmap list_fmap fst app];
    intros H; [reflexivity |].
  apply not_elem_of_cons in H as [Hne H].
  destruct (String.eqb k key) eqn:E.
  - apply String.eqb_eq in E. congruence.
  - rewrite IH by exact H. reflexivity.
Qed.

Lemma ticker_fold data :
  forall fdata,
    NoDup data.*1 -> (forall k, k ∈ data.*1 -> k ∉ fdata.*1) ->
    fold_left
      (λ fdata kv,
         if bool_decide (kv.1 ∈ LoggerHandler.ticker_columns)
         then LoggerHandler.dict_set fdata kv.1 kv.2
         else fdata)
      data fdata
    = fdata ++ List.filter wanted data.
Proof.
  induction data as [|[k v] data IH]; intros fdata Hnd Hfresh;
    cbn [fold_left List.filter fst snd]; [symmetry; apply app_nil_r |].
  cbn [fmap list_fmap fst] in Hnd, Hfresh.
  apply NoDup_cons in Hnd as [Hk Hnd].
  unfold wanted at 1. cbn [fst].
  destruct (bool_decide (k ∈ LoggerHandler.ticker_columns)).
  - rewrite dict_set_fresh by (apply Hfresh; left).
    rewrite IH; [rewrite <- app_assoc; reflexivity | exact Hnd |].
    intros k' Hk'. rewrite fmap_app. apply not_elem_of_app. split.
    + apply Hfresh. right. exact Hk'.
    + cbn. intros ->%list_elem_of_singleton. contradiction.
  - apply IH; [exact Hnd |]. intros k' Hk'. apply Hfresh. right. exact Hk'.
Qed.

End Ticker.

(** X19.  The row of a ticker follows the frame: for a frame whose keys are
    distinct and are neither [system_time] nor [server_time],
    [insert_ticker] submits the two readings of the clock followed by the
    values of the members of the frame that name a column of the table, in
    the order of the frame. *)
Theorem ticker_row_in_frame_order system_time server_time members :
  NoDup members.*1 ->
  (("system_time" : string) ∉ members.*1) ->
  (("server_time" : string) ∉ members.*1) ->
  LoggerHandler.insert_ticker system_time server_time
                              (LoggerHandler.JObj members)
  = Some (LoggerHandler.DbRequest LoggerHandler.TICKER_PATH
            "INSERT INTO tickers VALUES (?, ?, ?, ?, ?, ?, ?, ?, ?, ?)"
            ([LoggerHandler.JNum system_time; LoggerHandler.JStr server_time]
             ++ (snd <$> List.filter wanted members))).
Proof.
  intros Hnd Hsys Hsrv. unfold LoggerHandler.insert_ticker.
  unfold LoggerHandler.ticker_fdata. rewrite ticker_fold.
  - rewrite fmap_app. reflexivity.
  - exact Hnd.
  - intros k Hk. cbn [fmap list_fmap fst].
    intros [->|[->|H]%elem_of_cons]%elem_of_cons; [auto | auto |].
    inversion H.
Qed.

Lemma ticker_row_in_frame_order_witness :
  NoDup short_ticker.*1 /\
  (("system_time" : string) ∉ short_ticker.*1) /\
  (("server_time" : string) ∉ short_ticker.*1) /\
  LoggerHandler.insert_ticker (of_int 1600000000) "2020-09-13 12:26:40"
                              (LoggerHandler.JObj short_ticker)
  = Some (LoggerHandler.DbRequest LoggerHandler.TICKER_PATH
            "INSERT INTO tickers VALUES (?, ?, ?, ?, ?, ?, ?, ?, ?, ?)"
            ([LoggerHandler.JNum (of_int 1600000000);
              LoggerHandler.JStr "2020-09-13 12:26:40"]
             ++ (snd <$> List.filter wanted short_ticker))).
Proof.
  assert (H0 : NoDup short_ticker.*1)
    by (apply (bool_decide_unpack _); vm_compute; exact I).
  assert (H1 : ("system_time" : string) ∉ short_ticker.*1)
    by (apply (bool_decide_unpack _); vm_compute; exact I).
  assert (H2 : ("server_time" : string) ∉ short_ticker.*1)
    by (apply (bool_decide_unpack _); vm_compute; exact I).
  apply (conj H0), (conj H1), (conj H2).
  exact (ticker_row_in_frame_order _ _ _ H0 H1 H2).
Defined.

(** ** What a frame leaves of the handler *)

Section Frames.

Lemma same_frame_refl b : same_frame b b.
Proof. unfold same_frame. auto. Qed.

Lemma same_frame_trans b1 b2 b3 :
  same_frame b1 b2 -> same_frame b2 b3 -> same_frame b1 b3.
Proof. unfold same_frame. intros (? & ? & ?) (? & ? & ?). repeat split; congruence. Qed.

Lemma same_handler_refl h : same_handler h h.
Proof.
  unfold same_handler. repeat (split; [reflexivity |]). intros q.
  destruct (LoggerHandler.order_books h !! q); [apply same_frame_refl | exact I].
Qed.

Lemma same_handler_trans h1 h2 h3 :
  same_handler h1 h2 -> same_handler h2 h3 -> same_handler h1 h3.
Proof.
  intros (Hp & Hu & He & Hb) (Hp' & Hu' & He' & Hb').
  unfold same_handler. repeat (split; [congruence |]). intros q.
  specialize (Hb q). specialize (Hb' q).
  destruct (LoggerHandler.order_books h1 !! q),
           (LoggerHandler.order_books h2 !! q),
           (LoggerHandler.order_books h3 !! q);
    try contradiction; try exact I.
  eapply same_frame_trans; eassumption.
Qed.

Lemma kept_refl data h : kept data h h.
Proof. split; [apply same_handler_refl | reflexivity]. Qed.

Lemma kept_trans data h1 h2 h3 :
  kept data h1 h2 -> kept data h2 h3 -> kept data h1 h3.
Proof.
  intros [Hs Hq] [Hs' Hq']. split; [eapply same_handler_trans; eassumption |].
  intros q Hne. rewrite Hq', Hq by exact Hne. reflexivity.
Qed.

Lemma tracked_string product p :
  LoggerHandler.tracked product = Some p -> product = LoggerHandler.JStr p.
Proof.
  unfold LoggerHandler.tracked. destruct product; try discriminate.
  destruct (bool_decide _); [| discriminate]. intros [= <-]. reflexivity.
Qed.

Lemma kept_with_book data h product p book book' :
  LoggerHandler.member "product_id" data = Some product ->
  LoggerHandler.tracked product = Some p ->
  LoggerHandler.order_books h !! p = Some book ->
  same_frame book book' ->
  kept data h (LoggerHandler.with_book h p book').
Proof.
  intros Hm Ht Hb Hf. apply tracked_string in Ht as ->. split.
  - unfold same_handler, LoggerHandler.with_book.
    cbn [LoggerHandler.post_to_slack LoggerHandler.slack_url
         LoggerHandler.last_error LoggerHandler.order_books].
    repeat (split; [reflexivity |]). intros q.
    destruct (decide (q = p)) as [->|Hne].
    + rewrite lookup_insert_eq, Hb. exact Hf.
    + rewrite lookup_insert_ne by congruence.
      destruct (LoggerHandler.order_books h !! q);
        [apply same_frame_refl | exact I].
  - intros q Hne. unfold LoggerHandler.with_book.
    cbn [LoggerHandler.order_books]. apply lookup_insert_ne.
    intros ->. apply Hne. exact Hm.
Qed.

Lemma apply_same_frame o b b' : apply o b = Some b' -> same_frame b b'.
Proof.
  unfold same_frame. destruct o as [o|price volume|price]; cbn [apply].
  - unfold init_book, build_order_book.
    destruct (gen_vol_array _ _ _); [| discriminate]. cbn [mbind option_bind].
    destruct (for_each (range _ _) _ _); [| discriminate].
    cbn [mbind option_bind].
    destruct (for_each (range_down _ _) _ _); [| discriminate].
    cbn [mbind option_bind]. intros [= <-]. auto.
  - intros H. apply update_volume_fields in H. tauto.
  - unfold update_market_price. destruct (valid_price b price);
      [| intros [= <-]; auto].
    destruct (to_float price); [| discriminate]. cbn [mbind option_bind].
    intros [= <-]. auto.
Qed.

Lemma update_order_book_kept h data h' :
  LoggerHandler.update_order_book h data = Some h' -> kept data h h'.
Proof.
  unfold LoggerHandler.update_order_book. intros H.
  apply bind_Some in H as (ty0 & _ & H).
  apply bind_Some in H as (ty & _ & H).
  apply bind_Some in H as (h1 & H1 & H).
  apply bind_Some in H as (h2 & H2 & H3).
  apply (kept_trans data h h1 h'); [| apply (kept_trans data h1 h2 h')].
  - destruct (LoggerHandler.contains GDAXConst.l2update ty);
      [| injection H1 as <-; apply kept_refl].
    apply bind_Some in H1 as (product & Hp & H1).
    do 6 (apply bind_Some in H1 as (? & _ & H1)).
    destruct (LoggerHandler.tracked product) as [p|] eqn:Ht;
      [| injection H1 as <-; apply kept_refl].
    apply bind_Some in H1 as (book & Hb & H1).
    apply bind_Some in H1 as (price & _ & H1).
    apply bind_Some in H1 as (volume & _ & H1).
    apply bind_Some in H1 as (book' & Hu & H1). injection H1 as <-.
    apply (kept_with_book data h product p book book' Hp Ht Hb).
    apply (apply_same_frame (UpdateVolume price volume)). exact Hu.
  - destruct (LoggerHandler.contains GDAXConst.match_ ty);
      [| injection H2 as <-; apply kept_refl].
    apply bind_Some in H2 as (product & Hp & H2).
    destruct (LoggerHandler.tracked product) as [p|] eqn:Ht;
      [| injection H2 as <-; apply kept_refl].
    apply bind_Some in H2 as (book & Hb & H2).
    apply bind_Some in H2 as (price0 & _ & H2).
    apply bind_Some in H2 as (price & _ & H2).
    apply bind_Some in H2 as (book' & Hu & H2). injection H2 as <-.
    apply (kept_with_book data h1 product p book book' Hp Ht Hb).
    apply (apply_same_frame (UpdateMarketPrice price)). exact Hu.
  - destruct (LoggerHandler.contains GDAXConst.snapshot ty);
      [| injection H3 as <-; apply kept_refl].
    apply bind_Some in H3 as (product & Hp & H3).
    destruct (LoggerHandler.tracked product) as [p|] eqn:Ht;
      [| injection H3 as <-; apply kept_refl].
    apply bind_Some in H3 as (book & Hb & H3).
    apply bind_Some in H3 as (bids0 & _ & H3).
    apply bind_Some in H3 as (bids & _ & H3).
    apply bind_Some in H3 as (asks0 & _ & H3).
    apply bind_Some in H3 as (asks & _ & H3).
    apply bind_Some in H3 as (book' & Hu & H3). injection H3 as <-.
    apply (kept_with_book data h2 product p book book' Hp Ht Hb).
    apply (apply_same_frame (InitBook (Orders bids asks))). exact Hu.
Qed.

End Frames.

(** X20.  A frame touches the book of its own product only: whatever
    [update_order_book] does with a frame, the book of every product that
    the frame does not name under [product_id] stays as it was. *)
Theorem frame_touches_its_product_only h data h' q :
  LoggerHandler.update_order_book h data = Some h' ->
  LoggerHandler.member "product_id" data <> Some (LoggerHandler.JStr q) ->
  LoggerHandler.order_books h' !! q = LoggerHandler.order_books h !! q.
Proof. intros H. apply (update_order_book_kept h data h' H). Qed.

Lemma frame_touches_its_product_only_witness :
  LoggerHandler.update_order_book handler0 two_changes
    = Some one_level_handler /\
  LoggerHandler.member "product_id" two_changes
    <> Some (LoggerHandler.JStr "ETH-USD") /\
  LoggerHandler.order_books one_level_handler !! "ETH-USD"
    = LoggerHandler.order_books handler0 !! "ETH-USD".
Proof.
  assert (H0 : LoggerHandler.update_order_book handler0 two_changes
               = Some one_level_handler)
    by (apply returns_returned; vm_compute; reflexivity).
  assert (H1 : LoggerHandler.member "product_id" two_changes
               <> Some (LoggerHandler.JStr "ETH-USD"))
    by (vm_compute; discriminate).
  apply (conj H0), (conj H1).
  exact (frame_touches_its_product_only _ _ _ _ H0 H1).
Defined.

(** X21.  Frames never reshape the handler: after any run of frames through
    [update_order_book] the Slack settings and the time of the last error
    are as before, no product has been added or dropped, and every book has
    the price cap, the price points and the currency it had. *)
Theorem feed_keeps_the_handler h frames h' :
  feed h frames = Some h' -> same_handler h h'.
Proof.
  unfold feed. revert h. induction frames as [|data frames IH]; intros h H;
    cbn [for_each] in H.
  - injection H as <-. apply same_handler_refl.
  - apply bind_Some in H as (h1 & H1 & H).
    apply (same_handler_trans h h1 h'); [| apply IH, H].
    apply (update_order_book_kept h data h1 H1).
Qed.

Lemma feed_keeps_the_handler_witness :
  feed handler0 [two_changes; match_frame]
    = Some (returned no_handler (feed handler0 [two_changes; match_frame])) /\
  same_handler handler0
    (returned no_handler (feed handler0 [two_changes; match_frame])).
Proof.
  assert (H0 : feed handler0 [two_changes; match_frame]
               = Some (returned no_handler
                         (feed handler0 [two_changes; match_frame])))
    by (apply returns_returned; vm_compute; reflexivity).
  apply (conj H0).
  exact (feed_keeps_the_handler _ _ _ H0).
Defined.

(** X22.  An [l2update] frame without a change raises, whatever its
    product: [update_order_book] reads [changes[0]] before it looks at the
    product, so the frame is not passed over even when the handler does
    not track the product. *)
Theorem l2update_without_changes_raises h data ty :
  LoggerHandler.member "type" data = Some (LoggerHandler.JStr ty) ->
  LoggerHandler.contains GDAXConst.l2update ty = true ->
  LoggerHandler.member "changes" data = Some (LoggerHandler.JArr []) ->
  LoggerHandler.update_order_book h data = None.
Proof.
  intros Hty Hl Hc. unfold LoggerHandler.update_order_book.
  rewrite Hty. cbn [mbind option_bind]. rewrite Hl, Hc.
  destruct (LoggerHandler.member "product_id" data); reflexivity.
Qed.

Lemma l2update_without_changes_raises_witness :
  LoggerHandler.member "type" no_changes
    = Some (LoggerHandler.JStr "l2update") /\
  LoggerHandler.contains GDAXConst.l2update "l2update" = true /\
  LoggerHandler.member "changes" no_changes = Some (LoggerHandler.JArr []) /\
  LoggerHandler.tracked (LoggerHandler.JStr "XRP-USD") = None /\
  LoggerHandler.update_order_book handler0 no_changes = None.
Proof.
  assert (H0 : LoggerHandler.member "type" no_changes
               = Some (LoggerHandler.JStr "l2update"))
    by (vm_compute; reflexivity).
  assert (H1 : LoggerHandler.contains GDAXConst.l2update "l2update" = true)
    by (vm_compute; reflexivity).
  assert (H2 : LoggerHandler.member "changes" no_changes
               = Some (LoggerHandler.JArr [])) by (vm_compute; reflexivity).
  assert (H3 : LoggerHandler.tracked (LoggerHandler.JStr "XRP-USD") = None)
    by (vm_compute; reflexivity).
  apply (conj H0), (conj H1), (conj H2), (conj H3).
  exact (l2update_without_changes_raises handler0 _ _ H0 H1 H2).
Defined.
